(** * ADGM corporate agent: the structured extractor, the heuristic
      classifiers, the compliance scorer and the section extractor

    A shallow embedding of [document_analyzer.py], [checklist_verifier.py],
    [document_processor.py], [rag_engine.py] and [utils/document_types.py].

    Conventions of the embedding.
    - A Python [str] is a [string] that holds its UTF-8 bytes.  A character
      is one UTF-8 sequence (see [chars]): [len], the slices, [str.strip],
      [str.split], [str.isupper] and the class [\s] of [re] count and
      classify characters, with the whitespace and the letter case of the
      Unicode database of CPython 3.11.  Under [re.IGNORECASE] a letter of
      a pattern matches both cases of it and the characters outside ASCII
      that fold onto it.  [str.lower] is its ASCII part: it leaves the
      letters outside ASCII as they are.
    - A Python [dict] is an association list in insertion order.
    - The numbers of the scorer are integers held in floats by the source;
      they are in [Z] here.  Confidences are rationals in [Q]: a constant
      of the source is the rational that is written, the quotient of the
      keyword fallback is exact, and the confidence computed from an answer
      of the engine is rounded as the floats round it (see [PyFloat]).
    - A call that may raise has a result of type [outcome].
    - Two limits of the interpreter are modelled where [json.loads] meets
      them: the digits of an integer literal and the depth of recursion
      (see [interpreter]).  The calls of the program itself are taken to
      have room. *)

From Stdlib Require Import String Ascii List Bool Arith ZArith QArith Qminmax Lia.
From Stdlib Require Import Sorting.Permutation Sorting.Sorted.
Import ListNotations.

Local Close Scope Q_scope.
Local Open Scope list_scope.
Local Open Scope string_scope.

(** ** Python strings *)

Module PyStr.

Definition between (lo hi : nat) (c : ascii) : bool :=
  (lo <=? nat_of_ascii c)%nat && (nat_of_ascii c <=? hi)%nat.

Definition is_upper_char : ascii -> bool := between 65 90.
Definition is_lower_char : ascii -> bool := between 97 122.
Definition is_digit : ascii -> bool := between 48 57.

(** The whitespace of one byte: TAB, LF, VT, FF, CR, the separators FS,
    GS, RS, US and the space. *)
Definition isspace_char (c : ascii) : bool :=
  between 9 13 c || between 28 32 c.

Definition lower_char (c : ascii) : ascii :=
  if is_upper_char c then ascii_of_nat (nat_of_ascii c + 32) else c.

(** [s.lower()], for the letters of ASCII; the other characters are left
    as they are. *)
Fixpoint lower (s : string) : string :=
  match s with
  | EmptyString => EmptyString
  | String c s' => String (lower_char c) (lower s')
  end.

(** *** Characters

    A character of a [str] is a byte that is not a continuation byte of
    UTF-8, with the continuation bytes that follow it. *)

Definition is_continuation (c : ascii) : bool := between 128 191 c.

(** [list(s)] *)
Fixpoint chars (s : string) : list string :=
  match s with
  | EmptyString => []
  | String c s' =>
      match s' with
      | EmptyString => [String c EmptyString]
      | String d _ =>
          if is_continuation d then
            match chars s' with
            | ch :: l => String c ch :: l
            | [] => [String c EmptyString]
            end
          else String c EmptyString :: chars s'
      end
  end.

(** [str.join] of the empty string: the characters put together again. *)
Definition unchars (l : list string) : string := fold_right append EmptyString l.

(** [len(s)] *)
Definition len (s : string) : nat := List.length (chars s).

Definition byte (n : N) : string := String (ascii_of_N n) EmptyString.

(** [chr(n)], as UTF-8 bytes. *)
Definition chr (n : N) : string :=
  if (n <? 128)%N then byte n
  else if (n <? 2048)%N then (byte (192 + n / 64) ++ byte (128 + n mod 64))
  else if (n <? 65536)%N then
    (byte (224 + n / 4096) ++ byte (128 + (n / 64) mod 64) ++ byte (128 + n mod 64))
  else
    (byte (240 + n / 262144) ++ byte (128 + (n / 4096) mod 64)
       ++ byte (128 + (n / 64) mod 64) ++ byte (128 + n mod 64)).

Fixpoint continue (acc : N) (s : string) : N :=
  match s with
  | EmptyString => acc
  | String c s' => continue (acc * 64 + N_of_ascii c mod 64)%N s'
  end.

(** [ord(ch)] of a character. *)
Definition ord (ch : string) : N :=
  match ch with
  | EmptyString => 0%N
  | String c rest =>
      let lead := N_of_ascii c in
      continue (if (lead <? 128)%N then lead
                else if (lead <? 224)%N then (lead - 192)%N
                else if (lead <? 240)%N then (lead - 224)%N
                else (lead - 240)%N) rest
  end.

(** The code points of the whitespace characters: those of [str.isspace],
    of [str.strip] and [str.split] without an argument, and of the class
    [\s] of [re] on a [str] pattern. *)
Definition whitespace : list N :=
  [ 9; 10; 11; 12; 13; 28; 29; 30; 31; 32; 133; 160; 5760;
    8192; 8193; 8194; 8195; 8196; 8197; 8198; 8199; 8200; 8201; 8202;
    8232; 8233; 8239; 8287; 12288 ]%N.

(** [ch.isspace()] of a character. *)
Definition is_space (ch : string) : bool := existsb (N.eqb (ord ch)) whitespace.

(** [s.startswith(p)] *)
Definition startswith (p s : string) : bool := prefix p s.

(** [needle in hay] *)
Fixpoint contains (needle hay : string) : bool :=
  match hay with
  | EmptyString => prefix needle EmptyString
  | String _ hay' => prefix needle hay || contains needle hay'
  end.

Fixpoint drop_spaces (l : list string) : list string :=
  match l with
  | [] => []
  | ch :: l' => if is_space ch then drop_spaces l' else l
  end.

(** [s.lstrip()] *)
Definition lstrip (s : string) : string := unchars (drop_spaces (chars s)).

(** [s.rstrip()] *)
Definition rstrip (s : string) : string := unchars (rev (drop_spaces (rev (chars s)))).

(** [s.strip()] *)
Definition strip (s : string) : string :=
  unchars (rev (drop_spaces (rev (drop_spaces (chars s))))).

Fixpoint forall_chars (p : ascii -> bool) (s : string) : bool :=
  match s with
  | EmptyString => true
  | String c s' => p c && forall_chars p s'
  end.

(** The ranges of the code points that are lowercase or titlecase letters
    ([Py_UNICODE_ISLOWER] or [Py_UNICODE_ISTITLE]), from the Unicode database
    of CPython 3.11 (Unicode 14.0). *)
Definition lower_or_title_ranges : list (N * N) :=
  [(97, 122); (170, 170); (181, 181); (186, 186); (223, 246); (248, 255); (257, 257);
   (259, 259); (261, 261); (263, 263); (265, 265); (267, 267); (269, 269); (271, 271);
   (273, 273); (275, 275); (277, 277); (279, 279); (281, 281); (283, 283); (285, 285);
   (287, 287); (289, 289); (291, 291); (293, 293); (295, 295); (297, 297); (299, 299);
   (301, 301); (303, 303); (305, 305); (307, 307); (309, 309); (311, 312); (314, 314);
   (316, 316); (318, 318); (320, 320); (322, 322); (324, 324); (326, 326); (328, 329);
   (331, 331); (333, 333); (335, 335); (337, 337); (339, 339); (341, 341); (343, 343);
   (345, 345); (347, 347); (349, 349); (351, 351); (353, 353); (355, 355); (357, 357);
   (359, 359); (361, 361); (363, 363); (365, 365); (367, 367); (369, 369); (371, 371);
   (373, 373); (375, 375); (378, 378); (380, 380); (382, 384); (387, 387); (389, 389);
   (392, 392); (396, 397); (402, 402); (405, 405); (409, 411); (414, 414); (417, 417);
   (419, 419); (421, 421); (424, 424); (426, 427); (429, 429); (432, 432); (436, 436);
   (438, 438); (441, 442); (445, 447); (453, 454); (456, 457); (459, 460); (462, 462);
   (464, 464); (466, 466); (468, 468); (470, 470); (472, 472); (474, 474); (476, 477);
   (479, 479); (481, 481); (483, 483); (485, 485); (487, 487); (489, 489); (491, 491);
   (493, 493); (495, 496); (498, 499); (501, 501); (505, 505); (507, 507); (509, 509);
   (511, 511); (513, 513); (515, 515); (517, 517); (519, 519); (521, 521); (523, 523);
   (525, 525); (527, 527); (529, 529); (531, 531); (533, 533); (535, 535); (537, 537);
   (539, 539); (541, 541); (543, 543); (545, 545); (547, 547); (549, 549); (551, 551);
   (553, 553); (555, 555); (557, 557); (559, 559); (561, 561); (563, 569); (572, 572);
   (575, 576); (578, 578); (583, 583); (585, 585); (587, 587); (589, 589); (591, 659);
   (661, 696); (704, 705); (736, 740); (837, 837); (881, 881); (883, 883); (887, 887);
   (890, 893); (912, 912); (940, 974); (976, 977); (981, 983); (985, 985); (987, 987);
   (989, 989); (991, 991); (993, 993); (995, 995); (997, 997); (999, 999); (1001, 1001);
   (1003, 1003); (1005, 1005); (1007, 1011); (1013, 1013); (1016, 1016); (1019, 1020);
   (1072, 1119); (1121, 1121); (1123, 1123); (1125, 1125); (1127, 1127); (1129, 1129);
   (1131, 1131); (1133, 1133); (1135, 1135); (1137, 1137); (1139, 1139); (1141, 1141);
   (1143, 1143); (1145, 1145); (1147, 1147); (1149, 1149); (1151, 1151); (1153, 1153);
   (1163, 1163); (1165, 1165); (1167, 1167); (1169, 1169); (1171, 1171); (1173, 1173);
   (1175, 1175); (1177, 1177); (1179, 1179); (1181, 1181); (1183, 1183); (1185, 1185);
   (1187, 1187); (1189, 1189); (1191, 1191); (1193, 1193); (1195, 1195); (1197, 1197);
   (1199, 1199); (1201, 1201); (1203, 1203); (1205, 1205); (1207, 1207); (1209, 1209);
   (1211, 1211); (1213, 1213); (1215, 1215); (1218, 1218); (1220, 1220); (1222, 1222);
   (1224, 1224); (1226, 1226); (1228, 1228); (1230, 1231); (1233, 1233); (1235, 1235);
   (1237, 1237); (1239, 1239); (1241, 1241); (1243, 1243); (1245, 1245); (1247, 1247);
   (1249, 1249); (1251, 1251); (1253, 1253); (1255, 1255); (1257, 1257); (1259, 1259);
   (1261, 1261); (1263, 1263); (1265, 1265); (1267, 1267); (1269, 1269); (1271, 1271);
   (1273, 1273); (1275, 1275); (1277, 1277); (1279, 1279); (1281, 1281); (1283, 1283);
   (1285, 1285); (1287, 1287); (1289, 1289); (1291, 1291); (1293, 1293); (1295, 1295);
   (1297, 1297); (1299, 1299); (1301, 1301); (1303, 1303); (1305, 1305); (1307, 1307);
   (1309, 1309); (1311, 1311); (1313, 1313); (1315, 1315); (1317, 1317); (1319, 1319);
   (1321, 1321); (1323, 1323); (1325, 1325); (1327, 1327); (1376, 1416); (4304, 4346);
   (4349, 4351); (5112, 5117); (7296, 7304); (7424, 7615); (7681, 7681); (7683, 7683);
   (7685, 7685); (7687, 7687); (7689, 7689); (7691, 7691); (7693, 7693); (7695, 7695);
   (7697, 7697); (7699, 7699); (7701, 7701); (7703, 7703); (7705, 7705); (7707, 7707);
   (7709, 7709); (7711, 7711); (7713, 7713); (7715, 7715); (7717, 7717); (7719, 7719);
   (7721, 7721); (7723, 7723); (7725, 7725); (7727, 7727); (7729, 7729); (7731, 7731);
   (7733, 7733); (7735, 7735); (7737, 7737); (7739, 7739); (7741, 7741); (7743, 7743);
   (7745, 7745); (7747, 7747); (7749, 7749); (7751, 7751); (7753, 7753); (7755, 7755);
   (7757, 7757); (7759, 7759); (7761, 7761); (7763, 7763); (7765, 7765); (7767, 7767);
   (7769, 7769); (7771, 7771); (7773, 7773); (7775, 7775); (7777, 7777); (7779, 7779);
   (7781, 7781); (7783, 7783); (7785, 7785); (7787, 7787); (7789, 7789); (7791, 7791);
   (7793, 7793); (7795, 7795); (7797, 7797); (7799, 7799); (7801, 7801); (7803, 7803);
   (7805, 7805); (7807, 7807); (7809, 7809); (7811, 7811); (7813, 7813); (7815, 7815);
   (7817, 7817); (7819, 7819); (7821, 7821); (7823, 7823); (7825, 7825); (7827, 7827);
   (7829, 7837); (7839, 7839); (7841, 7841); (7843, 7843); (7845, 7845); (7847, 7847);
   (7849, 7849); (7851, 7851); (7853, 7853); (7855, 7855); (7857, 7857); (7859, 7859);
   (7861, 7861); (7863, 7863); (7865, 7865); (7867, 7867); (7869, 7869); (7871, 7871);
   (7873, 7873); (7875, 7875); (7877, 7877); (7879, 7879); (7881, 7881); (7883, 7883);
   (7885, 7885); (7887, 7887); (7889, 7889); (7891, 7891); (7893, 7893); (7895, 7895);
   (7897, 7897); (7899, 7899); (7901, 7901); (7903, 7903); (7905, 7905); (7907, 7907);
   (7909, 7909); (7911, 7911); (7913, 7913); (7915, 7915); (7917, 7917); (7919, 7919);
   (7921, 7921); (7923, 7923); (7925, 7925); (7927, 7927); (7929, 7929); (7931, 7931);
   (7933, 7933); (7935, 7943); (7952, 7957); (7968, 7975); (7984, 7991); (8000, 8005);
   (8016, 8023); (8032, 8039); (8048, 8061); (8064, 8116); (8118, 8119); (8124, 8124);
   (8126, 8126); (8130, 8132); (8134, 8135); (8140, 8140); (8144, 8147); (8150, 8151);
   (8160, 8167); (8178, 8180); (8182, 8183); (8188, 8188); (8305, 8305); (8319, 8319);
   (8336, 8348); (8458, 8458); (8462, 8463); (8467, 8467); (8495, 8495); (8500, 8500);
   (8505, 8505); (8508, 8509); (8518, 8521); (8526, 8526); (8560, 8575); (8580, 8580);
   (9424, 9449); (11312, 11359); (11361, 11361); (11365, 11366); (11368, 11368);
   (11370, 11370); (11372, 11372); (11377, 11377); (11379, 11380); (11382, 11389);
   (11393, 11393); (11395, 11395); (11397, 11397); (11399, 11399); (11401, 11401);
   (11403, 11403); (11405, 11405); (11407, 11407); (11409, 11409); (11411, 11411);
   (11413, 11413); (11415, 11415); (11417, 11417); (11419, 11419); (11421, 11421);
   (11423, 11423); (11425, 11425); (11427, 11427); (11429, 11429); (11431, 11431);
   (11433, 11433); (11435, 11435); (11437, 11437); (11439, 11439); (11441, 11441);
   (11443, 11443); (11445, 11445); (11447, 11447); (11449, 11449); (11451, 11451);
   (11453, 11453); (11455, 11455); (11457, 11457); (11459, 11459); (11461, 11461);
   (11463, 11463); (11465, 11465); (11467, 11467); (11469, 11469); (11471, 11471);
   (11473, 11473); (11475, 11475); (11477, 11477); (11479, 11479); (11481, 11481);
   (11483, 11483); (11485, 11485); (11487, 11487); (11489, 11489); (11491, 11492);
   (11500, 11500); (11502, 11502); (11507, 11507); (11520, 11557); (11559, 11559);
   (11565, 11565); (42561, 42561); (42563, 42563); (42565, 42565); (42567, 42567);
   (42569, 42569); (42571, 42571); (42573, 42573); (42575, 42575); (42577, 42577);
   (42579, 42579); (42581, 42581); (42583, 42583); (42585, 42585); (42587, 42587);
   (42589, 42589); (42591, 42591); (42593, 42593); (42595, 42595); (42597, 42597);
   (42599, 42599); (42601, 42601); (42603, 42603); (42605, 42605); (42625, 42625);
   (42627, 42627); (42629, 42629); (42631, 42631); (42633, 42633); (42635, 42635);
   (42637, 42637); (42639, 42639); (42641, 42641); (42643, 42643); (42645, 42645);
   (42647, 42647); (42649, 42649); (42651, 42653); (42787, 42787); (42789, 42789);
   (42791, 42791); (42793, 42793); (42795, 42795); (42797, 42797); (42799, 42801);
   (42803, 42803); (42805, 42805); (42807, 42807); (42809, 42809); (42811, 42811);
   (42813, 42813); (42815, 42815); (42817, 42817); (42819, 42819); (42821, 42821);
   (42823, 42823); (42825, 42825); (42827, 42827); (42829, 42829); (42831, 42831);
   (42833, 42833); (42835, 42835); (42837, 42837); (42839, 42839); (42841, 42841);
   (42843, 42843); (42845, 42845); (42847, 42847); (42849, 42849); (42851, 42851);
   (42853, 42853); (42855, 42855); (42857, 42857); (42859, 42859); (42861, 42861);
   (42863, 42872); (42874, 42874); (42876, 42876); (42879, 42879); (42881, 42881);
   (42883, 42883); (42885, 42885); (42887, 42887); (42892, 42892); (42894, 42894);
   (42897, 42897); (42899, 42901); (42903, 42903); (42905, 42905); (42907, 42907);
   (42909, 42909); (42911, 42911); (42913, 42913); (42915, 42915); (42917, 42917);
   (42919, 42919); (42921, 42921); (42927, 42927); (42933, 42933); (42935, 42935);
   (42937, 42937); (42939, 42939); (42941, 42941); (42943, 42943); (42945, 42945);
   (42947, 42947); (42952, 42952); (42954, 42954); (42961, 42961); (42963, 42963);
   (42965, 42965); (42967, 42967); (42969, 42969); (42998, 42998); (43000, 43002);
   (43824, 43866); (43868, 43880); (43888, 43967); (64256, 64262); (64275, 64279);
   (65345, 65370); (66600, 66639); (66776, 66811); (66967, 66977); (66979, 66993);
   (66995, 67001); (67003, 67004); (67456, 67456); (67459, 67461); (67463, 67504);
   (67506, 67514); (68800, 68850); (71872, 71903); (93792, 93823); (119834, 119859);
   (119886, 119892); (119894, 119911); (119938, 119963); (119990, 119993); (119995, 119995);
   (119997, 120003); (120005, 120015); (120042, 120067); (120094, 120119); (120146, 120171);
   (120198, 120223); (120250, 120275); (120302, 120327); (120354, 120379); (120406, 120431);
   (120458, 120485); (120514, 120538); (120540, 120545); (120572, 120596); (120598, 120603);
   (120630, 120654); (120656, 120661); (120688, 120712); (120714, 120719); (120746, 120770);
   (120772, 120777); (120779, 120779); (122624, 122633); (122635, 122654); (125218, 125251) ]%N.

(** The ranges of the code points that are uppercase letters
    ([Py_UNICODE_ISUPPER]), from the same database. *)
Definition upper_ranges : list (N * N) :=
  [(65, 90); (192, 214); (216, 222); (256, 256); (258, 258); (260, 260); (262, 262);
   (264, 264); (266, 266); (268, 268); (270, 270); (272, 272); (274, 274); (276, 276);
   (278, 278); (280, 280); (282, 282); (284, 284); (286, 286); (288, 288); (290, 290);
   (292, 292); (294, 294); (296, 296); (298, 298); (300, 300); (302, 302); (304, 304);
   (306, 306); (308, 308); (310, 310); (313, 313); (315, 315); (317, 317); (319, 319);
   (321, 321); (323, 323); (325, 325); (327, 327); (330, 330); (332, 332); (334, 334);
   (336, 336); (338, 338); (340, 340); (342, 342); (344, 344); (346, 346); (348, 348);
   (350, 350); (352, 352); (354, 354); (356, 356); (358, 358); (360, 360); (362, 362);
   (364, 364); (366, 366); (368, 368); (370, 370); (372, 372); (374, 374); (376, 377);
   (379, 379); (381, 381); (385, 386); (388, 388); (390, 391); (393, 395); (398, 401);
   (403, 404); (406, 408); (412, 413); (415, 416); (418, 418); (420, 420); (422, 423);
   (425, 425); (428, 428); (430, 431); (433, 435); (437, 437); (439, 440); (444, 444);
   (452, 452); (455, 455); (458, 458); (461, 461); (463, 463); (465, 465); (467, 467);
   (469, 469); (471, 471); (473, 473); (475, 475); (478, 478); (480, 480); (482, 482);
   (484, 484); (486, 486); (488, 488); (490, 490); (492, 492); (494, 494); (497, 497);
   (500, 500); (502, 504); (506, 506); (508, 508); (510, 510); (512, 512); (514, 514);
   (516, 516); (518, 518); (520, 520); (522, 522); (524, 524); (526, 526); (528, 528);
   (530, 530); (532, 532); (534, 534); (536, 536); (538, 538); (540, 540); (542, 542);
   (544, 544); (546, 546); (548, 548); (550, 550); (552, 552); (554, 554); (556, 556);
   (558, 558); (560, 560); (562, 562); (570, 571); (573, 574); (577, 577); (579, 582);
   (584, 584); (586, 586); (588, 588); (590, 590); (880, 880); (882, 882); (886, 886);
   (895, 895); (902, 902); (904, 906); (908, 908); (910, 911); (913, 929); (931, 939);
   (975, 975); (978, 980); (984, 984); (986, 986); (988, 988); (990, 990); (992, 992);
   (994, 994); (996, 996); (998, 998); (1000, 1000); (1002, 1002); (1004, 1004);
   (1006, 1006); (1012, 1012); (1015, 1015); (1017, 1018); (1021, 1071); (1120, 1120);
   (1122, 1122); (1124, 1124); (1126, 1126); (1128, 1128); (1130, 1130); (1132, 1132);
   (1134, 1134); (1136, 1136); (1138, 1138); (1140, 1140); (1142, 1142); (1144, 1144);
   (1146, 1146); (1148, 1148); (1150, 1150); (1152, 1152); (1162, 1162); (1164, 1164);
   (1166, 1166); (1168, 1168); (1170, 1170); (1172, 1172); (1174, 1174); (1176, 1176);
   (1178, 1178); (1180, 1180); (1182, 1182); (1184, 1184); (1186, 1186); (1188, 1188);
   (1190, 1190); (1192, 1192); (1194, 1194); (1196, 1196); (1198, 1198); (1200, 1200);
   (1202, 1202); (1204, 1204); (1206, 1206); (1208, 1208); (1210, 1210); (1212, 1212);
   (1214, 1214); (1216, 1217); (1219, 1219); (1221, 1221); (1223, 1223); (1225, 1225);
   (1227, 1227); (1229, 1229); (1232, 1232); (1234, 1234); (1236, 1236); (1238, 1238);
   (1240, 1240); (1242, 1242); (1244, 1244); (1246, 1246); (1248, 1248); (1250, 1250);
   (1252, 1252); (1254, 1254); (1256, 1256); (1258, 1258); (1260, 1260); (1262, 1262);
   (1264, 1264); (1266, 1266); (1268, 1268); (1270, 1270); (1272, 1272); (1274, 1274);
   (1276, 1276); (1278, 1278); (1280, 1280); (1282, 1282); (1284, 1284); (1286, 1286);
   (1288, 1288); (1290, 1290); (1292, 1292); (1294, 1294); (1296, 1296); (1298, 1298);
   (1300, 1300); (1302, 1302); (1304, 1304); (1306, 1306); (1308, 1308); (1310, 1310);
   (1312, 1312); (1314, 1314); (1316, 1316); (1318, 1318); (1320, 1320); (1322, 1322);
   (1324, 1324); (1326, 1326); (1329, 1366); (4256, 4293); (4295, 4295); (4301, 4301);
   (5024, 5109); (7312, 7354); (7357, 7359); (7680, 7680); (7682, 7682); (7684, 7684);
   (7686, 7686); (7688, 7688); (7690, 7690); (7692, 7692); (7694, 7694); (7696, 7696);
   (7698, 7698); (7700, 7700); (7702, 7702); (7704, 7704); (7706, 7706); (7708, 7708);
   (7710, 7710); (7712, 7712); (7714, 7714); (7716, 7716); (7718, 7718); (7720, 7720);
   (7722, 7722); (7724, 7724); (7726, 7726); (7728, 7728); (7730, 7730); (7732, 7732);
   (7734, 7734); (7736, 7736); (7738, 7738); (7740, 7740); (7742, 7742); (7744, 7744);
   (7746, 7746); (7748, 7748); (7750, 7750); (7752, 7752); (7754, 7754); (7756, 7756);
   (7758, 7758); (7760, 7760); (7762, 7762); (7764, 7764); (7766, 7766); (7768, 7768);
   (7770, 7770); (7772, 7772); (7774, 7774); (7776, 7776); (7778, 7778); (7780, 7780);
   (7782, 7782); (7784, 7784); (7786, 7786); (7788, 7788); (7790, 7790); (7792, 7792);
   (7794, 7794); (7796, 7796); (7798, 7798); (7800, 7800); (7802, 7802); (7804, 7804);
   (7806, 7806); (7808, 7808); (7810, 7810); (7812, 7812); (7814, 7814); (7816, 7816);
   (7818, 7818); (7820, 7820); (7822, 7822); (7824, 7824); (7826, 7826); (7828, 7828);
   (7838, 7838); (7840, 7840); (7842, 7842); (7844, 7844); (7846, 7846); (7848, 7848);
   (7850, 7850); (7852, 7852); (7854, 7854); (7856, 7856); (7858, 7858); (7860, 7860);
   (7862, 7862); (7864, 7864); (7866, 7866); (7868, 7868); (7870, 7870); (7872, 7872);
   (7874, 7874); (7876, 7876); (7878, 7878); (7880, 7880); (7882, 7882); (7884, 7884);
   (7886, 7886); (7888, 7888); (7890, 7890); (7892, 7892); (7894, 7894); (7896, 7896);
   (7898, 7898); (7900, 7900); (7902, 7902); (7904, 7904); (7906, 7906); (7908, 7908);
   (7910, 7910); (7912, 7912); (7914, 7914); (7916, 7916); (7918, 7918); (7920, 7920);
   (7922, 7922); (7924, 7924); (7926, 7926); (7928, 7928); (7930, 7930); (7932, 7932);
   (7934, 7934); (7944, 7951); (7960, 7965); (7976, 7983); (7992, 7999); (8008, 8013);
   (8025, 8025); (8027, 8027); (8029, 8029); (8031, 8031); (8040, 8047); (8120, 8123);
   (8136, 8139); (8152, 8155); (8168, 8172); (8184, 8187); (8450, 8450); (8455, 8455);
   (8459, 8461); (8464, 8466); (8469, 8469); (8473, 8477); (8484, 8484); (8486, 8486);
   (8488, 8488); (8490, 8493); (8496, 8499); (8510, 8511); (8517, 8517); (8544, 8559);
   (8579, 8579); (9398, 9423); (11264, 11311); (11360, 11360); (11362, 11364);
   (11367, 11367); (11369, 11369); (11371, 11371); (11373, 11376); (11378, 11378);
   (11381, 11381); (11390, 11392); (11394, 11394); (11396, 11396); (11398, 11398);
   (11400, 11400); (11402, 11402); (11404, 11404); (11406, 11406); (11408, 11408);
   (11410, 11410); (11412, 11412); (11414, 11414); (11416, 11416); (11418, 11418);
   (11420, 11420); (11422, 11422); (11424, 11424); (11426, 11426); (11428, 11428);
   (11430, 11430); (11432, 11432); (11434, 11434); (11436, 11436); (11438, 11438);
   (11440, 11440); (11442, 11442); (11444, 11444); (11446, 11446); (11448, 11448);
   (11450, 11450); (11452, 11452); (11454, 11454); (11456, 11456); (11458, 11458);
   (11460, 11460); (11462, 11462); (11464, 11464); (11466, 11466); (11468, 11468);
   (11470, 11470); (11472, 11472); (11474, 11474); (11476, 11476); (11478, 11478);
   (11480, 11480); (11482, 11482); (11484, 11484); (11486, 11486); (11488, 11488);
   (11490, 11490); (11499, 11499); (11501, 11501); (11506, 11506); (42560, 42560);
   (42562, 42562); (42564, 42564); (42566, 42566); (42568, 42568); (42570, 42570);
   (42572, 42572); (42574, 42574); (42576, 42576); (42578, 42578); (42580, 42580);
   (42582, 42582); (42584, 42584); (42586, 42586); (42588, 42588); (42590, 42590);
   (42592, 42592); (42594, 42594); (42596, 42596); (42598, 42598); (42600, 42600);
   (42602, 42602); (42604, 42604); (42624, 42624); (42626, 42626); (42628, 42628);
   (42630, 42630); (42632, 42632); (42634, 42634); (42636, 42636); (42638, 42638);
   (42640, 42640); (42642, 42642); (42644, 42644); (42646, 42646); (42648, 42648);
   (42650, 42650); (42786, 42786); (42788, 42788); (42790, 42790); (42792, 42792);
   (42794, 42794); (42796, 42796); (42798, 42798); (42802, 42802); (42804, 42804);
   (42806, 42806); (42808, 42808); (42810, 42810); (42812, 42812); (42814, 42814);
   (42816, 42816); (42818, 42818); (42820, 42820); (42822, 42822); (42824, 42824);
   (42826, 42826); (42828, 42828); (42830, 42830); (42832, 42832); (42834, 42834);
   (42836, 42836); (42838, 42838); (42840, 42840); (42842, 42842); (42844, 42844);
   (42846, 42846); (42848, 42848); (42850, 42850); (42852, 42852); (42854, 42854);
   (42856, 42856); (42858, 42858); (42860, 42860); (42862, 42862); (42873, 42873);
   (42875, 42875); (42877, 42878); (42880, 42880); (42882, 42882); (42884, 42884);
   (42886, 42886); (42891, 42891); (42893, 42893); (42896, 42896); (42898, 42898);
   (42902, 42902); (42904, 42904); (42906, 42906); (42908, 42908); (42910, 42910);
   (42912, 42912); (42914, 42914); (42916, 42916); (42918, 42918); (42920, 42920);
   (42922, 42926); (42928, 42932); (42934, 42934); (42936, 42936); (42938, 42938);
   (42940, 42940); (42942, 42942); (42944, 42944); (42946, 42946); (42948, 42951);
   (42953, 42953); (42960, 42960); (42966, 42966); (42968, 42968); (42997, 42997);
   (65313, 65338); (66560, 66599); (66736, 66771); (66928, 66938); (66940, 66954);
   (66956, 66962); (66964, 66965); (68736, 68786); (71840, 71871); (93760, 93791);
   (119808, 119833); (119860, 119885); (119912, 119937); (119964, 119964); (119966, 119967);
   (119970, 119970); (119973, 119974); (119977, 119980); (119982, 119989); (120016, 120041);
   (120068, 120069); (120071, 120074); (120077, 120084); (120086, 120092); (120120, 120121);
   (120123, 120126); (120128, 120132); (120134, 120134); (120138, 120144); (120172, 120197);
   (120224, 120249); (120276, 120301); (120328, 120353); (120380, 120405); (120432, 120457);
   (120488, 120512); (120546, 120570); (120604, 120628); (120662, 120686); (120720, 120744);
   (120778, 120778); (125184, 125217); (127280, 127305); (127312, 127337); (127344, 127369) ]%N.

Definition in_ranges (table : list (N * N)) (n : N) : bool :=
  existsb (fun r => (fst r <=? n)%N && (n <=? snd r)%N) table.

(** [s.isupper()]: no lowercase or titlecase letter and at least one
    uppercase one. *)
Definition isupper (s : string) : bool :=
  let code_points := map ord (chars s) in
  forallb (fun n => negb (in_ranges lower_or_title_ranges n)) code_points
  && existsb (in_ranges upper_ranges) code_points.

(** [s.split()]: the maximal runs of non-whitespace characters. *)
Fixpoint split_ws_aux (cur : string) (l : list string) : list string :=
  let flush := match cur with EmptyString => [] | _ => [cur] end in
  match l with
  | [] => flush
  | ch :: l' =>
      if is_space ch then (flush ++ split_ws_aux EmptyString l')%list
      else split_ws_aux (cur ++ ch) l'
  end.

Definition split_ws (s : string) : list string := split_ws_aux EmptyString (chars s).

(** [s.split(sep)] for a one-character separator. *)
Fixpoint split_char_aux (sep : ascii) (cur : string) (s : string) : list string :=
  match s with
  | EmptyString => [cur]
  | String c s' =>
      if Ascii.eqb c sep then cur :: split_char_aux sep EmptyString s'
      else split_char_aux sep (cur ++ String c EmptyString) s'
  end.

(** [sep.join(l)] *)
Definition join (sep : string) (l : list string) : string := String.concat sep l.

(** [s[:n]] *)
Definition take (n : nat) (s : string) : string := unchars (firstn n (chars s)).

(** [bool(s)] *)
Definition truthy (s : string) : bool :=
  match s with EmptyString => false | _ => true end.

(** The double quote, and a helper to write texts that contain it: each
    apostrophe of the argument stands for a double quote. *)
Definition dquote : ascii := ascii_of_nat 34.

Fixpoint dq (s : string) : string :=
  match s with
  | EmptyString => EmptyString
  | String c s' => String (if Ascii.eqb c "'"%char then dquote else c) (dq s')
  end.

End PyStr.

(** ** Calls that may raise *)

Inductive outcome (A : Type) : Type :=
| Returned (a : A)
| Raised (message : string).

Arguments Returned {A} a.
Arguments Raised {A} message.

(** ** The regular expressions of [re], as far as the program uses them *)

Module Re.
Import PyStr.

Inductive regex : Type :=
| Eps
| Chr (c : ascii)                    (* a literal character *)
| Cls (p : ascii -> bool)            (* a character class *)
| Cat (r1 r2 : regex)
| Alt (r1 r2 : regex)                (* r1|r2, r1 tried first *)
| Star (greedy : bool) (r : regex)   (* r* and r*? *)
| Grp (r : regex)                    (* the capturing group *)
| Behind (p : ascii -> bool)         (* (?<=[...]) on one character *)
| Bos.                               (* ^ without re.MULTILINE *)

Fixpoint Lit (s : string) : regex :=
  match s with
  | EmptyString => Eps
  | String c EmptyString => Chr c
  | String c s' => Cat (Chr c) (Lit s')
  end.

Definition Plus (r : regex) : regex := Cat r (Star true r).

Fixpoint Alts (l : list regex) : regex :=
  match l with
  | [] => Cls (fun _ => false)
  | [r] => r
  | r :: l' => Alt r (Alts l')
  end.

Definition any_char : ascii -> bool := fun _ => true.
Definition not_newline (c : ascii) : bool := negb (Ascii.eqb c (ascii_of_nat 10)).

(** The class [\s]: a whitespace byte, or the bytes of one of the
    whitespace characters outside ASCII. *)
Definition wide_spaces : list string :=
  map chr (filter (fun n => (128 <=? n)%N) whitespace).

Definition Space : regex := Alt (Cls isspace_char) (Alts (map Lit wide_spaces)).

(** The characters outside ASCII that a letter of a pattern also matches
    under [re.IGNORECASE]: the dotted capital I and the dotless i for i,
    the long s for s, the Kelvin sign for k. *)
Definition folds (c : ascii) : list string :=
  if Ascii.eqb (lower_char c) "i" then [chr 304; chr 305]
  else if Ascii.eqb (lower_char c) "s" then [chr 383]
  else if Ascii.eqb (lower_char c) "k" then [chr 8490]
  else [].

(** A character and a text of a pattern compiled with [re.IGNORECASE];
    the letters of ASCII are compared by [same_char] below. *)
Definition ChrI (c : ascii) : regex := Alts (Chr c :: map Lit (folds c)).

Fixpoint LitI (s : string) : regex :=
  match s with
  | EmptyString => Eps
  | String c EmptyString => ChrI c
  | String c s' => Cat (ChrI c) (LitI s')
  end.

(** The state of a match: the character before the cursor, the text from
    the cursor on, and what group 1 holds. *)
Record cursor := Cursor { before : option ascii; ahead : string; group1 : option string }.

Section Matcher.
Variable ignorecase : bool.
Context {R : Type}.

Definition same_char (c d : ascii) : bool :=
  if ignorecase then Ascii.eqb (lower_char c) (lower_char d) else Ascii.eqb c d.

Definition consumed (s s' : string) : string :=
  substring 0 (String.length s - String.length s') s.

(** The turns of [r*] and [r*?]: [body] is the match of [r].  A turn has
    to consume something, so the length of the text bounds the turns. *)
Fixpoint iterate (body : cursor -> (cursor -> option R) -> option R) (greedy : bool)
         (k : cursor -> option R) (n : nat) (cur : cursor) : option R :=
  match n with
  | O => k cur
  | S n' =>
      let again (_ : unit) :=
        body cur (fun cur' =>
          if (String.length (ahead cur') <? String.length (ahead cur))%nat
          then iterate body greedy k n' cur' else None) in
      if greedy then
        match again tt with Some x => Some x | None => k cur end
      else
        match k cur with Some x => Some x | None => again tt end
  end.

(** Backtracking match of [r] at the cursor, then [k]: the first
    alternative that lets the rest succeed wins, as in [re]. *)
Fixpoint run (r : regex) (cur : cursor) (k : cursor -> option R) : option R :=
  match r with
  | Eps => k cur
  | Chr c =>
      match ahead cur with
      | String d s' => if same_char c d then k (Cursor (Some d) s' (group1 cur)) else None
      | EmptyString => None
      end
  | Cls p =>
      match ahead cur with
      | String d s' => if p d then k (Cursor (Some d) s' (group1 cur)) else None
      | EmptyString => None
      end
  | Cat r1 r2 => run r1 cur (fun cur' => run r2 cur' k)
  | Alt r1 r2 =>
      match run r1 cur k with
      | Some x => Some x
      | None => run r2 cur k
      end
  | Star greedy r1 => iterate (run r1) greedy k (String.length (ahead cur)) cur
  | Grp r1 =>
      run r1 cur (fun cur' =>
        k (Cursor (before cur') (ahead cur') (Some (consumed (ahead cur) (ahead cur')))))
  | Behind p =>
      match before cur with
      | Some c => if p c then k cur else None
      | None => None
      end
  | Bos =>
      match before cur with
      | None => k cur
      | Some _ => None
      end
  end.
End Matcher.

(** A match object: the text skipped before the match, the match, group 1
    and the cursor after the match. *)
Record found := Found { skipped : string; whole : string; group : option string; after : cursor }.

Definition match_at (ic : bool) (r : regex) (prev : option ascii) (s : string) : option found :=
  run ic r (Cursor prev s None)
    (fun cur' => Some (Found EmptyString (consumed s (ahead cur')) (group1 cur')
                             (Cursor (before cur') (ahead cur') None))).

Definition skip_one (c : ascii) (f : found) : found :=
  Found (String c (skipped f)) (whole f) (group f) (after f).

(** The leftmost match from the cursor on. *)
Fixpoint search_from (ic : bool) (r : regex) (prev : option ascii) (s : string) : option found :=
  match match_at ic r prev s with
  | Some f => Some f
  | None =>
      match s with
      | EmptyString => None
      | String c s' => option_map (skip_one c) (search_from ic r (Some c) s')
      end
  end.

(** [re.search(r, s, flags)] *)
Definition search (ic : bool) (r : regex) (s : string) : option found :=
  search_from ic r None s.

(** [re.match(r, s)] *)
Definition match_ (ic : bool) (r : regex) (s : string) : option found :=
  match_at ic r None s.

(** The pattern may match the empty string. *)
Fixpoint nullable (r : regex) : bool :=
  match r with
  | Chr _ | Cls _ => false
  | Cat r1 r2 => nullable r1 && nullable r2
  | Alt r1 r2 => nullable r1 || nullable r2
  | Grp r1 => nullable r1
  | Eps | Star _ _ | Behind _ | Bos => true
  end.

(** The successive non-overlapping matches.  None of the patterns that the
    program scans with is [nullable], so that no match is empty (see
    [match_not_empty]); after an empty match the scan moves one character
    on. *)
Fixpoint finditer_fuel (n : nat) (ic : bool) (r : regex) (prev : option ascii) (s : string)
  : list found * string :=
  match n with
  | O => ([], s)
  | S n' =>
      match search_from ic r prev s with
      | None => ([], s)
      | Some f =>
          let c := after f in
          match whole f, ahead c with
          | EmptyString, EmptyString => ([f], EmptyString)
          | EmptyString, String d s' =>
              let '(l, tl) := finditer_fuel n' ic r (Some d) s' in
              (f :: match l with
                    | [] => []
                    | g :: l' => skip_one d g :: l'
                    end,
               match l with [] => String d tl | _ => tl end)
          | _, _ =>
              let '(l, tl) := finditer_fuel n' ic r (before c) (ahead c) in (f :: l, tl)
          end
      end
  end.

Definition finditer (ic : bool) (r : regex) (s : string) : list found * string :=
  finditer_fuel (S (String.length s)) ic r None s.

(** [re.findall(r, s, flags)] for a pattern without a group: the matches. *)
Definition findall (ic : bool) (r : regex) (s : string) : list string :=
  map whole (fst (finditer ic r s)).

(** [re.findall(r, s, flags)] for a pattern with one group: what the
    group holds in each match. *)
Definition findall_group (ic : bool) (r : regex) (s : string) : list string :=
  map (fun f => match group f with Some g => g | None => EmptyString end)
      (fst (finditer ic r s)).

(** [re.split(r, s)] for a pattern without a group: the texts between
    the matches. *)
Definition split (ic : bool) (r : regex) (s : string) : list string :=
  let '(l, tl) := finditer ic r s in (map skipped l ++ [tl])%list.

End Re.

(** ** [json.loads] *)

Module Json.
Import PyStr.

#[local] Set Warnings "-register-all".

Inductive json : Type :=
| JNull                               (* None *)
| JBool (b : bool)
| JInt (z : Z)
| JFloat (lexeme : string)            (* a float, kept as it is written *)
| JStr (s : string)
| JArr (l : list json)
| JObj (d : list (string * json)).

(** A Python [dict] with [str] keys, in insertion order. *)
Definition dict : Type := list (string * json).

(** [d.get(k)] *)
Fixpoint dict_get (k : string) (d : dict) : option json :=
  match d with
  | [] => None
  | (k', v) :: d' => if String.eqb k k' then Some v else dict_get k d'
  end.

(** [k in d] *)
Definition dict_mem (k : string) (d : dict) : bool :=
  match dict_get k d with Some _ => true | None => false end.

(** [d[k] = v]: a key already there keeps its place. *)
Fixpoint dict_set (k : string) (v : json) (d : dict) : dict :=
  match d with
  | [] => [(k, v)]
  | (k', v') :: d' =>
      if String.eqb k k' then (k', v) :: d' else (k', v') :: dict_set k v d'
  end.

(** [dict(pairs)] *)
Definition dict_of_pairs (pairs : list (string * json)) : dict :=
  fold_left (fun d kv => dict_set (fst kv) (snd kv) d) pairs [].

Definition is_ws (c : ascii) : bool :=
  existsb (Ascii.eqb c) [" "%char; ascii_of_nat 9; ascii_of_nat 10; ascii_of_nat 13].

Fixpoint skip_ws (s : string) : string :=
  match s with
  | EmptyString => EmptyString
  | String c s' => if is_ws c then skip_ws s' else s
  end.

Fixpoint drop (n : nat) (s : string) : string :=
  match n, s with
  | O, _ => s
  | S n', String _ s' => drop n' s'
  | S _, EmptyString => EmptyString
  end.

(** *** Strings *)

Definition hex_val (c : ascii) : option N :=
  let n := N_of_ascii c in
  if is_digit c then Some (n - 48)%N
  else if between 97 102 c then Some (n - 87)%N
  else if between 65 70 c then Some (n - 55)%N
  else None.

Definition hex4 (a b c d : ascii) : option N :=
  match hex_val a, hex_val b, hex_val c, hex_val d with
  | Some x, Some y, Some z, Some w => Some (((x * 16 + y) * 16 + z) * 16 + w)%N
  | _, _, _, _ => None
  end.

Definition BACKSLASH (c : ascii) : option ascii :=
  if Ascii.eqb c dquote then Some dquote
  else if Ascii.eqb c "\"%char then Some "\"%char
  else if Ascii.eqb c "/"%char then Some "/"%char
  else if Ascii.eqb c "b"%char then Some (ascii_of_nat 8)
  else if Ascii.eqb c "f"%char then Some (ascii_of_nat 12)
  else if Ascii.eqb c "n"%char then Some (ascii_of_nat 10)
  else if Ascii.eqb c "r"%char then Some (ascii_of_nat 13)
  else if Ascii.eqb c "t"%char then Some (ascii_of_nat 9)
  else None.

Definition is_high_surrogate (n : N) : bool := (55296 <=? n)%N && (n <=? 56319)%N.
Definition is_low_surrogate (n : N) : bool := (56320 <=? n)%N && (n <=? 57343)%N.

Definition add_chunk (chunk : string) (r : option (string * string)) : option (string * string) :=
  match r with
  | Some (str, rest) => Some ((chunk ++ str), rest)
  | None => None
  end.

(** [scanstring], strict, from the character after the opening quote:
    the decoded string and the text after the closing quote. *)
Fixpoint scanstring (s : string) : option (string * string) :=
  match s with
  | EmptyString => None
  | String c s1 =>
      if Ascii.eqb c dquote then Some (EmptyString, s1)
      else if Ascii.eqb c "\"%char then
        match s1 with
        | EmptyString => None
        | String e s2 =>
            if Ascii.eqb e "u"%char then
              match s2 with
              | String h1 (String h2 (String h3 (String h4 s3))) =>
                  match hex4 h1 h2 h3 h4 with
                  | None => None
                  | Some uni =>
                      match s3 with
                      | String b1 (String b2 s4) =>
                          if Ascii.eqb b1 "\"%char && Ascii.eqb b2 "u"%char
                             && is_high_surrogate uni then
                            match s4 with
                            | String l1 (String l2 (String l3 (String l4 s5))) =>
                                match hex4 l1 l2 l3 l4 with
                                | None => None
                                | Some uni2 =>
                                    if is_low_surrogate uni2 then
                                      add_chunk
                                        (chr (65536 + ((uni - 55296) * 1024 + (uni2 - 56320))))
                                        (scanstring s5)
                                    else add_chunk (chr uni) (scanstring s3)
                                end
                            | _ => None
                            end
                          else add_chunk (chr uni) (scanstring s3)
                      | _ => add_chunk (chr uni) (scanstring s3)
                      end
                  end
              | _ => None
              end
            else
              match BACKSLASH e with
              | Some ch => add_chunk (String ch EmptyString) (scanstring s2)
              | None => None
              end
        end
      else if (nat_of_ascii c <? 32)%nat then None
      else add_chunk (String c EmptyString) (scanstring s1)
  end.

(** *** Numbers: an optional minus sign, then 0 or a digit string that
    does not start with 0, then an optional fraction and an optional
    exponent. *)

Fixpoint span (p : ascii -> bool) (s : string) : string * string :=
  match s with
  | EmptyString => (EmptyString, EmptyString)
  | String c s' =>
      if p c then let '(a, b) := span p s' in (String c a, b) else (EmptyString, s)
  end.

Fixpoint digits_value (acc : Z) (s : string) : Z :=
  match s with
  | EmptyString => acc
  | String c s' => digits_value (acc * 10 + (Z.of_nat (nat_of_ascii c) - 48)) s'
  end.

Definition scan_integer (s : string) : option (string * string) :=
  match s with
  | String c s' =>
      if Ascii.eqb c "0" then Some ("0", s')
      else if between 49 57 c then Some (span is_digit s)
      else None
  | EmptyString => None
  end.

Definition scan_frac (s : string) : string * string :=
  match s with
  | String c s' =>
      if Ascii.eqb c "." then
        match span is_digit s' with
        | (EmptyString, _) => (EmptyString, s)
        | (ds, rest) => (String c ds, rest)
        end
      else (EmptyString, s)
  | EmptyString => (EmptyString, s)
  end.

Definition scan_exp (s : string) : string * string :=
  match s with
  | String e s' =>
      if Ascii.eqb e "e"%char || Ascii.eqb e "E"%char then
        let '(sign, s'') :=
          match s' with
          | String g t =>
              if Ascii.eqb g "+"%char || Ascii.eqb g "-"%char
              then (String g EmptyString, t) else (EmptyString, s')
          | EmptyString => (EmptyString, s')
          end in
        match span is_digit s'' with
        | (EmptyString, _) => (EmptyString, s)
        | (ds, rest) => (String e (sign ++ ds), rest)
        end
      else (EmptyString, s)
  | EmptyString => (EmptyString, s)
  end.

Definition scan_constant (s : string) : option (json * string) :=
  if prefix "NaN" s then Some (JFloat "NaN", drop 3 s)
  else if prefix "Infinity" s then Some (JFloat "Infinity", drop 8 s)
  else if prefix "-Infinity" s then Some (JFloat "-Infinity", drop 9 s)
  else None.

(** *** The limits of the interpreter

    [int_max_str_digits] is [sys.get_int_max_str_digits()], 0 for no limit.
    [recursion_room] is what the recursion limit leaves where [json.loads]
    is called: the number of arrays and objects, one inside the other,
    that the decoder can enter.  [error_levels] is the number of levels
    that the decoder needs to raise a [JSONDecodeError] from inside the
    scanner; the two places above the scanner that raise it need one and
    two levels less. *)
Record interpreter := Interpreter {
  int_max_str_digits : nat;
  recursion_room : nat;
  error_levels : nat }.

(** CPython 3.11 as it starts: 4300 digits, three levels for an error,
    and a recursion limit of 1000 of which the calls that lead to the
    decoder are taken to leave 900. *)
Definition cpython : interpreter := Interpreter 4300 900 3.

(** The exceptions of the decoder that are not a [JSONDecodeError]. *)
Definition RecursionError : string := "RecursionError".
Definition ValueError : string := "ValueError".

(** What a scan gives: a value and the text after it, [StopIteration]
    where no value starts, a [JSONDecodeError], or another exception. *)
Inductive scanned (A : Type) : Type :=
| Scanned (a : A) (rest : string)
| StopIteration
| DecodeError
| Break (message : string).

Arguments Scanned {A} a rest.
Arguments StopIteration {A}.
Arguments DecodeError {A}.
Arguments Break {A} message.

(** The scan ends otherwise than by an exception that is not a decode
    error. *)
Definition no_break {A : Type} (x : scanned A) : Prop :=
  match x with
  | Break _ => False
  | _ => True
  end.

(** A [JSONDecodeError] cannot be raised: the room, with the levels
    [above] the scanner, is less than what the error takes.  A room of
    [None] is no limit. *)
Definition short_of (levels above : nat) (room : option nat) : bool :=
  match room with
  | Some r => (r + above <? levels)%nat
  | None => false
  end.

(** [Py_EnterRecursiveCall]: the room inside an array or an object,
    [None] when there is no room. *)
Definition enter (room : option nat) : option (option nat) :=
  match room with
  | None => Some None
  | Some O => None
  | Some (S r) => Some (Some r)
  end.

(** [raise_errmsg] *)
Definition errmsg {A : Type} (levels : nat) (room : option nat) : scanned A :=
  if short_of levels 0 room then Break RecursionError else DecodeError.

(** An integer is built by [int], which refuses more digits than the
    limit; a float is built by [float], which has no limit. *)
Definition scan_number (digits : nat) (s : string) : scanned json :=
  let '(neg, s0) :=
    match s with
    | String c t => if Ascii.eqb c "-" then (true, t) else (false, s)
    | EmptyString => (false, s)
    end in
  match scan_integer s0 with
  | None => StopIteration
  | Some (ip, s1) =>
      let '(frac, s2) := scan_frac s1 in
      let '(ex, s3) := scan_exp s2 in
      match frac, ex with
      | EmptyString, EmptyString =>
          if negb (digits =? 0)%nat && (digits <? String.length ip)%nat
          then Break ValueError
          else
            let v := digits_value 0 ip in Scanned (JInt (if neg then (- v)%Z else v)) s3
      | _, _ => Scanned (JFloat ((if neg then "-" else "") ++ ip ++ frac ++ ex)) s3
      end
  end.

(** *** Values.  The fuel bounds the depth of the calls; twice the length
    of the text and two more is never used up, see [scan_once_fuel]. *)

Fixpoint scan_once (digits levels : nat) (n : nat) (room : option nat) (s : string)
         {struct n} : scanned json :=
  match n with
  | O => StopIteration
  | S n' =>
      match s with
      | EmptyString => StopIteration
      | String c rest =>
          if Ascii.eqb c dquote then
            match scanstring rest with
            | Some (str, r) => Scanned (JStr str) r
            | None => errmsg levels room
            end
          else if Ascii.eqb c "{"%char then
            match enter room with
            | None => Break RecursionError
            | Some inside =>
                match skip_ws rest with
                | String d r =>
                    if Ascii.eqb d "}"%char then Scanned (JObj []) r
                    else if Ascii.eqb d dquote then
                      match JSONObject digits levels n' inside r with
                      | Scanned pairs r' => Scanned (JObj (dict_of_pairs pairs)) r'
                      | StopIteration => StopIteration
                      | DecodeError => DecodeError
                      | Break e => Break e
                      end
                    else errmsg levels inside
                | EmptyString => errmsg levels inside
                end
            end
          else if Ascii.eqb c "["%char then
            match enter room with
            | None => Break RecursionError
            | Some inside =>
                match skip_ws rest with
                | String d r =>
                    if Ascii.eqb d "]"%char then Scanned (JArr []) r
                    else
                      match JSONArray digits levels n' inside (String d r) with
                      | Scanned values r' => Scanned (JArr values) r'
                      | StopIteration => StopIteration
                      | DecodeError => DecodeError
                      | Break e => Break e
                      end
                | EmptyString => StopIteration
                end
            end
          else if prefix "null" s then Scanned JNull (drop 4 s)
          else if prefix "true" s then Scanned (JBool true) (drop 4 s)
          else if prefix "false" s then Scanned (JBool false) (drop 5 s)
          else
            match scan_number digits s with
            | Scanned v r => Scanned v r
            | StopIteration =>
                match scan_constant s with
                | Some (v, r) => Scanned v r
                | None => StopIteration
                end
            | DecodeError => DecodeError
            | Break e => Break e
            end
      end
  end

(** The members of an object, from the character after the opening quote
    of a key to the closing brace. *)
with JSONObject (digits levels : nat) (n : nat) (room : option nat) (s : string)
         {struct n} : scanned (list (string * json)) :=
  match n with
  | O => StopIteration
  | S n' =>
      match scanstring s with
      | None => errmsg levels room
      | Some (key, s1) =>
          match skip_ws s1 with
          | String colon s2 =>
              if Ascii.eqb colon ":"%char then
                match scan_once digits levels n' room (skip_ws s2) with
                | Scanned value s3 =>
                    match skip_ws s3 with
                    | String d s4 =>
                        if Ascii.eqb d "}"%char then Scanned [(key, value)] s4
                        else if Ascii.eqb d ","%char then
                          match skip_ws s4 with
                          | String q s5 =>
                              if Ascii.eqb q dquote then
                                match JSONObject digits levels n' room s5 with
                                | Scanned pairs r => Scanned ((key, value) :: pairs) r
                                | StopIteration => StopIteration
                                | DecodeError => DecodeError
                                | Break e => Break e
                                end
                              else errmsg levels room
                          | EmptyString => errmsg levels room
                          end
                        else errmsg levels room
                    | EmptyString => errmsg levels room
                    end
                | StopIteration => StopIteration
                | DecodeError => DecodeError
                | Break e => Break e
                end
              else errmsg levels room
          | EmptyString => errmsg levels room
          end
      end
  end

(** The elements of a non-empty array, to the closing bracket. *)
with JSONArray (digits levels : nat) (n : nat) (room : option nat) (s : string)
         {struct n} : scanned (list json) :=
  match n with
  | O => StopIteration
  | S n' =>
      match scan_once digits levels n' room s with
      | Scanned value s1 =>
          match skip_ws s1 with
          | String d s2 =>
              if Ascii.eqb d "]"%char then Scanned [value] s2
              else if Ascii.eqb d ","%char then
                match JSONArray digits levels n' room (skip_ws s2) with
                | Scanned values r => Scanned (value :: values) r
                | StopIteration => StopIteration
                | DecodeError => DecodeError
                | Break e => Break e
                end
              else errmsg levels room
          | EmptyString => errmsg levels room
          end
      | StopIteration => StopIteration
      | DecodeError => DecodeError
      | Break e => Break e
      end
  end.

(** [JSONDecoder.decode]: the value, [None] for a [JSONDecodeError], or
    the exception that is not one.  [raw_decode] turns [StopIteration]
    into a [JSONDecodeError]; [decode] raises one for text after the
    value. *)
Definition decode (digits levels : nat) (room : option nat) (s : string)
  : outcome (option json) :=
  let s0 := skip_ws s in
  match scan_once digits levels (2 * String.length s0 + 2) room s0 with
  | Scanned v r =>
      match skip_ws r with
      | EmptyString => Returned (Some v)
      | _ => if short_of levels 2 room then Raised RecursionError else Returned None
      end
  | StopIteration => if short_of levels 1 room then Raised RecursionError else Returned None
  | DecodeError => Returned None
  | Break e => Raised e
  end.


(** [json.loads(s)] under the limits of the interpreter. *)
Definition loads (python : interpreter) (s : string) : outcome (option json) :=
  decode (int_max_str_digits python) (error_levels python)
         (Some (recursion_room python)) s.

(** The value that a text has as JSON, [None] when it has none: what
    [json.loads] returns when no limit of the interpreter is met (see
    [loads_value]). *)
Definition json_value (s : string) : option json :=
  match decode 0 0 None s with
  | Returned v => v
  | Raised _ => None
  end.

End Json.

Definition newline : string := String (ascii_of_nat 10) EmptyString.

(** The lines of a multi-line literal. *)
Definition lines (l : list string) : string := String.concat newline l.

(** ** [utils/document_types.py] *)

Module DocumentTypes.

(** [DOCUMENT_SIGNATURES], in the order of the source. *)
Definition DOCUMENT_SIGNATURES : list (string * string) :=
  [ ("articles of association of", "Articles of Association");
    ("memorandum of association", "Memorandum of Association");
    ("we, the undersigned directors", "Board Resolution");
    ("resolution of the board of directors", "Board Resolution");
    ("resolution of the shareholders", "Shareholder Resolution");
    ("we, being the shareholders", "Shareholder Resolution");
    ("special resolution of the members", "Shareholder Resolution");
    ("employment contract", "Employment Contract");
    ("contract of employment", "Employment Contract");
    ("declaration of beneficial ownership", "UBO Declaration");
    ("ubo declaration form", "UBO Declaration");
    ("certificate of incorporation", "Company Incorporation");
    ("register of members of", "Register of Members");
    ("data protection policy", "Data Protection Policy");
    ("appropriate policy document", "Data Protection Policy");
    ("annual accounts for the financial year", "Annual Accounts");
    ("branch registration application", "Branch Registration");
    ("checklist – company set-up", "Checklist") ].

End DocumentTypes.

(** ** [rag_engine.py]: [RAGEngine.query] *)

Module RAGEngine.
Import PyStr.

(** [doc.metadata] of a retrieved document. *)
Record source_document := SourceDocument {
  source : option string;
  document_type : option string }.

(** What the QA chain returns: [result.get("result", "")] and
    [result.get("source_documents", [])]. *)
Record qa_result := QaResult {
  result : string;
  source_documents : list source_document }.

(** The handles of the engine, [None] when they could not be set up.  The
    vector store and the language model are opaque; the chain is what it
    answers to a query. *)
Record engine := Engine {
  vectorstore : option unit;
  qa_chain : option (string -> outcome qa_result);
  llm : option unit }.

Definition not_initialized : string :=
  "RAG system not fully initialized. Please ensure the vector database is properly built.".

Definition enhanced_query (question : string) : string :=
  lines [ "";
          "            Based on ADGM (Abu Dhabi Global Market) regulations and templates, please answer the following:";
          "            ";
          "            " ++ question;
          "            ";
          "            Focus specifically on ADGM requirements, regulations, and templates.";
          "            " ].

Definition or_unknown (o : option string) : string :=
  match o with Some s => s | None => "Unknown" end.

(** The loop over [source_docs]: the citations seen and the text built. *)
Definition add_source (st : list string * string) (doc : source_document)
  : list string * string :=
  let '(unique_sources, sources_text) := st in
  let source_info :=
    (or_unknown (document_type doc) ++ " (" ++ or_unknown (source doc) ++ ")") in
  if existsb (String.eqb source_info) unique_sources then st
  else (source_info :: unique_sources,
        (sources_text ++ "- " ++ source_info ++ newline)).

Definition query (self : engine) (question : string) : outcome string :=
  match vectorstore self, qa_chain self, llm self with
  | Some _, Some chain, Some _ =>
      match chain (enhanced_query question) with
      | Returned res =>
          let answer := result res in
          let source_docs := source_documents res in
          match source_docs with
          | [] => Returned answer
          | _ =>
              let sources_text :=
                snd (fold_left add_source source_docs
                       ([], (newline ++ newline ++ "Sources:" ++ newline))) in
              Returned (answer ++ sources_text)
          end
      | Raised e => Returned ("Error querying the knowledge base: " ++ e)
      end
  | _, _, _ => Returned not_initialized
  end.

End RAGEngine.

(** ** [document_processor.py]: [DocumentProcessor._extract_document_sections] *)

Module DocumentProcessor.
Import PyStr.

(** A run of a paragraph; [bold] is [None] when it is inherited. *)
Record run := Run { bold : option bool }.

(** A paragraph of the document: [para.style.name], [para.runs] and
    [para.text]. *)
Record paragraph := Paragraph {
  style_name : string;
  runs : list run;
  text : string }.

(** A section: the dict with keys title, content and paragraphs. *)
Record section := Section_ {
  title : string;
  content : string;
  paragraphs : list nat }.

Definition is_heading (para : paragraph) : bool :=
  if startswith "Heading" (style_name para) then true
  else if match runs para with
          | r :: _ => match bold r with Some true => true | _ => false end
          | [] => false
          end && (len (strip (text para)) <? 100)%nat then true
  else if isupper (strip (text para))
          && (len (strip (text para)) <? 100)%nat
          && truthy (strip (text para)) then true
  else false.

(** [sections.append(current_section)] when the section has content. *)
Definition save (sections : list section) (current_section : section) : list section :=
  if truthy (strip (content current_section)) then (sections ++ [current_section])%list
  else sections.

(** One turn of the loop over [enumerate(doc.paragraphs)]. *)
Definition step (st : list section * section) (ip : nat * paragraph)
  : list section * section :=
  let '(sections, current_section) := st in
  let '(i, para) := ip in
  if is_heading para && truthy (strip (text para)) then
    (save sections current_section,
     Section_ (strip (text para)) "" [i])
  else
    (sections,
     Section_ (title current_section)
              (content current_section ++ text para ++ newline)
              (paragraphs current_section ++ [i])%list).

Definition enumerate {A : Type} (l : list A) : list (nat * A) :=
  combine (seq 0 (List.length l)) l.

Definition _extract_document_sections (doc : list paragraph) : list section :=
  let '(sections, current_section) :=
    fold_left step (enumerate doc) ([], Section_ "General" "" []) in
  save sections current_section.

(** What [process_document] hands on: the dict with keys filename,
    content and sections (its file path and document object play no
    part here). *)
Record doc_info := DocInfo {
  filename : string;
  doc_content : string;
  sections : list section }.

End DocumentProcessor.

(** ** [document_analyzer.py] *)

Module DocumentAnalyzer.
Import PyStr Re Json DocumentTypes DocumentProcessor.

(** The analyzer: [self.rag_engine.query] and [self.document_signatures],
    and the interpreter that runs it. *)
Record analyzer := Analyzer {
  rag_engine : string -> outcome string;
  document_signatures : list (string * string);
  python : interpreter }.

(** [DocumentAnalyzer(rag_engine)], run by [cpython]. *)
Definition init (rag : string -> outcome string) : analyzer :=
  Analyzer rag DOCUMENT_SIGNATURES cpython.

(** What [identify_document_type] returns: the dict with keys type and
    confidence and, on two of its paths, signature_match or
    rag_identification. *)
Record doc_type_info := DocTypeInfo {
  type : string;
  confidence : Q;
  signature_match : option string;
  rag_identification : option bool }.

Definition doc_types : list string :=
  [ "Articles of Association";
    "Memorandum of Association";
    "Board Resolution";
    "Shareholder Resolution";
    "Employment Contract";
    "UBO Declaration";
    "Data Protection Policy";
    "Register of Members";
    "Register of Directors" ].

(** The second loop of [_extract_doc_type_from_rag]: most words of the
    type are in the response. *)
Definition partial_match (rag_response : string) (doc_type : string) : bool :=
  let parts := split_ws (lower doc_type) in
  if (1 <? List.length parts)%nat then
    let matches :=
      List.length
        (filter (fun part => (3 <? len part)%nat
                             && contains part (lower rag_response)) parts) in
    (List.length parts - 1 <=? matches)%nat
  else false.

Definition _extract_doc_type_from_rag (rag_response : string) : option string :=
  if negb (truthy rag_response) then None
  else
    match find (fun doc_type => contains (lower doc_type) (lower rag_response)) doc_types with
    | Some doc_type => Some doc_type
    | None => find (partial_match rag_response) doc_types
    end.

Definition sample (n : nat) (content : string) : string :=
  if (n <? len content)%nat then take n content ++ "..." else content.

Definition type_query (content_sample : string) : string :=
  lines [ "What type of ADGM legal document is this? ";
          "            Provide only the document type from the following list: ";
          "            - Articles of Association";
          "            - Memorandum of Association";
          "            - Board Resolution";
          "            - Shareholder Resolution";
          "            - Employment Contract";
          "            - UBO Declaration";
          "            - Data Protection Policy";
          "            - Register of Members";
          "            - Register of Directors";
          "            ";
          "            Content sample: " ++ content_sample ].

(** The chain of keyword checks at the end of [identify_document_type]. *)
Definition keyword_type (filename_lower content_lower : string) : option string :=
  if contains "article" filename_lower || contains "article" content_lower
  then Some "Articles of Association"
  else if contains "memorandum" filename_lower || contains "memorandum" content_lower
  then Some "Memorandum of Association"
  else if contains "board" filename_lower && contains "resolution" filename_lower
  then Some "Board Resolution"
  else if contains "shareholder" filename_lower && contains "resolution" filename_lower
  then Some "Shareholder Resolution"
  else if contains "employment" filename_lower || contains "contract" filename_lower
  then Some "Employment Contract"
  else if contains "ubo" filename_lower || contains "beneficial owner" content_lower
  then Some "UBO Declaration"
  else if contains "data protection" filename_lower
          || contains "data protection" content_lower
  then Some "Data Protection Policy"
  else None.

Definition unknown_type : doc_type_info := DocTypeInfo "Unknown" 0.0 None None.

(** The answer of the engine as a document type, [None] when the query
    raises or names no type. *)
Definition rag_type (self : analyzer) (content : string) : option string :=
  match rag_engine self (type_query (sample 1000 content)) with
  | Returned rag_response => _extract_doc_type_from_rag rag_response
  | Raised _ => None
  end.

Definition identify_document_type (self : analyzer) (doc : doc_info) : doc_type_info :=
  let content := doc_content doc in
  if negb (truthy content) then unknown_type
  else
    let content_lower := lower content in
    let filename_lower := lower (filename doc) in
    match find (fun sd => contains (lower (fst sd)) content_lower)
               (document_signatures self) with
    | Some (signature, doc_type) => DocTypeInfo doc_type 0.9 (Some signature) None
    | None =>
        match rag_type self content with
        | Some doc_type => DocTypeInfo doc_type 0.8 None (Some true)
        | None =>
            match keyword_type filename_lower content_lower with
            | Some doc_type => DocTypeInfo doc_type 0.6 None None
            | None => unknown_type
            end
        end
    end.

(** *** Issues *)

(** An issue is a dict; the ones the analyzer builds have these keys. *)
Definition issue : Type := dict.

Definition opt_str (o : option string) : json :=
  match o with Some s => JStr s | None => JNull end.

Definition mk_issue (section issue_text severity : string) (suggestion : option string)
           (regulation : string) : issue :=
  [ ("section", JStr section); ("issue", JStr issue_text); ("severity", JStr severity);
    ("suggestion", opt_str suggestion); ("regulation", JStr regulation) ].

Definition mk_issue3 (section issue_text severity : string) : issue :=
  [ ("section", JStr section); ("issue", JStr issue_text); ("severity", JStr severity) ].

(** The pattern of a brace-delimited block: an opening brace, as few
    characters of any kind as possible, a closing brace. *)
Definition json_pattern : regex :=
  Cat (Chr "{") (Cat (Star false (Cls any_char)) (Chr "}")).

(** A label out of [labels], a colon, whitespace, then the group; the
    patterns built with it are used with [re.IGNORECASE]. *)
Definition labeled (labels : list string) (value : regex) : regex :=
  Cat (Alts (map LitI labels)) (Cat (Chr ":") (Cat (Star true Space) (Grp value))).

Definition rest_of_line : regex := Plus (Cls not_newline).

Definition issue_pattern : regex :=
  labeled ["Issue"; "Problem"; "Missing"; "Incorrect"] rest_of_line.
Definition section_pattern : regex :=
  labeled ["Section"; "Part"; "Clause"] rest_of_line.
Definition severity_pattern : regex :=
  labeled ["Severity"; "Priority"] (Alts [LitI "High"; LitI "Medium"; LitI "Low"]).
Definition suggestion_pattern : regex :=
  labeled ["Suggestion"; "Recommendation"; "Fix"] rest_of_line.
Definition regulation_pattern : regex :=
  labeled ["Regulation"; "Compliance"; "Reference"] rest_of_line.

(** [re.search(pattern, text, re.IGNORECASE).group(1)], when there is a
    match. *)
Definition search_group (pattern : regex) (text : string) : option string :=
  match search true pattern text with
  | Some m => Some (match group m with Some g => g | None => EmptyString end)
  | None => None
  end.

Definition or_default (o : option string) (default : string) : string :=
  match o with Some s => s | None => default end.

(** The body of the [try] of the first strategy, once the block is
    decoded. *)
Definition add_decoded (issues : list issue) (decoded : option json) : list issue :=
  match decoded with
  | Some (JObj d) =>
      if dict_mem "section" d && dict_mem "issue" d then
        (issues ++ [if dict_mem "severity" d then d
                    else dict_set "severity" (JStr "Medium") d])%list
      else issues
  | _ => issues
  end.

(** The first strategy: one turn of the loop over [json_matches].  The
    [except] clause passes over a [JSONDecodeError] only. *)
Definition add_json_issue (self : analyzer) (issues : list issue) (json_str : string)
  : outcome (list issue) :=
  match loads (python self) json_str with
  | Returned decoded => Returned (add_decoded issues decoded)
  | Raised e => Raised e
  end.

(** The loop over [json_matches]. *)
Fixpoint json_loop (self : analyzer) (issues : list issue) (json_matches : list string)
  : outcome (list issue) :=
  match json_matches with
  | [] => Returned issues
  | json_str :: rest =>
      match add_json_issue self issues json_str with
      | Returned issues' => json_loop self issues' rest
      | Raised e => Raised e
      end
  end.

(** The issues of the first strategy when no block meets a limit of the
    interpreter (see [json_loop_issues]). *)
Definition json_issues (rag_response : string) : list issue :=
  fold_left (fun issues json_str => add_decoded issues (json_value json_str))
            (findall false json_pattern rag_response) [].

(** The second strategy: one issue for each match of the issue pattern. *)
Definition labeled_issue (rag_response : string) (issue_text : string) : issue :=
  let section := or_default (search_group section_pattern rag_response) "General" in
  let severity := or_default (search_group severity_pattern rag_response) "Medium" in
  let suggestion := search_group suggestion_pattern rag_response in
  let regulation :=
    or_default (search_group regulation_pattern rag_response) "ADGM Regulations" in
  mk_issue section (strip issue_text) severity suggestion regulation.

Definition labeled_issues (rag_response : string) : list issue :=
  map (labeled_issue rag_response) (findall_group true issue_pattern rag_response).

(** The third strategy. *)
Definition sentence_end (c : ascii) : bool :=
  existsb (Ascii.eqb c) ["."%char; "!"%char; "?"%char].

Definition sentence_split : regex := Cat (Behind sentence_end) (Plus Space).

Definition discourse_marker : regex :=
  Cat Bos (Grp (Alts (map Lit ["in"; "the"; "section"; "regarding"; "part"]))).

Definition any_in (keywords : list string) (text : string) : bool :=
  existsb (fun keyword => contains keyword text) keywords.

(** One turn of the loop over the sentences: the current section and
    the issues so far. *)
Definition sentence_step (section_names : list string)
           (st : option string * list issue) (sentence : string)
  : option string * list issue :=
  let '(current_section, issues) := st in
  let current_section :=
    match match_ false discourse_marker (lower sentence) with
    | Some _ =>
        match find (fun section => contains (lower section) (lower sentence)) section_names with
        | Some section => Some section
        | None => current_section
        end
    | None => current_section
    end in
  if any_in ["missing"; "should"; "required"; "must"; "incorrect"; "issue"] (lower sentence)
  then
    let severity :=
      if any_in ["critical"; "serious"; "major"; "high"] (lower sentence) then "High"
      else if any_in ["minor"; "small"; "low"] (lower sentence) then "Low"
      else "Medium" in
    let section :=
      match current_section with
      | Some s => if truthy s then s else "General"
      | None => "General"
      end in
    (current_section,
     (issues ++ [mk_issue section (strip sentence) severity None "ADGM Regulations"])%list)
  else (current_section, issues).

Definition sentence_issues (rag_response : string) (section_names : list string)
  : list issue :=
  snd (fold_left (sentence_step section_names)
                 (split false sentence_split rag_response) (None, [])).

Definition is_empty {A : Type} (l : list A) : bool :=
  match l with [] => true | _ => false end.

(** The second and the third strategy, each tried when there is no issue
    so far. *)
Definition later_strategies (issues : list issue) (rag_response : string)
           (section_names : list string) : list issue :=
  let issues :=
    if is_empty issues then (issues ++ labeled_issues rag_response)%list else issues in
  let issues :=
    if is_empty issues then (issues ++ sentence_issues rag_response section_names)%list
    else issues in
  issues.

Definition _extract_issues_from_rag (self : analyzer) (rag_response : string)
           (doc_type : string) (section_names : list string) : outcome (list issue) :=
  match json_loop self [] (findall false json_pattern rag_response) with
  | Returned issues => Returned (later_strategies issues rag_response section_names)
  | Raised e => Raised e
  end.

Definition analysis_query (doc_type content_sample : string) (section_names : list string)
  : string :=
  lines [ "Analyze this " ++ doc_type ++ " for compliance with ADGM regulations. ";
          "            ";
          "            Look SPECIFICALLY for:";
          "            1. Invalid or missing clauses that should be in a " ++ doc_type;
          "            2. Incorrect jurisdiction references (e.g., UAE Federal Courts instead of ADGM)";
          dq "            3. Ambiguous or non-binding language (e.g., 'may or may not', 'as applicable')";
          "            4. Missing signatory sections or improper formatting";
          "            5. Non-compliance with ADGM-specific templates";
          "            ";
          "            Document content: " ++ content_sample;
          "            ";
          "            For each issue found, return in this EXACT format:";
          "            {";
          dq "                'section': 'Section name where issue is found',";
          dq "                'issue': 'Detailed description of the specific issue',";
          dq "                'severity': 'High/Medium/Low',";
          dq "                'suggestion': 'Specific suggestion for correction',";
          dq "                'regulation': 'Relevant ADGM regulation'";
          "            }";
          "            ";
          "            Include a list of sections found in the document: "
            ++ (if is_empty section_names then "No sections identified"
                else join ", " section_names);
          "            " ].

Definition _analyze_with_rag (self : analyzer) (content doc_type : string)
           (section_names : list string) : list issue :=
  match rag_engine self (analysis_query doc_type (sample 3000 content) section_names) with
  | Returned rag_response =>
      if truthy rag_response then
        match _extract_issues_from_rag self rag_response doc_type section_names with
        | Returned issues => issues
        | Raised _ => []
        end
      else []
  | Raised _ => []
  end.

Definition unidentified_issue : issue :=
  mk_issue3 "General" "Unable to identify document type" "High".

Definition manual_review_issue : issue :=
  mk_issue3 "General"
    "Document analysis completed but no specific issues were identified. Recommend manual review."
    "Low".

Definition analyze_document (self : analyzer) (doc : doc_info) (type_info : doc_type_info)
  : list issue :=
  let doc_type := type type_info in
  let content := doc_content doc in
  if negb (truthy content) || String.eqb doc_type "Unknown" then [unidentified_issue]
  else
    let section_names := map title (sections doc) in
    let issues := _analyze_with_rag self content doc_type section_names in
    if is_empty issues then (issues ++ [manual_review_issue])%list else issues.

End DocumentAnalyzer.

(** ** [checklist_verifier.py] *)

Module ChecklistVerifier.
Import PyStr Json.

Definition process_indicators : list (string * list string) :=
  [ ("Company Incorporation",
      ["Articles of Association"; "Memorandum of Association"; "incorporation"]);
    ("Employment Setup", ["Employment Contract"; "employment"]);
    ("Annual Compliance", ["Annual Accounts"; "annual"]);
    ("Corporate Governance Update",
      ["Board Resolution"; "Shareholder Resolution"; "governance"]);
    ("Branch Establishment", ["Branch"; "branch"]);
    ("Data Protection Compliance", ["Data Protection"; "data protection"]) ].

Definition required_docs_table : list (string * list string) :=
  [ ("Company Incorporation",
      ["Articles of Association"; "Memorandum of Association"; "Board Resolution"]);
    ("Employment Setup", ["Employment Contract"]);
    ("Annual Compliance", ["Annual Accounts"; "Board Resolution"]);
    ("Corporate Governance Update", ["Board Resolution"; "Shareholder Resolution"]);
    ("Branch Establishment", ["Board Resolution"]);
    ("Data Protection Compliance", ["Data Protection Policy"]) ].

(** What the identification returns: the dict with keys process and
    confidence and, for a known process, required_docs and
    optional_docs. *)
Record process_info := ProcessInfo {
  process : string;
  confidence : Q;
  required_docs : option (list string);
  optional_docs : option (list string) }.

(** The loop over the indicators, left at the first one found in the
    document type. *)
Fixpoint indicator_hit (indicators : list string) (doc_type : string) : bool :=
  match indicators with
  | [] => false
  | indicator :: rest =>
      if contains (lower indicator) (lower doc_type) then true
      else indicator_hit rest doc_type
  end.

(** The loop over the document types. *)
Definition score_process (indicators : list string) (document_types : list string) : nat :=
  fold_left (fun score doc_type =>
               if indicator_hit indicators doc_type then S score else score)
            document_types 0%nat.

(** [max(items, key=lambda x: x[1])]: the first item of the greatest
    score. *)
Definition max_by_score (first : string * nat) (others : list (string * nat))
  : string * nat :=
  fold_left (fun best x => if (snd best <? snd x)%nat then x else best) others first.

(** [table.get(key, [])] *)
Fixpoint lookup_docs (key : string) (table : list (string * list string)) : list string :=
  match table with
  | [] => []
  | (k, v) :: table' => if String.eqb key k then v else lookup_docs key table'
  end.

Definition unknown_process : process_info := ProcessInfo "Unknown" 0.0 None None.

Definition ratio (a b : nat) : Q := inject_Z (Z.of_nat a) / inject_Z (Z.of_nat b).

Definition _fallback_process_identification (document_types : list string) : process_info :=
  let scores :=
    map (fun pi => (fst pi, score_process (snd pi) document_types)) process_indicators in
  match scores with
  | [] => unknown_process
  | first :: others =>
      let best_process := max_by_score first others in
      if (snd best_process =? 0)%nat then unknown_process
      else ProcessInfo (fst best_process)
                       (Qmin 0.7 (ratio (snd best_process) (List.length document_types)))
                       (Some (lookup_docs (fst best_process) required_docs_table))
                       (Some [])
  end.

(** [issue.get("severity") == severity] *)
Definition has_severity (severity : string) (issue : dict) : bool :=
  match dict_get "severity" issue with
  | Some (JStr s) => String.eqb s severity
  | _ => false
  end.

(** [sum(1 for issue in issues_found if issue.get("severity") == severity)] *)
Definition count_severity (severity : string) (issues_found : list dict) : Z :=
  Z.of_nat (List.length (filter (has_severity severity) issues_found)).

(** The value of [compliance] before it is clamped. *)
Definition raw_compliance (missing_docs : list string) (issues_found : list dict) : Z :=
  let compliance := 100%Z in
  let compliance :=
    match missing_docs with
    | [] => compliance
    | _ => (compliance - Z.of_nat (List.length missing_docs) * 15)%Z
    end in
  let high_severity_issues := count_severity "High" issues_found in
  let medium_severity_issues := count_severity "Medium" issues_found in
  let low_severity_issues := count_severity "Low" issues_found in
  let compliance := (compliance - high_severity_issues * 5)%Z in
  let compliance := (compliance - medium_severity_issues * 2)%Z in
  let compliance := (compliance - low_severity_issues * 1)%Z in
  compliance.

Definition _calculate_compliance_percentage (document_types : list string)
           (missing_docs : list string) (issues_found : list dict) : Z :=
  Z.max 0 (Z.min 100 (raw_compliance missing_docs issues_found)).

End ChecklistVerifier.


From Stdlib Require DecimalString.

(** ** More of Python's strings and of [os.path] *)

Module PyMore.
Import PyStr.

(** [s.endswith(suffix)] *)
Fixpoint endswith (suffix s : string) : bool :=
  String.eqb suffix s
  || match s with
     | EmptyString => false
     | String _ s' => endswith suffix s'
     end.

(** [os.path.basename(p)] of [posixpath]: what follows the last slash. *)
Fixpoint basename_aux (cur : string) (p : string) : string :=
  match p with
  | EmptyString => cur
  | String c p' =>
      if Ascii.eqb c "/" then basename_aux EmptyString p'
      else basename_aux (cur ++ String c EmptyString) p'
  end.

Definition basename (p : string) : string := basename_aux EmptyString p.

End PyMore.

(** ** [document_processor.py]: [process_document] and
    [_find_section_paragraphs] *)

Module Processing.
Import PyStr PyMore DocumentProcessor.

(** What [docx.Document] gives: [doc.paragraphs] and, for [doc.tables], the
    rows of each table, the cells of each row and the paragraphs of each
    cell. *)
Record document := Document {
  doc_paragraphs : list paragraph;
  tables : list (list (list (list paragraph))) }.

(** The files: [os.path.exists] and [docx.Document], which may raise. *)
Record filesystem := Filesystem {
  exists_ : string -> bool;
  open_docx : string -> outcome document }.

(** The dict of a processed document: the keys of [doc_info], the file
    path and the document object. *)
Record processed := Processed {
  info : doc_info;
  file_path : string;
  doc_obj : document }.

(** What [process_document] returns: the dict with the key error, or the
    dict of the document. *)
Inductive processing : Type :=
| Failed (error : string)
| Done (p : processed).

Definition add_text (content : string) (para : paragraph) : string :=
  content ++ text para ++ newline.

(** The loops over the tables, their rows, their cells and the paragraphs
    of the cells. *)
Definition add_tables (content : string) (tables : list (list (list (list paragraph))))
  : string :=
  fold_left (fun content table =>
    fold_left (fun content row =>
      fold_left (fun content cell => fold_left add_text cell content) row content)
      table content)
    tables content.

Definition process_document (fs : filesystem) (file_path : string) : processing :=
  let filename := basename file_path in
  if negb (exists_ fs file_path) then Failed ("File not found: " ++ file_path)
  else if negb (endswith ".docx" (lower file_path))
  then Failed "Unsupported file type. Only .docx files are supported."
  else
    match open_docx fs file_path with
    | Raised e => Failed ("Error processing document: " ++ e)
    | Returned doc =>
        let content := fold_left add_text (doc_paragraphs doc) EmptyString in
        let content := add_tables content (tables doc) in
        let sections := _extract_document_sections (doc_paragraphs doc) in
        Done (Processed (DocInfo filename content sections) file_path doc)
    end.

(** The keyword test of the second loop of [_find_section_paragraphs]. *)
Definition keyword_match (section_name : string) (s : section) : bool :=
  let content_lower := lower (content s) in
  let section_keywords := split_ws (lower section_name) in
  let matches :=
    List.length
      (filter (fun keyword => (3 <? len keyword)%nat
                              && contains keyword content_lower) section_keywords) in
  (Nat.max 1 (List.length section_keywords / 2) <=? matches)%nat.

Definition fuzzy_match (section_name : string) (s : section) : bool :=
  contains (lower section_name) (lower (title s)) || keyword_match section_name s.

Definition _find_section_paragraphs (doc : processed) (section_name : string) : list nat :=
  match find (fun s => String.eqb (title s) section_name) (sections (info doc)) with
  | Some s => paragraphs s
  | None =>
      match find (fuzzy_match section_name) (sections (info doc)) with
      | Some s => paragraphs s
      | None =>
          if (0 <? List.length (doc_paragraphs (doc_obj doc)))%nat then [0%nat] else []
      end
  end.

End Processing.

(** ** [document_processor.py]: [add_comments] *)

Module Review.
Import PyStr PyMore Json DocumentProcessor Processing.

(** A value that [add_comments] reads from an issue: [None] or a text. *)
Inductive value : Type :=
| PyNone
| Text (s : string).

(** What [add_comments] reads from an issue, the default taken where the
    issue has no such key: [issue.get("section", "General")],
    [issue.get("severity", "Medium")], [issue.get("issue", "")],
    [issue.get("suggestion", "")] and
    [issue.get("regulation", "ADGM Regulations")]. *)
Record issue_values := IssueValues {
  section_value : value;
  severity_value : value;
  issue_value : value;
  suggestion_value : value;
  regulation_value : value }.

(** [issue.get(key, default)] when the value is [None] or a text; the
    values of other kinds that a record of the engine may hold are not
    covered. *)
Definition get (key default : string) (issue : dict) : option value :=
  match dict_get key issue with
  | None => Some (Text default)
  | Some JNull => Some PyNone
  | Some (JStr s) => Some (Text s)
  | Some _ => None
  end.

Definition read (issue : dict) : option issue_values :=
  match get "section" "General" issue, get "severity" "Medium" issue,
        get "issue" "" issue, get "suggestion" "" issue,
        get "regulation" "ADGM Regulations" issue with
  | Some section, Some severity, Some issue_text, Some suggestion, Some regulation =>
      Some (IssueValues section severity issue_text suggestion regulation)
  | _, _, _, _, _ => None
  end.

(** The value in an f-string. *)
Definition format (v : value) : string :=
  match v with PyNone => "None" | Text s => s end.

(** [bool(v)] *)
Definition value_truthy (v : value) : bool :=
  match v with PyNone => false | Text s => truthy s end.

(** [v == s] for a text [s] *)
Definition is_text (v : value) (s : string) : bool :=
  match v with PyNone => false | Text t => String.eqb t s end.

(** Equality of two keys of a dict. *)
Definition value_eqb (v w : value) : bool :=
  match v, w with
  | PyNone, PyNone => true
  | Text s, Text t => String.eqb s t
  | _, _ => false
  end.

(** [len(l)] in an f-string. *)
Definition decimal (n : nat) : string :=
  DecimalString.NilZero.string_of_uint (Nat.to_uint n).

(** [os.path.join(a, b)] of [posixpath]. *)
Definition path_join (a b : string) : string :=
  if startswith "/" b then b
  else if negb (truthy a) || endswith "/" a then a ++ b
  else a ++ "/" ++ b.

Inductive rgb : Type := RGBColor (r g b : nat).

(** The members of [WD_COLOR_INDEX] that are used. *)
Inductive highlight_color : Type := RED | YELLOW | TURQUOISE.

(** A run added to a paragraph: its text, [bold], [italic] and
    [font.color.rgb] where they are set. *)
Record new_run := NewRun {
  run_text : string;
  run_bold : bool;
  run_italic : bool;
  run_color : option rgb }.

Definition plain (text : string) : new_run := NewRun text false false None.

(** A character that the XML of the document can hold: TAB, LF and CR,
    which [add_run] turns into tabs and line breaks, and the characters
    from the space on other than the surrogates, U+FFFE and U+FFFF. *)
Definition xml_char (n : N) : bool :=
  (n =? 9)%N || (n =? 10)%N || (n =? 13)%N
  || ((32 <=? n)%N && negb ((55296 <=? n)%N && (n <=? 57343)%N)
      && negb (n =? 65534)%N && negb (n =? 65535)%N).

(** [paragraph.add_run(text)] does not raise: it raises [ValueError] on
    a text with any other character. *)
Definition xml_compatible (text : string) : bool :=
  forallb xml_char (map ord (chars text)).

Definition runs_compatible (runs : list new_run) : bool :=
  forallb (fun r => xml_compatible (run_text r)) runs.

(** A paragraph appended to the document: one whose runs were added one
    by one, or the one of [doc.add_page_break()]. *)
Inductive added_paragraph : Type :=
| Runs (runs : list new_run)
| PageBreak.

(** What surrounds the call: [tempfile.mkdtemp()], [doc.save(path)], and
    how an appended paragraph is read back in [doc.paragraphs]. *)
Record environment := Environment {
  mkdtemp : outcome string;
  save : string -> outcome unit;
  read_back : added_paragraph -> paragraph }.

(** The marks made on the document: the paragraphs appended, in order,
    and the calls of [_highlight_paragraph], each with the index of the
    paragraph in [doc.paragraphs] and the color, in order. *)
Record marking := Marking {
  added : list added_paragraph;
  highlighted : list (nat * highlight_color) }.

Definition _get_color_for_severity (severity : value) : rgb :=
  if is_text severity "High" then RGBColor 255 0 0
  else if is_text severity "Medium" then RGBColor 255 165 0
  else RGBColor 0 0 255.

(** [issues_by_section]: a dict from the section to its issues, in the
    order in which the sections first occur. *)
Fixpoint group_add (section : value) (issue : issue_values)
         (issues_by_section : list (value * list issue_values))
  : list (value * list issue_values) :=
  match issues_by_section with
  | [] => [(section, [issue])]
  | (k, l) :: rest =>
      if value_eqb k section then (k, (l ++ [issue])%list) :: rest
      else (k, l) :: group_add section issue rest
  end.

Definition group_by_section (issues : list issue_values)
  : list (value * list issue_values) :=
  fold_left (fun issues_by_section issue =>
               group_add (section_value issue) issue issues_by_section)
            issues [].

(** The two runs of an issue in the summary. *)
Definition summary_issue_runs (issue : issue_values) : list new_run :=
  let severity := severity_value issue in
  let issue_text := issue_value issue in
  [ if is_text severity "High" then NewRun "HIGH: " false false (Some (RGBColor 255 0 0))
    else if is_text severity "Medium"
    then NewRun "MEDIUM: " false false (Some (RGBColor 255 165 0))
    else NewRun "LOW: " false false (Some (RGBColor 0 0 255));
    plain (format issue_text ++ newline) ].

(** The runs of the summary paragraph. *)
Definition summary_runs (issues : list issue_values) : list new_run :=
  ([ NewRun ("DOCUMENT REVIEW SUMMARY" ++ newline) true false None;
     plain ("Total issues found: " ++ decimal (List.length issues) ++ newline ++ newline) ]
   ++ flat_map (fun entry : value * list issue_values =>
                  let (section, section_issues) := entry in
                  NewRun (format section ++ ": " ++ decimal (List.length section_issues)
                          ++ " issues" ++ newline) true false None
                  :: flat_map summary_issue_runs section_issues)
               (group_by_section issues))%list.

Definition icon (severity : value) : string :=
  if is_text severity "High" then "âš ï¸ "
  else if is_text severity "Medium" then "â„¹ï¸ "
  else "ðŸ“ ".

(** The runs of the comment paragraph of an issue. *)
Definition comment_runs (issue : issue_values) : list new_run :=
  let severity := severity_value issue in
  let suggestion := suggestion_value issue in
  let regulation := regulation_value issue in
  ([ NewRun (icon severity ++ "ISSUE (" ++ format severity ++ " severity): ")
            true false (Some (_get_color_for_severity severity));
     plain (format (issue_value issue) ++ newline) ]
   ++ (if value_truthy suggestion
       then [ NewRun "SUGGESTION: " true false None; plain (format suggestion ++ newline) ]
       else [])
   ++ (if value_truthy regulation
       then [ NewRun "REGULATION: " true true None; plain (format regulation ++ newline) ]
       else [])
   ++ [ plain ("________________________________________" ++ newline) ])%list.

Definition highlight_for (severity : value) : highlight_color :=
  if is_text severity "High" then RED
  else if is_text severity "Medium" then YELLOW
  else TURQUOISE.

(** The document as it stands: [doc_info] with the paragraphs appended to
    its document object so far. *)
Definition current (env : environment) (doc : processed) (m : marking) : processed :=
  Processed (info doc) (file_path doc)
            (Document (doc_paragraphs (doc_obj doc) ++ map (read_back env) (added m))%list
                      (tables (doc_obj doc))).

(** [self._find_section_paragraphs(doc_info, section_name)] for a section
    name that is [None] or a text: with [None] no title is equal to the
    name, and the second loop raises at the first section. *)
Definition find_paragraphs (doc : processed) (section_name : value)
  : outcome (list nat) :=
  match section_name with
  | Text s => Returned (_find_section_paragraphs doc s)
  | PyNone =>
      match sections (info doc) with
      | [] =>
          Returned (if (0 <? List.length (doc_paragraphs (doc_obj doc)))%nat
                    then [0%nat] else [])
      | _ :: _ => Raised "'NoneType' object has no attribute 'lower'"
      end
  end.

(** The first index that has no comment yet, else the first index. *)
Definition choose_target (para_indices commented_paragraphs : list nat) : option nat :=
  match find (fun idx => negb (existsb (Nat.eqb idx) commented_paragraphs)) para_indices with
  | Some idx => Some idx
  | None => match para_indices with idx :: _ => Some idx | [] => None end
  end.

(** One turn of the loop over the issues: the marks and the set
    [commented_paragraphs]. *)
Definition comment (env : environment) (doc : processed)
           (st : marking * list nat) (issue : issue_values)
  : outcome (marking * list nat) :=
  let '(m, commented_paragraphs) := st in
  match find_paragraphs (current env doc m) (section_value issue) with
  | Raised e => Raised e
  | Returned para_indices =>
      match choose_target para_indices commented_paragraphs with
      | None => Returned st
      | Some target_index =>
          let commented_paragraphs :=
            if existsb (Nat.eqb target_index) commented_paragraphs then commented_paragraphs
            else target_index :: commented_paragraphs in
          if (target_index <? List.length (doc_paragraphs (doc_obj (current env doc m))))%nat
          then
            if runs_compatible (comment_runs issue) then
              Returned
                (Marking (added m ++ [Runs (comment_runs issue)])%list
                         (highlighted m
                          ++ [(target_index, highlight_for (severity_value issue))])%list,
                 commented_paragraphs)
            else Raised "All strings must be XML compatible"
          else Raised "list index out of range"
      end
  end.

Fixpoint comment_all (env : environment) (doc : processed)
         (st : marking * list nat) (issues : list issue_values)
  : outcome (marking * list nat) :=
  match issues with
  | [] => Returned st
  | issue :: rest =>
      match comment env doc st issue with
      | Raised e => Raised e
      | Returned st' => comment_all env doc st' rest
      end
  end.

(** [add_comments(doc_info, issues)]: the path of the reviewed file with
    the marks made on the document that is saved there, or [None].  The
    document object of a processed document is never false, and
    [section_map] is not used; every exception ends in [None], that of a
    run that XML cannot hold among them. *)
Definition add_comments (env : environment) (doc_info : processing)
           (issues : list issue_values) : option (string * marking) :=
  match doc_info, issues with
  | Failed _, _ => None
  | _, [] => None
  | Done doc, _ =>
      match mkdtemp env with
      | Raised _ => None
      | Returned temp_dir =>
          let marked_file_path :=
            path_join temp_dir ("REVIEWED_" ++ filename (info doc)) in
          if runs_compatible (summary_runs issues) then
            let m := Marking [Runs (summary_runs issues); PageBreak] [] in
            match comment_all env doc (m, []) issues with
            | Raised _ => None
            | Returned (m, _) =>
                match save env marked_file_path with
                | Raised _ => None
                | Returned _ => Some (marked_file_path, m)
                end
            end
          else None
      end
  end.

End Review.

(** ** The floats of the confidence that is computed with the engine

    A float is held as the rational that it is; a constant of the source
    is held as it is written, so that the least of 0.9 and a float is 0.9
    when the float is not below the constant. *)

Module PyFloat.

(** The integer nearest to [num / den], the even one of two that are as
    near. *)
Definition nearest (num den : Z) : Z :=
  let q := (num / den)%Z in
  let r := (num mod den)%Z in
  if (2 * r <? den)%Z then q
  else if (den <? 2 * r)%Z then (q + 1)%Z
  else if Z.even q then q else (q + 1)%Z.

(** The float nearest to a positive rational: an integer of 53 bits times
    a power of two.  The exponent is not bounded. *)
Definition double_pos (a b : Z) : Q :=
  let e0 := (Z.log2 a - Z.log2 b - 52)%Z in
  let '(num, den) :=
    if (0 <=? e0)%Z then (a, (b * 2 ^ e0)%Z) else ((a * 2 ^ (- e0))%Z, b) in
  let '(num, e) :=
    if (num / den <? 2 ^ 52)%Z then ((2 * num)%Z, (e0 - 1)%Z) else (num, e0) in
  let m := nearest num den in
  if (0 <=? e)%Z then inject_Z (m * 2 ^ e) else Qmake m (Z.to_pos (2 ^ (- e))).

(** The float nearest to a rational. *)
Definition double (q : Q) : Q :=
  match Qnum q with
  | Z0 => 0%Q
  | Zpos a => double_pos (Zpos a) (Zpos (Qden q))
  | Zneg a => Qopp (double_pos (Zpos a) (Zpos (Qden q)))
  end.

(** [a / b] of two integers, [b] not 0. *)
Definition true_div (a b : nat) : Q := double (ChecklistVerifier.ratio a b).

(** [x + y], the constant [y] read as a float. *)
Definition float_add (x y : Q) : Q := double (x + double y).

End PyFloat.

(** ** [checklist_verifier.py]: the identification of the process with the
    engine, the missing documents and the summary *)

Module Checklist.
Import PyStr PyFloat Re Json ChecklistVerifier.

(** The dict that [identify_process] returns: the keys of [process_info]
    and, when the engine named the process, rag_response. *)
Record identified := Identified {
  info : process_info;
  rag_response : option string }.

Definition processes : list string :=
  [ "Company Incorporation";
    "Employment Setup";
    "Annual Compliance";
    "Corporate Governance Update";
    "Branch Establishment";
    "Data Protection Compliance" ].

Definition Opt (r : regex) : regex := Alt r Eps.

(** The class of the colon and [\s]. *)
Definition colon_or_space : regex := Alt (Chr ":") Space.

(** The class A-Z under [re.IGNORECASE]: the letters of ASCII and the
    four characters that [folds] gives to three of them. *)
Definition letter (c : ascii) : bool := is_upper_char c || is_lower_char c.

Definition any_letter : regex :=
  Alt (Cls letter) (Alts (map Lit (folds "i" ++ folds "s" ++ folds "k"))).

(** One of five words for required, whitespace, document or documents,
    colons or whitespace, then the group: as little text as possible up to
    an empty line or to a period, whitespace and a letter
    ([re.DOTALL | re.IGNORECASE]). *)
Definition required_docs_pattern : regex :=
  Cat (Alts (map LitI ["required"; "necessary"; "essential"; "must have"; "needed"]))
    (Cat (Plus Space)
      (Cat (LitI "document")
        (Cat (Opt (ChrI "s"))
          (Cat (Plus colon_or_space)
            (Cat (Grp (Star false (Cls any_char)))
              (Alt (Lit (newline ++ newline))
                   (Cat (Chr ".") (Cat (Plus Space) any_letter)))))))).

(** The separators of the items: runs of line ends, commas, hyphens and of
    the three characters that the class of the source lists with them. *)
Definition item_separator : regex :=
  Plus (Alts [Chr (ascii_of_nat 10); Chr ","; Lit "â"; Lit "€"; Lit "¢"; Chr "-"]).

(** The items of one section that are kept. *)
Definition section_items (section : string) : list string :=
  filter (fun item => truthy item && (5 <? len item)%nat)
         (map strip (split false item_separator section)).

Definition default_required_docs (identified_process : string) : list string :=
  if String.eqb "Company Incorporation" identified_process
  then ["Articles of Association"; "Memorandum of Association"; "Board Resolution"]
  else if String.eqb "Employment Setup" identified_process
  then ["Employment Contract"]
  else if String.eqb "Annual Compliance" identified_process
  then ["Annual Accounts"; "Board Resolution"]
  else [].

(** [req.lower() in doc_type.lower() or doc_type.lower() in req.lower()] *)
Definition names_match (req doc_type : string) : bool :=
  contains (lower req) (lower doc_type) || contains (lower doc_type) (lower req).

Definition _extract_process_info_from_rag (rag_response : string)
           (document_types : list string) : option identified :=
  if negb (truthy rag_response) then None
  else
    match find (fun process => contains (lower process) (lower rag_response)) processes with
    | None => None
    | Some identified_process =>
        let doc_sections := findall_group true required_docs_pattern rag_response in
        let required_docs := flat_map section_items doc_sections in
        let required_docs :=
          match required_docs with
          | [] => default_required_docs identified_process
          | _ => required_docs
          end in
        let matched_docs :=
          List.length
            (filter (fun doc_type => existsb (fun req => names_match req doc_type) required_docs)
                    document_types) in
        let confidence :=
          match required_docs with
          | [] => 0.5%Q
          | _ => true_div matched_docs (List.length required_docs)
          end in
        Some (Identified
                (ProcessInfo identified_process (Qmin 0.9 (float_add confidence 0.3))
                             (Some required_docs) (Some []))
                (Some rag_response))
    end.

Definition process_query (document_types : list string) : string :=
  lines [ "Based on these document types: " ++ join ", " document_types
            ++ ", what ADGM legal process is the user likely trying to complete? ";
          "            ";
          "            Choose from these processes:";
          "            - Company Incorporation";
          "            - Employment Setup";
          "            - Annual Compliance";
          "            - Corporate Governance Update";
          "            - Branch Establishment";
          "            - Data Protection Compliance";
          "            ";
          "            Also list what documents are typically required for this process according to ADGM regulations.";
          "            " ].

Definition unknown : identified := Identified unknown_process None.

Definition identify_process (rag_engine : string -> outcome string)
           (document_types : list string) : identified :=
  match document_types with
  | [] => unknown
  | _ =>
      let fallback := Identified (_fallback_process_identification document_types) None in
      match rag_engine (process_query document_types) with
      | Returned rag_response =>
          match _extract_process_info_from_rag rag_response document_types with
          | Some process_info =>
              if negb (String.eqb (process (info process_info)) "Unknown")
              then process_info else fallback
          | None => fallback
          end
      | Raised _ => fallback
      end
  end.

(** The inner loop of [check_missing_documents], left at the first
    document type that matches. *)
Fixpoint found_among (document_types : list string) (req_doc : string) : bool :=
  match document_types with
  | [] => false
  | doc_type :: rest =>
      if contains (lower req_doc) (lower doc_type) || contains (lower doc_type) (lower req_doc)
      then true
      else found_among rest req_doc
  end.

Definition check_missing_documents (document_types : list string)
           (process_info : option identified) : list string :=
  match process_info with
  | None => []
  | Some pi =>
      if String.eqb (process (info pi)) "Unknown" then []
      else
        let required_docs :=
          match required_docs (info pi) with Some l => l | None => [] end in
        fold_left (fun missing_docs req_doc =>
                     if negb (found_among document_types req_doc)
                     then (missing_docs ++ [req_doc])%list else missing_docs)
                  required_docs []
  end.

Definition descriptions : list (string * string) :=
  [ ("Company Incorporation", "The process of incorporating a new company in ADGM.");
    ("Employment Setup", "Setting up employment documentation for ADGM companies.");
    ("Annual Compliance", "Annual filing and compliance requirements for ADGM companies.");
    ("Corporate Governance Update", "Updating corporate governance documentation.");
    ("Branch Establishment", "Establishing a branch office in ADGM.");
    ("Data Protection Compliance",
     "Ensuring compliance with ADGM Data Protection Regulations.") ].

(** [descriptions.get(process_name, "ADGM regulatory process.")] *)
Fixpoint description_of (process_name : string) (table : list (string * string)) : string :=
  match table with
  | [] => "ADGM regulatory process."
  | (k, v) :: table' => if String.eqb process_name k then v else description_of process_name table'
  end.

Definition description_query (process_name : string) : string :=
  "What is the " ++ process_name ++ " process in ADGM? Provide a brief description.".

(** [response.split('.')[0]]; the split of a text has a first part. *)
Definition first_sentence (response : string) : string :=
  match split_char_aux "." EmptyString response with
  | s :: _ => s
  | [] => EmptyString
  end.

Definition _get_process_description (rag_engine : string -> outcome string)
           (process_name : string) : string :=
  match rag_engine (description_query process_name) with
  | Returned response =>
      if truthy response then strip (first_sentence response) ++ "."
      else description_of process_name descriptions
  | Raised _ => description_of process_name descriptions
  end.

(** The dict that [generate_process_summary] returns. *)
Record summary := Summary {
  summary_process : string;
  process_description : string;
  documents_uploaded : nat;
  required_documents : nat;
  missing_documents : option (list string);
  issues_count : nat;
  critical_issues_count : Z;
  compliance_percentage : Z }.

Definition generate_process_summary (rag_engine : string -> outcome string)
           (document_types : list string) (issues_found : list dict) : summary :=
  let process_info := identify_process rag_engine document_types in
  let process_name := process (info process_info) in
  let missing_docs := check_missing_documents document_types (Some process_info) in
  Summary process_name
          (_get_process_description rag_engine process_name)
          (List.length document_types)
          (List.length (match required_docs (info process_info) with
                        | Some l => l
                        | None => []
                        end))
          (match missing_docs with [] => None | _ => Some missing_docs end)
          (List.length issues_found)
          (count_severity "High" issues_found)
          (_calculate_compliance_percentage document_types missing_docs issues_found).

End Checklist.

(** ** [rag_engine.py]: [_setup_retriever] and [query_regulations] *)

Module Regulations.
Import PyStr RAGEngine.

(** [_setup_retriever]: [from_chain_type] stands for the chain that
    [RetrievalQA.from_chain_type] builds on the language model and the
    retriever of the vector store. *)
Definition _setup_retriever (from_chain_type : unit -> unit -> string -> outcome qa_result)
           (self : engine) : engine :=
  match vectorstore self, llm self with
  | Some store, Some model =>
      Engine (vectorstore self) (Some (from_chain_type model store)) (llm self)
  | _, _ => self
  end.

Definition regulations_query (doc_type : string) (topic : option string) : string :=
  match topic with
  | Some t =>
      if truthy t
      then "What are the ADGM regulations for " ++ doc_type ++ " regarding " ++ t
           ++ "? Please cite specific sections and requirements."
      else "What are the key ADGM regulations for " ++ doc_type
           ++ "? Please cite specific sections and requirements."
  | None =>
      "What are the key ADGM regulations for " ++ doc_type
      ++ "? Please cite specific sections and requirements."
  end.

Definition query_regulations (self : engine) (doc_type : string) (topic : option string)
  : outcome string :=
  match vectorstore self, qa_chain self, llm self with
  | Some _, Some _, Some _ =>
      match query self (regulations_query doc_type topic) with
      | Returned answer => Returned answer
      | Raised e => Returned ("Error retrieving regulations: " ++ e)
      end
  | _, _, _ =>
      Returned ("RAG system not initialized. Cannot retrieve regulations for " ++ doc_type ++ ".")
  end.

End Regulations.

(** ** Words for the further properties *)

Module Words.
Import PyStr RAGEngine DocumentProcessor.

(** The documents required by what was identified, none when the dict has
    no such key. *)
Definition required_of (process_info : Checklist.identified) : list string :=
  match ChecklistVerifier.required_docs (Checklist.info process_info) with
  | Some l => l
  | None => []
  end.

(** The citation of a retrieved document. *)
Definition citation (doc : source_document) : string :=
  or_unknown (document_type doc) ++ " (" ++ or_unknown (source doc) ++ ")".

(** The texts of a list without those seen before, in the order of their
    first occurrence. *)
Fixpoint first_occurrences (seen : list string) (l : list string) : list string :=
  match l with
  | [] => []
  | x :: l' =>
      if existsb (String.eqb x) seen then first_occurrences seen l'
      else x :: first_occurrences (x :: seen) l'
  end.

(** One line for each citation. *)
Fixpoint listing (citations : list string) : string :=
  match citations with
  | [] => EmptyString
  | c :: rest => "- " ++ c ++ newline ++ listing rest
  end.

(** The texts of the paragraphs, each followed by a line end. *)
Fixpoint text_of (paras : list paragraph) : string :=
  match paras with
  | [] => EmptyString
  | para :: rest => text para ++ newline ++ text_of rest
  end.

(** The paragraphs of the cells of the rows of the tables, in order. *)
Definition table_paragraphs (tables : list (list (list (list paragraph))))
  : list paragraph :=
  concat (concat (concat tables)).

(** A character other than the given one. *)
Definition other_than (x c : ascii) : bool := negb (Ascii.eqb c x).

(** The three severities. *)
Definition known_severity (s : string) : Prop := s = "High" \/ s = "Medium" \/ s = "Low".

(** The dict has the three keys that every reader of an issue uses. *)
Definition well_formed_issue (i : Json.dict) : Prop :=
  Json.dict_mem "section" i = true
  /\ Json.dict_mem "issue" i = true
  /\ Json.dict_mem "severity" i = true.

End Words.

(** ** The words of the specification *)

Module Spec.
Import PyStr Re Json DocumentProcessor DocumentAnalyzer ChecklistVerifier.

(** A block delimited by braces that parses as a record with a section
    and an issue field. *)
Definition record_block (b : string) : Prop :=
  (exists inner, b = "{" ++ inner ++ "}")
  /\ exists d, json_value b = Some (JObj d)
               /\ dict_mem "section" d = true /\ dict_mem "issue" d = true.

(** The text contains such a block. *)
Definition has_record_block (text : string) : Prop :=
  exists before b after, text = before ++ b ++ after /\ record_block b.

(** The text up to the first closing brace, and the text after that
    brace. *)
Fixpoint close_split (s : string) : option (string * string) :=
  match s with
  | EmptyString => None
  | String c s' =>
      if Ascii.eqb c "}" then Some (EmptyString, s')
      else
        match close_split s' with
        | Some (inner, rest) => Some (String c inner, rest)
        | None => None
        end
  end.

(** The blocks that one pass over the text finds: a block starts at an
    opening brace met outside a block and ends at the first closing brace
    after it.  [open] is the block under way. *)
Fixpoint brace_blocks (open : option string) (s : string) : list string :=
  match s with
  | EmptyString => []
  | String c s' =>
      match open with
      | None =>
          if Ascii.eqb c "{" then brace_blocks (Some "{") s' else brace_blocks None s'
      | Some block =>
          if Ascii.eqb c "}" then (block ++ "}") :: brace_blocks None s'
          else brace_blocks (Some (block ++ String c EmptyString)) s'
      end
  end.

(** The first block of a text and the text after it. *)
Fixpoint next_block (s : string) : option (string * string) :=
  match s with
  | EmptyString => None
  | String c s' =>
      if Ascii.eqb c "{" then
        match close_split s' with
        | Some (inner, rest) => Some ("{" ++ inner ++ "}", rest)
        | None => next_block s'
        end
      else next_block s'
  end.

(** The character before the cursor once [skipped] has been passed. *)
Fixpoint char_before (prev : option ascii) (skipped : string) : option ascii :=
  match skipped with
  | EmptyString => prev
  | String c s' => char_before (Some c) s'
  end.

(** The issue of a block that is accepted: the record, its severity
    Medium when it has none. *)
Definition accepted (b : string) : option issue :=
  match json_value b with
  | Some (JObj d) =>
      if dict_mem "section" d && dict_mem "issue" d then
        Some (if dict_mem "severity" d then d else d ++ [("severity", JStr "Medium")])%list
      else None
  | _ => None
  end.

(** The decoder meets no limit of the interpreter on the block: it
    returns a value or raises a decode error, and no other exception. *)
Definition within_limits (self : analyzer) (b : string) : bool :=
  match loads (python self) b with
  | Returned _ => true
  | Raised _ => false
  end.

(** The issues of the accepted blocks, in the order of the blocks. *)
Definition block_issues (blocks : list string) : list issue :=
  flat_map (fun b => match accepted b with Some i => [i] | None => [] end) blocks.

(** The text contains the phrase, letter case ignored. *)
Definition mentions (phrase text : string) : Prop :=
  contains (lower phrase) (lower text) = true.

(** The score of a process: the number of submitted document types that
    contain one of its indicator keywords. *)
Definition keyword_score (indicators : list string) (document_types : list string) : nat :=
  List.length
    (filter (fun doc_type =>
               existsb (fun indicator => contains (lower indicator) (lower doc_type))
                       indicators)
            document_types).

(** A paragraph that opens a section: a heading with text. *)
Definition opens_section (para : paragraph) : bool :=
  is_heading para && truthy (strip (text para)).

(** The runs of paragraphs: the paragraphs before the first heading,
    under the title General, then each heading with the paragraphs up to
    the next heading. *)
Fixpoint runs_from (current : section) (ips : list (nat * paragraph)) : list section :=
  match ips with
  | [] => [current]
  | (i, para) :: rest =>
      if opens_section para then
        current :: runs_from (Section_ (strip (text para)) "" [i]) rest
      else
        runs_from (Section_ (title current)
                            (content current ++ text para ++ newline)
                            (paragraphs current ++ [i])%list) rest
  end.

Definition all_runs (doc : list paragraph) : list section :=
  runs_from (Section_ "General" "" []) (enumerate doc).

(** The run has text that is not blank. *)
Definition has_content (s : section) : bool := truthy (strip (content s)).

(** The number of paragraphs before the first heading. *)
Fixpoint preamble (doc : list paragraph) : nat :=
  match doc with
  | [] => 0
  | para :: doc' => if opens_section para then 0 else S (preamble doc')
  end.

End Spec.
(** * Properties *)

(** A closed equation, or the negation of one, settled by evaluation. *)
Ltac by_computing :=
  vm_compute; first [reflexivity | discriminate | intro; discriminate].

(** ** The compliance scorer *)

Section Scorer.
Import Json ChecklistVerifier.

Lemma has_severity_eq (sev sev' : string) (i : dict) :
  has_severity sev i = true -> has_severity sev' i = String.eqb sev sev'.
Proof.
  unfold has_severity. destruct (dict_get "severity" i) as [[]|]; try discriminate.
  intros H. apply String.eqb_eq in H. subst. reflexivity.
Qed.

Lemma count_severity_app (sev : string) (l1 l2 : list dict) :
  count_severity sev (l1 ++ l2) = (count_severity sev l1 + count_severity sev l2)%Z.
Proof.
  unfold count_severity. rewrite filter_app, length_app. lia.
Qed.

Lemma count_severity_cons (sev : string) (i : dict) (l : list dict) :
  count_severity sev (i :: l)
  = ((if has_severity sev i then 1 else 0) + count_severity sev l)%Z.
Proof.
  unfold count_severity. simpl. destruct (has_severity sev i); simpl length; lia.
Qed.

Lemma count_severity_nonneg (sev : string) (l : list dict) : (0 <= count_severity sev l)%Z.
Proof. unfold count_severity. lia. Qed.

Lemma count_severity_perm (sev : string) (l l' : list dict) :
  Permutation l l' -> count_severity sev l = count_severity sev l'.
Proof.
  intros H. induction H.
  - reflexivity.
  - rewrite !count_severity_cons. lia.
  - rewrite !count_severity_cons. lia.
  - congruence.
Qed.

(** The deductions written out. *)
Lemma raw_compliance_formula (missing_docs : list string) (issues_found : list dict) :
  raw_compliance missing_docs issues_found
  = (100 - 15 * Z.of_nat (List.length missing_docs)
     - 5 * count_severity "High" issues_found
     - 2 * count_severity "Medium" issues_found
     - 1 * count_severity "Low" issues_found)%Z.
Proof.
  unfold raw_compliance. destruct missing_docs; simpl List.length; lia.
Qed.

Lemma raw_compliance_insert (i : dict) (missing_docs : list string) (l1 l2 : list dict) :
  raw_compliance missing_docs (l1 ++ i :: l2)
  = (raw_compliance missing_docs (l1 ++ l2)
     - 5 * (if has_severity "High" i then 1 else 0)
     - 2 * (if has_severity "Medium" i then 1 else 0)
     - 1 * (if has_severity "Low" i then 1 else 0))%Z.
Proof.
  rewrite !raw_compliance_formula, !count_severity_app, !count_severity_cons. lia.
Qed.

Lemma clamp_bounds (x : Z) : (0 <= Z.max 0 (Z.min 100 x) <= 100)%Z.
Proof. lia. Qed.

(** C4.  The score is max(0, min(100, 100 - 15 m - 5 h - 2 d - l)) for m
    missing documents and h High, d Medium and l Low issues; it is the
    same for reordered inputs; it lies between 0 and 100; one more Low
    issue never raises it and lowers it by at most 1; one more High
    issue lowers the value before the clamp by exactly 5; one missing
    document with one High and one Low issue score 79. *)
Theorem compliance_score_formula :
  (forall document_types missing_docs issues_found,
      _calculate_compliance_percentage document_types missing_docs issues_found
      = Z.max 0 (Z.min 100
          (100 - 15 * Z.of_nat (List.length missing_docs)
           - 5 * count_severity "High" issues_found
           - 2 * count_severity "Medium" issues_found
           - 1 * count_severity "Low" issues_found))%Z)
  /\ (forall document_types missing_docs missing_docs' issues_found issues_found',
         Permutation missing_docs missing_docs' ->
         Permutation issues_found issues_found' ->
         _calculate_compliance_percentage document_types missing_docs issues_found
         = _calculate_compliance_percentage document_types missing_docs' issues_found')
  /\ (forall document_types missing_docs issues_found,
         (0 <= _calculate_compliance_percentage document_types missing_docs issues_found
          <= 100)%Z)
  /\ (forall document_types missing_docs before after issue,
         has_severity "Low" issue = true ->
         (_calculate_compliance_percentage document_types missing_docs
            (before ++ issue :: after)
          <= _calculate_compliance_percentage document_types missing_docs (before ++ after)
          /\ _calculate_compliance_percentage document_types missing_docs (before ++ after) - 1
             <= _calculate_compliance_percentage document_types missing_docs
                  (before ++ issue :: after))%Z)
  /\ (forall missing_docs before after issue,
         has_severity "High" issue = true ->
         raw_compliance missing_docs (before ++ issue :: after)
         = (raw_compliance missing_docs (before ++ after) - 5)%Z)
  /\ (forall document_types,
         _calculate_compliance_percentage document_types ["UBO Declaration"]
           [ [("severity", JStr "High")]; [("severity", JStr "Low")] ] = 79%Z).
Proof.
  repeat split.
  - intros. unfold _calculate_compliance_percentage.
    now rewrite raw_compliance_formula.
  - intros dt m m' i i' Hm Hi. unfold _calculate_compliance_percentage.
    rewrite !raw_compliance_formula.
    rewrite (Permutation_length Hm).
    now rewrite !(count_severity_perm _ _ _ Hi).
  - apply clamp_bounds.
  - apply clamp_bounds.
  - unfold _calculate_compliance_percentage. rewrite raw_compliance_insert.
    rewrite (has_severity_eq _ "High" _ H), (has_severity_eq _ "Medium" _ H), H.
    simpl. lia.
  - unfold _calculate_compliance_percentage. rewrite raw_compliance_insert.
    rewrite (has_severity_eq _ "High" _ H), (has_severity_eq _ "Medium" _ H), H.
    simpl. lia.
  - intros. rewrite raw_compliance_insert.
    rewrite (has_severity_eq _ "Medium" _ H), (has_severity_eq _ "Low" _ H), H.
    simpl. lia.
Qed.

Lemma compliance_score_formula_witness :
  let low := [("section", JStr "General"); ("severity", JStr "Low")] in
  let high := [("section", JStr "Clause 2"); ("severity", JStr "High")] in
  (_calculate_compliance_percentage [] ["UBO Declaration"] ([high] ++ low :: [])
   <= _calculate_compliance_percentage [] ["UBO Declaration"] ([high] ++ [])
   /\ _calculate_compliance_percentage [] ["UBO Declaration"] ([high] ++ []) - 1
      <= _calculate_compliance_percentage [] ["UBO Declaration"] ([high] ++ low :: []))%Z
  /\ raw_compliance ["UBO Declaration"] ([low] ++ high :: [])
     = (raw_compliance ["UBO Declaration"] ([low] ++ []) - 5)%Z
  /\ _calculate_compliance_percentage [] ["UBO Declaration"] [high; low]
     = _calculate_compliance_percentage [] ["UBO Declaration"] [low; high].
Proof.
  intros low high.
  destruct compliance_score_formula as (_ & Hperm & _ & Hlow & Hhigh & _).
  split; [| split].
  - apply (Hlow [] ["UBO Declaration"] [high] [] low). reflexivity.
  - apply (Hhigh ["UBO Declaration"] [low] [] high). reflexivity.
  - apply (Hperm [] ["UBO Declaration"] ["UBO Declaration"] [high; low] [low; high]).
    + apply Permutation_refl.
    + apply perm_swap.
Defined.

(** C10.  The document types given to the scorer have no influence on
    its result: the score is fixed by the number of missing documents
    and the numbers of High, Medium and Low issues. *)
Theorem score_ignores_document_types :
  (forall document_types document_types' missing_docs issues_found,
      _calculate_compliance_percentage document_types missing_docs issues_found
      = _calculate_compliance_percentage document_types' missing_docs issues_found)
  /\ (forall document_types document_types' missing_docs missing_docs'
             issues_found issues_found',
         List.length missing_docs = List.length missing_docs' ->
         count_severity "High" issues_found = count_severity "High" issues_found' ->
         count_severity "Medium" issues_found = count_severity "Medium" issues_found' ->
         count_severity "Low" issues_found = count_severity "Low" issues_found' ->
         _calculate_compliance_percentage document_types missing_docs issues_found
         = _calculate_compliance_percentage document_types' missing_docs' issues_found').
Proof.
  split.
  - reflexivity.
  - intros dt dt' m m' i i' Hm Hh Hd Hl. unfold _calculate_compliance_percentage.
    rewrite !raw_compliance_formula. congruence.
Qed.

Lemma score_ignores_document_types_witness :
  _calculate_compliance_percentage ["Board Resolution"] ["UBO Declaration"]
    [ [("severity", JStr "High")]; [("issue", JStr "undated")] ]
  = _calculate_compliance_percentage ["Employment Contract"; "Checklist"]
      ["Annual Accounts"]
      [ [("severity", JStr "high")]; [("section", JStr "1"); ("severity", JStr "High")] ].
Proof.
  apply (proj2 score_ignores_document_types); reflexivity.
Defined.

End Scorer.

(** ** The JSON decoder: its fuel is enough *)

Section JsonFuel.
Import PyStr Json.

Ltac break_in H :=
  match type of H with
  | context [match ?x with _ => _ end] => destruct x eqn:?
  end.

Lemma skip_ws_length (s : string) : String.length (skip_ws s) <= String.length s.
Proof.
  induction s as [|c s IH]; simpl; [lia|]. destruct (is_ws c); simpl; lia.
Qed.

Lemma skip_ws_cons (s : string) (c : ascii) (r : string) :
  skip_ws s = String c r -> String.length r < String.length s.
Proof.
  intros H. pose proof (skip_ws_length s) as L. rewrite H in L. simpl in L. lia.
Qed.

Lemma span_length (p : ascii -> bool) (s a b : string) :
  span p s = (a, b) -> String.length b <= String.length s.
Proof.
  revert a b. induction s as [|c s IH]; simpl; intros a b.
  - intros [= <- <-]. simpl. lia.
  - destruct (p c).
    + destruct (span p s) as [a' b'] eqn:E. intros [= <- <-].
      specialize (IH _ _ eq_refl). lia.
    + intros [= <- <-]. simpl. lia.
Qed.

Lemma drop_length (n : nat) (s : string) :
  String.length (drop n s) = String.length s - n.
Proof.
  revert s. induction n as [|n IH]; intros s; simpl; [lia|].
  destruct s; simpl; [reflexivity | apply IH].
Qed.

Lemma prefix_length (p s : string) : prefix p s = true -> String.length p <= String.length s.
Proof.
  revert s. induction p as [|c p IH]; intros s; [simpl; lia|].
  destruct s as [|d s]; [discriminate|]. cbn [prefix].
  destruct (ascii_dec c d); [| discriminate].
  intros H. specialize (IH _ H). simpl. lia.
Qed.

Lemma scanstring_length (s str r : string) :
  scanstring s = Some (str, r) -> String.length r < String.length s.
Proof.
  remember (String.length s) as n eqn:En. revert s En str r.
  induction n as [n IH] using lt_wf_ind. intros s -> str r H.
  assert (Hrec : forall chunk s',
             String.length s' < String.length s ->
             add_chunk chunk (scanstring s') = Some (str, r) ->
             String.length r < String.length s).
  { intros chunk s' Hl Hc. unfold add_chunk in Hc.
    destruct (scanstring s') as [[str' r']|] eqn:E; [| discriminate].
    injection Hc as _ <-.
    specialize (IH _ Hl s' eq_refl _ _ E). lia. }
  destruct s as [|c s1]; [discriminate|]. cbn [scanstring] in H.
  repeat (break_in H; try discriminate);
    try (injection H as _ <-; simpl; lia);
    try (eapply Hrec; [| exact H]; subst; simpl; lia).
Qed.

Lemma scan_integer_length (s ip r : string) :
  scan_integer s = Some (ip, r) -> String.length r < String.length s.
Proof.
  unfold scan_integer. destruct s as [|c t]; [discriminate|].
  destruct (Ascii.eqb c "0").
  - intros [= _ <-]. simpl. lia.
  - destruct (between 49 57 c) eqn:Eb; [| discriminate].
    cbn [span]. unfold is_digit at 1.
    assert (Ed : between 48 57 c = true).
    { unfold between in *. apply andb_true_iff in Eb. destruct Eb as [E1 E2].
      apply andb_true_iff. split; [| assumption].
      apply Nat.leb_le in E1. apply Nat.leb_le. lia. }
    rewrite Ed. destruct (span is_digit t) as [a b] eqn:Es.
    intros [= _ <-]. apply span_length in Es. simpl. lia.
Qed.

Lemma scan_frac_length (s frac r : string) :
  scan_frac s = (frac, r) -> String.length r <= String.length s.
Proof.
  unfold scan_frac. destruct s as [|c t]; [intros [= _ <-]; lia|].
  destruct (Ascii.eqb c "."); [| intros [= _ <-]; lia].
  destruct (span is_digit t) as [a b] eqn:Es. apply span_length in Es.
  destruct a; intros [= _ <-]; simpl; lia.
Qed.

Lemma scan_exp_length (s ex r : string) :
  scan_exp s = (ex, r) -> String.length r <= String.length s.
Proof.
  unfold scan_exp. destruct s as [|e t]; [intros [= _ <-]; lia|].
  destruct (Ascii.eqb e "e" || Ascii.eqb e "E"); [| intros [= _ <-]; lia].
  set (sign_rest := match t with
                    | String g t' =>
                        if Ascii.eqb g "+" || Ascii.eqb g "-"
                        then (String g EmptyString, t') else (EmptyString, t)
                    | EmptyString => (EmptyString, t)
                    end).
  assert (Hs : String.length (snd sign_rest) <= String.length t).
  { subst sign_rest. destruct t as [|g t']; simpl; [lia|].
    destruct (Ascii.eqb g "+" || Ascii.eqb g "-"); simpl; lia. }
  destruct sign_rest as [sign t'']. simpl in Hs.
  destruct (span is_digit t'') as [a b] eqn:Es. apply span_length in Es.
  destruct a; intros [= _ <-]; simpl; lia.
Qed.

Lemma scan_number_length (digits : nat) (s : string) (v : json) (r : string) :
  scan_number digits s = Scanned v r -> String.length r < String.length s.
Proof.
  unfold scan_number.
  set (neg_s0 := match s with
                 | String c t => if Ascii.eqb c "-" then (true, t) else (false, s)
                 | EmptyString => (false, s)
                 end).
  assert (H0 : String.length (snd neg_s0) <= String.length s).
  { subst neg_s0. destruct s as [|c t]; simpl; [lia|].
    destruct (Ascii.eqb c "-"); simpl; lia. }
  destruct neg_s0 as [neg s0]. simpl in H0.
  destruct (scan_integer s0) as [[ip s1]|] eqn:Ei; [| discriminate].
  apply scan_integer_length in Ei.
  destruct (scan_frac s1) as [frac s2] eqn:Ef. apply scan_frac_length in Ef.
  destruct (scan_exp s2) as [ex s3] eqn:Ee. apply scan_exp_length in Ee.
  destruct frac, ex; try (intros [= _ <-]; lia).
  destruct (negb _ && _); [discriminate|].
  intros [= _ <-]; lia.
Qed.

Lemma scan_constant_length (s : string) (v : json) (r : string) :
  scan_constant s = Some (v, r) -> String.length r < String.length s.
Proof.
  unfold scan_constant. intros H.
  assert (D : forall p, prefix p s = true -> 0 < String.length p ->
                        String.length (drop (String.length p) s) < String.length s).
  { intros p Hp Hl. rewrite drop_length. apply prefix_length in Hp. lia. }
  destruct (prefix "NaN" s) eqn:E1.
  { injection H as _ <-. apply (D "NaN" E1). simpl. lia. }
  destruct (prefix "Infinity" s) eqn:E2.
  { injection H as _ <-. apply (D "Infinity" E2). simpl. lia. }
  destruct (prefix "-Infinity" s) eqn:E3; [| discriminate].
  injection H as _ <-. apply (D "-Infinity" E3). simpl. lia.
Qed.

Ltac ws_fact x :=
  lazymatch goal with
  | _ : String.length (skip_ws x) <= String.length x |- _ => fail
  | _ => pose proof (skip_ws_length x)
  end.

Ltac ws_facts :=
  repeat match goal with
         | H : context [skip_ws ?x] |- _ => ws_fact x
         | |- context [skip_ws ?x] => ws_fact x
         end.

Ltac length_facts :=
  ws_facts;
  repeat match goal with
         | E : skip_ws _ = String _ _ |- _ => apply skip_ws_cons in E
         | E : scanstring _ = Some _ |- _ => apply scanstring_length in E
         | E : scan_number _ _ = Scanned _ _ |- _ => apply scan_number_length in E
         | E : scan_constant _ = Some _ |- _ => apply scan_constant_length in E
         | E : prefix _ _ = true |- _ => apply prefix_length in E
         end.

#[local] Opaque drop.

Section Limits.
Variables digits levels : nat.

(** A value, the members of an object and the elements of an array all
    take some of the text. *)
Lemma scan_length (n : nat) :
  (forall room s v r,
      scan_once digits levels n room s = Scanned v r -> String.length r < String.length s)
  /\ (forall room s ps r,
         JSONObject digits levels n room s = Scanned ps r ->
         String.length r < String.length s)
  /\ (forall room s vs r,
         JSONArray digits levels n room s = Scanned vs r ->
         String.length r < String.length s).
Proof.
  induction n as [|n (IH1 & IH2 & IH3)]; [repeat split; discriminate|].
  split; [| split].
  - intros room s v r H. cbn [scan_once] in H. unfold errmsg in H.
    repeat (break_in H; try discriminate);
      try (injection H; intros; subst);
      repeat match goal with
             | E : JSONObject _ _ n _ _ = Scanned _ _ |- _ => apply IH2 in E
             | E : JSONArray _ _ n _ _ = Scanned _ _ |- _ => apply IH3 in E
             end;
      length_facts; rewrite ?drop_length; simpl in *; lia.
  - intros room s ps r H. cbn [JSONObject] in H. unfold errmsg in H.
    repeat (break_in H; try discriminate);
      try (injection H; intros; subst);
      repeat match goal with
             | E : scan_once _ _ n _ _ = Scanned _ _ |- _ => apply IH1 in E
             | E : JSONObject _ _ n _ _ = Scanned _ _ |- _ => apply IH2 in E
             end;
      length_facts; simpl in *; lia.
  - intros room s vs r H. cbn [JSONArray] in H. unfold errmsg in H.
    repeat (break_in H; try discriminate);
      try (injection H; intros; subst);
      repeat match goal with
             | E : scan_once _ _ n _ _ = Scanned _ _ |- _ => apply IH1 in E
             | E : JSONArray _ _ n _ _ = Scanned _ _ |- _ => apply IH3 in E
             end;
      length_facts; simpl in *; lia.
Qed.

Ltac sub_lengths n :=
  repeat match goal with
         | E : scan_once _ _ n _ _ = Scanned _ _ |- _ => apply (proj1 (scan_length n)) in E
         | E : JSONObject _ _ n _ _ = Scanned _ _ |- _ =>
             apply (proj1 (proj2 (scan_length n))) in E
         | E : JSONArray _ _ n _ _ = Scanned _ _ |- _ =>
             apply (proj2 (proj2 (scan_length n))) in E
         end;
  length_facts; simpl in *; lia.

(** More fuel than twice the length of the text changes nothing. *)
Lemma scan_fuel (n : nat) :
  (forall room s m,
      2 * String.length s + 1 <= n -> n <= m ->
      scan_once digits levels m room s = scan_once digits levels n room s)
  /\ (forall room s m,
         2 * String.length s + 2 <= n -> n <= m ->
         JSONObject digits levels m room s = JSONObject digits levels n room s)
  /\ (forall room s m,
         2 * String.length s + 2 <= n -> n <= m ->
         JSONArray digits levels m room s = JSONArray digits levels n room s).
Proof.
  induction n as [|n (IH1 & IH2 & IH3)]; [repeat split; intros; lia|].
  split; [| split]; intros room s m Hn Hm; (destruct m as [|m]; [lia|]).
  - cbn [scan_once].
    repeat first
      [ reflexivity
      | match goal with
        | |- context [JSONObject _ _ m ?room' ?x] => rewrite (IH2 room' x m) by sub_lengths n
        | |- context [JSONArray _ _ m ?room' ?x] => rewrite (IH3 room' x m) by sub_lengths n
        end
      | match goal with
        | |- context [match ?x with _ => _ end] => destruct x eqn:?
        end ].
  - cbn [JSONObject].
    repeat first
      [ reflexivity
      | match goal with
        | |- context [scan_once _ _ m ?room' ?x] => rewrite (IH1 room' x m) by sub_lengths n
        | |- context [JSONObject _ _ m ?room' ?x] => rewrite (IH2 room' x m) by sub_lengths n
        end
      | match goal with
        | |- context [match ?x with _ => _ end] => destruct x eqn:?
        end ].
  - cbn [JSONArray].
    repeat first
      [ reflexivity
      | match goal with
        | |- context [scan_once _ _ m ?room' ?x] => rewrite (IH1 room' x m) by sub_lengths n
        | |- context [JSONArray _ _ m ?room' ?x] => rewrite (IH3 room' x m) by sub_lengths n
        end
      | match goal with
        | |- context [match ?x with _ => _ end] => destruct x eqn:?
        end ].
Qed.

(** The fuel of [decode] is enough: any greater fuel gives the same
    result. *)
Lemma scan_once_fuel (room : option nat) (s : string) (m : nat) :
  2 * String.length s + 2 <= m ->
  scan_once digits levels m room s
  = scan_once digits levels (2 * String.length s + 2) room s.
Proof.
  intros H. apply (proj1 (scan_fuel _)); lia.
Qed.

(** A text that starts with an opening brace decodes to a dict, if it
    decodes at all. *)
Lemma decode_brace (room : option nat) (s : string) (v : json) :
  decode digits levels room (String "{" s) = Returned (Some v) -> exists d, v = JObj d.
Proof.
  unfold decode.
  change (skip_ws (String "{" s)) with (String "{" s).
  replace (2 * String.length (String "{" s) + 2) with (S (2 * String.length s + 3))
    by (simpl; lia).
  cbn [scan_once].
  change (Ascii.eqb "{" dquote) with false. change (Ascii.eqb "{" "{") with true.
  cbv iota. unfold errmsg.
  destruct (enter room) as [inside|]; [| discriminate].
  destruct (skip_ws s) as [|d r]; [destruct (short_of _ _ _); discriminate|].
  destruct (Ascii.eqb d "}").
  { destruct (skip_ws r); [intros [= <-]; eauto | destruct (short_of _ _ _); discriminate]. }
  destruct (Ascii.eqb d dquote); [| destruct (short_of _ _ _); discriminate].
  destruct (JSONObject _ _ _ _ r) as [pairs r'| | |e]; try discriminate.
  - destruct (skip_ws r'); [intros [= <-]; eauto | destruct (short_of _ _ _); discriminate].
  - destruct (short_of _ _ _); discriminate.
Qed.

End Limits.

(** *** Without the limits

    A scan that ends otherwise than by an exception that is not a decode
    error is the scan that knows no limit. *)

Lemma scan_number_unlimited (digits : nat) (s : string) :
  no_break (scan_number digits s) -> scan_number 0 s = scan_number digits s.
Proof.
  unfold scan_number.
  destruct (match s with
            | String c t => if Ascii.eqb c "-" then (true, t) else (false, s)
            | EmptyString => (false, s)
            end) as [neg s0].
  destruct (scan_integer s0) as [[ip s1]|]; [| reflexivity].
  destruct (scan_frac s1) as [frac s2]. destruct (scan_exp s2) as [ex s3].
  destruct frac, ex; try reflexivity.
  destruct (negb _ && _); [intros [] | reflexivity].
Qed.

Lemma errmsg_unlimited {A : Type} (levels levels' : nat) (room : option nat) :
  no_break (@errmsg A levels room) -> @errmsg A levels' None = errmsg levels room.
Proof.
  unfold errmsg. cbn [short_of]. destruct (short_of levels 0 room); [intros [] | reflexivity].
Qed.

Lemma scan_unlimited (digits levels levels' : nat) (n : nat) :
  (forall room s,
      no_break (scan_once digits levels n room s) ->
      scan_once 0 levels' n None s = scan_once digits levels n room s)
  /\ (forall room s,
         no_break (JSONObject digits levels n room s) ->
         JSONObject 0 levels' n None s = JSONObject digits levels n room s)
  /\ (forall room s,
         no_break (JSONArray digits levels n room s) ->
         JSONArray 0 levels' n None s = JSONArray digits levels n room s).
Proof.
  induction n as [|n (IH1 & IH2 & IH3)]; [repeat split; reflexivity|].
  assert (Enter : forall room, enter room = None \/ exists inside, enter room = Some inside).
  { intros [[|r]|]; cbn; eauto. }
  split; [| split]; intros room s H.
  - cbn [scan_once] in *. change (enter None) with (Some (@None nat)). cbv iota.
    repeat first
      [ reflexivity
      | contradiction
      | match goal with
        | H : no_break (errmsg _ _) |- _ => rewrite (errmsg_unlimited _ levels' _ H)
        | H : no_break (match JSONObject _ _ n ?room' ?x with _ => _ end) |- _ =>
            rewrite (IH2 room' x)
              by (destruct (JSONObject digits levels n room' x); [exact I .. | destruct H]);
            destruct (JSONObject digits levels n room' x)
        | H : no_break (match JSONArray _ _ n ?room' ?x with _ => _ end) |- _ =>
            rewrite (IH3 room' x)
              by (destruct (JSONArray digits levels n room' x); [exact I .. | destruct H]);
            destruct (JSONArray digits levels n room' x)
        | H : no_break (match scan_number _ ?x with _ => _ end) |- _ =>
            rewrite (scan_number_unlimited digits x)
              by (destruct (scan_number digits x); [exact I .. | destruct H]);
            destruct (scan_number digits x)
        | H : no_break (match ?x with _ => _ end) |- _ => destruct x eqn:?
        end ].
  - cbn [JSONObject] in *.
    repeat first
      [ reflexivity
      | contradiction
      | match goal with
        | H : no_break (errmsg _ _) |- _ => rewrite (errmsg_unlimited _ levels' _ H)
        | H : no_break (match scan_once _ _ n ?room' ?x with _ => _ end) |- _ =>
            rewrite (IH1 room' x)
              by (destruct (scan_once digits levels n room' x); [exact I .. | destruct H]);
            destruct (scan_once digits levels n room' x)
        | H : no_break (match JSONObject _ _ n ?room' ?x with _ => _ end) |- _ =>
            rewrite (IH2 room' x)
              by (destruct (JSONObject digits levels n room' x); [exact I .. | destruct H]);
            destruct (JSONObject digits levels n room' x)
        | H : no_break (match ?x with _ => _ end) |- _ => destruct x eqn:?
        end ].
  - cbn [JSONArray] in *.
    repeat first
      [ reflexivity
      | contradiction
      | match goal with
        | H : no_break (errmsg _ _) |- _ => rewrite (errmsg_unlimited _ levels' _ H)
        | H : no_break (match scan_once _ _ n ?room' ?x with _ => _ end) |- _ =>
            rewrite (IH1 room' x)
              by (destruct (scan_once digits levels n room' x); [exact I .. | destruct H]);
            destruct (scan_once digits levels n room' x)
        | H : no_break (match JSONArray _ _ n ?room' ?x with _ => _ end) |- _ =>
            rewrite (IH3 room' x)
              by (destruct (JSONArray digits levels n room' x); [exact I .. | destruct H]);
            destruct (JSONArray digits levels n room' x)
        | H : no_break (match ?x with _ => _ end) |- _ => destruct x eqn:?
        end ].
Qed.

(** What [json.loads] returns, a value or a decode error, is the value
    of the text. *)
Lemma loads_value (python : interpreter) (s : string) (decoded : option json) :
  loads python s = Returned decoded -> json_value s = decoded.
Proof.
  unfold loads, json_value, decode.
  set (s0 := skip_ws s). set (n := 2 * String.length s0 + 2).
  intros H.
  rewrite (proj1 (scan_unlimited (int_max_str_digits python) (error_levels python) 0 n)
             (Some (recursion_room python)) s0)
    by (destruct (scan_once _ _ n _ s0); [exact I .. | discriminate H]).
  cbn [short_of].
  destruct (scan_once _ _ n _ s0) as [v r| | |e]; try discriminate H.
  - destruct (skip_ws r); [injection H as <-; reflexivity|].
    destruct (short_of _ 2 _); [discriminate H | injection H as <-; reflexivity].
  - destruct (short_of _ 1 _); [discriminate H | injection H as <-; reflexivity].
  - injection H as <-. reflexivity.
Qed.

(** A text that starts with an opening brace has a dict for its value,
    if it has one. *)
Lemma value_brace (s : string) (v : json) :
  json_value (String "{" s) = Some v -> exists d, v = JObj d.
Proof.
  unfold json_value. intros H.
  destruct (decode 0 0 None (String "{" s)) as [[w|]|e] eqn:E; try discriminate H.
  injection H as <-. exact (decode_brace 0 0 None s w E).
Qed.

#[local] Transparent drop.

(** *** The decoder on some texts *)

Example loads_record :
  loads cpython
    (dq "{'section': 'A', 'issue': 'B \n C', 'refs': [1, -2.5e3, [true, null]], 'section': 'Z'}")
  = Returned
      (Some (JObj [ ("section", JStr "Z");
                    ("issue", JStr ("B " ++ newline ++ " C"));
                    ("refs", JArr [JInt 1; JFloat "-2.5e3"; JArr [JBool true; JNull]]) ])).
Proof. vm_compute. reflexivity. Qed.

Example loads_rejects :
  map (loads cpython)
      [ dq "{'a': 1,}"; dq "{'a': 01}"; dq "{'a' 1}"; dq "{'a': 'b"; "{} x"; "[1,]";
        dq "{a: 1}" ]
  = repeat (Returned None) 7.
Proof. vm_compute. reflexivity. Qed.

(** An integer of more digits than the limit, and more arrays one inside
    the other than there is room for, end in exceptions that are not
    decode errors; a float has no limit of digits. *)
Example loads_raises :
  let nines := String.concat "" (repeat "9" 4301) in
  loads cpython ("{" ++ dq "'a': " ++ nines ++ "}") = Raised ValueError
  /\ (exists v, loads cpython ("{" ++ dq "'a': " ++ nines ++ ".0}") = Returned (Some v))
  /\ loads (Interpreter 4300 2 3) "[[[]]]" = Raised RecursionError
  /\ loads (Interpreter 4300 3 3) "[[[]]]" = Returned (Some (JArr [JArr [JArr []]]))
  /\ loads (Interpreter 4300 3 3) "[[[}" = Returned None
  /\ loads (Interpreter 4300 3 3) (dq "[[['") = Raised RecursionError.
Proof.
  cbv zeta. repeat split; try (vm_compute; reflexivity).
  eexists. vm_compute. reflexivity.
Qed.

End JsonFuel.

(** ** The degraded mode of the query engine *)

Section Engine.
Import RAGEngine.

(** C8.  When the vector store, the QA chain or the language model is
    not available, a query returns the fixed text saying that the RAG
    system is not fully initialized; it returns, and does not raise. *)
Theorem query_degraded_sentinel (self : engine) (question : string) :
  vectorstore self = None \/ qa_chain self = None \/ llm self = None ->
  query self question
  = Returned
      "RAG system not fully initialized. Please ensure the vector database is properly built.".
Proof.
  unfold query. intros [H | [H | H]]; rewrite H.
  - reflexivity.
  - destruct (vectorstore self); reflexivity.
  - destruct (vectorstore self), (qa_chain self); reflexivity.
Qed.

Lemma query_degraded_sentinel_witness :
  query (Engine (Some tt) None (Some tt)) "What is a board resolution?"
  = Returned
      "RAG system not fully initialized. Please ensure the vector database is properly built.".
Proof.
  apply query_degraded_sentinel. right. left. reflexivity.
Defined.

(** With every handle there, a failure of the chain is reported in the
    answer as well: no query raises. *)
Lemma query_returns (self : engine) (question : string) :
  exists answer, query self question = Returned answer.
Proof.
  unfold query.
  destruct (vectorstore self), (qa_chain self) as [chain|], (llm self); eauto.
  destruct (chain (enhanced_query question)) as [res|e]; eauto.
  destruct (source_documents res); eauto.
Qed.

End Engine.

(** ** The analyzer: unidentified documents and the fallback issue *)

Section Analyzer.
Import PyStr Json DocumentProcessor DocumentAnalyzer.

Lemma truthy_false (s : string) : truthy s = false <-> s = "".
Proof. destruct s; simpl; split; congruence. Qed.

Lemma is_empty_true {A : Type} (l : list A) : is_empty l = true <-> l = [].
Proof. destruct l; simpl; split; congruence. Qed.

(** C9.  A document with empty content, or of type Unknown, gets one
    issue: section General, the text that the type could not be
    identified, severity High.  The engine is not asked, and the issue
    is not the Low one of the fallback. *)
Theorem analyze_document_unidentified
        (self : analyzer) (doc : doc_info) (type_info : doc_type_info) :
  doc_content doc = "" \/ type type_info = "Unknown" ->
  analyze_document self doc type_info
  = [ [ ("section", JStr "General");
        ("issue", JStr "Unable to identify document type");
        ("severity", JStr "High") ] ]
  /\ analyze_document self doc type_info <> [manual_review_issue].
Proof.
  intros H.
  assert (E : analyze_document self doc type_info = [unidentified_issue]).
  { unfold analyze_document. destruct H as [H | H]; rewrite H.
    - reflexivity.
    - rewrite orb_true_r. reflexivity. }
  rewrite E. split; [reflexivity | discriminate].
Qed.

Lemma analyze_document_unidentified_witness :
  analyze_document (init (fun _ => Raised "no engine"))
                   (DocInfo "scan.docx" "Some text of no known kind" [])
                   (DocTypeInfo "Unknown" 0.0 None None)
  = [ [ ("section", JStr "General");
        ("issue", JStr "Unable to identify document type");
        ("severity", JStr "High") ] ].
Proof.
  apply analyze_document_unidentified. right. reflexivity.
Defined.

(** The loop over the blocks, when it ends without an exception, has
    added the issues of the blocks that decode. *)
Lemma json_loop_returned (self : analyzer) (blocks : list string) (issues l : list issue) :
  json_loop self issues blocks = Returned l ->
  l = fold_left (fun issues json_str => add_decoded issues (json_value json_str))
                blocks issues.
Proof.
  revert issues. induction blocks as [|b blocks IH]; intros issues; cbn [json_loop fold_left].
  - now intros [= <-].
  - unfold add_json_issue.
    destruct (loads (python self) b) as [decoded|e] eqn:E; [| discriminate].
    apply loads_value in E. rewrite E. apply IH.
Qed.

(** When the first strategy returns, its issues are [json_issues]. *)
Lemma json_loop_issues (self : analyzer) (rag_response : string) (l : list issue) :
  json_loop self [] (Re.findall false json_pattern rag_response) = Returned l ->
  l = json_issues rag_response.
Proof.
  apply json_loop_returned.
Qed.

(** The later strategies yield nothing exactly when each of them yields
    nothing and there was no issue before. *)
Lemma later_nothing (issues : list issue) (rag_response : string)
      (section_names : list string) :
  later_strategies issues rag_response section_names = []
  <-> issues = []
      /\ labeled_issues rag_response = []
      /\ sentence_issues rag_response section_names = [].
Proof.
  unfold later_strategies.
  destruct issues as [|i l]; simpl.
  - destruct (labeled_issues rag_response) as [|i' l']; simpl.
    + split; [intros H; auto | intros (_ & _ & H); exact H].
    + split; [discriminate | intros (_ & H & _); discriminate].
  - split; [discriminate | intros (H & _); discriminate].
Qed.

(** When each strategy yields nothing, the cascade returns nothing or
    raises. *)
Lemma extract_nothing (self : analyzer) (rag_response doc_type : string)
      (section_names : list string) :
  json_issues rag_response = [] ->
  labeled_issues rag_response = [] ->
  sentence_issues rag_response section_names = [] ->
  match _extract_issues_from_rag self rag_response doc_type section_names with
  | Returned issues => issues = []
  | Raised _ => True
  end.
Proof.
  intros Hj Hl Hs. unfold _extract_issues_from_rag.
  destruct (json_loop self [] _) as [issues|e] eqn:E; [| exact I].
  apply json_loop_issues in E. apply later_nothing. rewrite E. auto.
Qed.

Lemma analyze_document_not_empty
      (self : analyzer) (doc : doc_info) (type_info : doc_type_info) :
  analyze_document self doc type_info <> [].
Proof.
  unfold analyze_document.
  destruct (negb (truthy (doc_content doc)) || (type type_info =? "Unknown")).
  - discriminate.
  - destruct (_analyze_with_rag _ _ _ _); simpl; discriminate.
Qed.

(** C2.  For a document with content and an identified type, when the
    answer of the engine yields no issue under any of the three
    strategies, the analyzer returns one issue: section General, severity
    Low, the fixed text recommending a manual review.  The list the
    analyzer returns is never empty. *)
Theorem fallback_guarantee
        (self : analyzer) (doc : doc_info) (type_info : doc_type_info) :
  (forall rag_response,
      doc_content doc <> "" ->
      type type_info <> "Unknown" ->
      rag_engine self
        (analysis_query (type type_info) (sample 3000 (doc_content doc))
                        (map title (sections doc)))
      = Returned rag_response ->
      json_issues rag_response = [] ->
      labeled_issues rag_response = [] ->
      sentence_issues rag_response (map title (sections doc)) = [] ->
      analyze_document self doc type_info
      = [ [ ("section", JStr "General");
            ("issue",
             JStr "Document analysis completed but no specific issues were identified. Recommend manual review.");
            ("severity", JStr "Low") ] ])
  /\ analyze_document self doc type_info <> [].
Proof.
  split; [| apply analyze_document_not_empty].
  intros r Hc Ht Hr Hj Hl Hs.
  unfold analyze_document.
  destruct (truthy (doc_content doc)) eqn:Ec.
  2:{ apply truthy_false in Ec. contradiction. }
  destruct (type type_info =? "Unknown") eqn:Et.
  { apply String.eqb_eq in Et. contradiction. }
  simpl. unfold _analyze_with_rag. rewrite Hr.
  destruct (truthy r); [| reflexivity].
  pose proof (extract_nothing self r (type type_info) (map title (sections doc)) Hj Hl Hs)
    as E.
  destruct (_extract_issues_from_rag self r _ _) as [issues|e]; [| reflexivity].
  rewrite E. reflexivity.
Qed.

Lemma fallback_guarantee_witness :
  analyze_document
    (init (fun _ => Returned "The document follows the ADGM template."))
    (DocInfo "resolution.docx" "Resolution of the board of directors"
             [Section_ "General" "Resolution of the board of directors" [0%nat]])
    (DocTypeInfo "Board Resolution" 0.9 (Some "resolution of the board of directors") None)
  = [ [ ("section", JStr "General");
        ("issue",
         JStr "Document analysis completed but no specific issues were identified. Recommend manual review.");
        ("severity", JStr "Low") ] ].
Proof.
  apply (proj1 (fallback_guarantee _ _ _) "The document follows the ADGM template.").
  - discriminate.
  - discriminate.
  - reflexivity.
  - vm_compute. reflexivity.
  - vm_compute. reflexivity.
  - vm_compute. reflexivity.
Defined.

(** An engine without its vector store: the analysis of an identified
    document yields the fallback issue. *)
Example analysis_with_degraded_engine :
  analyze_document
    (init (RAGEngine.query (RAGEngine.Engine None None (Some tt))))
    (DocInfo "contract.docx" "This employment contract is made in Abu Dhabi." [])
    (DocTypeInfo "Employment Contract" 0.9 (Some "employment contract") None)
  = [manual_review_issue].
Proof. vm_compute. reflexivity. Qed.

End Analyzer.

(** ** The matcher, and the scan for brace-delimited blocks *)

Section Blocks.
Import PyStr Re DocumentAnalyzer Spec.

Lemma close_split_spec (s inner rest : string) :
  close_split s = Some (inner, rest) ->
  s = inner ++ "}" ++ rest /\ String.length rest < String.length s.
Proof.
  revert inner rest. induction s as [|c s IH]; simpl; intros inner rest; [discriminate|].
  destruct (Ascii.eqb c "}") eqn:E.
  - intros [= <- <-]. apply Ascii.eqb_eq in E. subst. simpl. split; [reflexivity | lia].
  - destruct (close_split s) as [[i r]|]; [| discriminate].
    intros [= <- <-]. destruct (IH i r eq_refl) as [-> Hl]. simpl. split; [reflexivity|].
    simpl in Hl. lia.
Qed.

Lemma length_append (a b : string) :
  String.length (a ++ b) = String.length a + String.length b.
Proof. induction a as [|c a IH]; simpl; [reflexivity | now rewrite IH]. Qed.

Lemma substring_prefix (a b : string) : substring 0 (String.length a) (a ++ b) = a.
Proof.
  induction a as [|c a IH]; simpl.
  - destruct b; reflexivity.
  - now rewrite IH.
Qed.

Lemma consumed_prefix (a b : string) : consumed (a ++ b) b = a.
Proof.
  unfold consumed. rewrite length_append.
  replace (String.length a + String.length b - String.length b) with (String.length a) by lia.
  apply substring_prefix.
Qed.

Lemma append_assoc (a b c : string) : (a ++ b) ++ c = a ++ b ++ c.
Proof. induction a as [|x a IH]; simpl; [reflexivity | now rewrite IH]. Qed.

Lemma run_Cat {R : Type} (ic : bool) (r1 r2 : regex) (cur : cursor) (k : cursor -> option R) :
  run ic (Cat r1 r2) cur k = run ic r1 cur (fun cur' => run ic r2 cur' k).
Proof. reflexivity. Qed.

Lemma run_Star {R : Type} (ic greedy : bool) (r : regex) (cur : cursor)
      (k : cursor -> option R) :
  run ic (Star greedy r) cur k
  = iterate (run ic r) greedy k (String.length (ahead cur)) cur.
Proof. reflexivity. Qed.

Lemma run_Chr {R : Type} (ic : bool) (c d : ascii) (p : option ascii) (s : string)
      (g : option string) (k : cursor -> option R) :
  run ic (Chr c) (Cursor p (String d s) g) k
  = if same_char ic c d then k (Cursor (Some d) s g) else None.
Proof. reflexivity. Qed.

(** *** What a match is, whatever the pattern *)

Lemma iterate_sound {R : Type} (body : cursor -> (cursor -> option R) -> option R)
      (greedy : bool) (k : cursor -> option R) (x : R) :
  (forall cur k' y, body cur k' = Some y ->
                    exists cur', (exists pre, ahead cur = pre ++ ahead cur')
                                 /\ k' cur' = Some y) ->
  forall n cur, iterate body greedy k n cur = Some x ->
                exists cur', (exists pre, ahead cur = pre ++ ahead cur') /\ k cur' = Some x.
Proof.
  intros Hbody. induction n as [|n IH]; intros cur H; cbn [iterate] in H.
  - exists cur. split; [now exists "" | assumption].
  - assert (Hagain : body cur (fun cur' =>
                        if (String.length (ahead cur') <? String.length (ahead cur))%nat
                        then iterate body greedy k n cur' else None) = Some x ->
                     exists cur', (exists pre, ahead cur = pre ++ ahead cur')
                                  /\ k cur' = Some x).
    { intros Hb. apply Hbody in Hb. destruct Hb as (cur1 & [pre1 E1] & H1).
      destruct (String.length (ahead cur1) <? String.length (ahead cur))%nat;
        [| discriminate].
      apply IH in H1. destruct H1 as (cur2 & [pre2 E2] & H2).
      exists cur2. split; [| assumption].
      exists (pre1 ++ pre2). now rewrite E1, E2, append_assoc. }
    assert (Hstop : k cur = Some x ->
                    exists cur', (exists pre, ahead cur = pre ++ ahead cur')
                                 /\ k cur' = Some x).
    { intros Hk. exists cur. split; [now exists "" | assumption]. }
    destruct greedy.
    + destruct (body cur _) eqn:E; [injection H as ->; auto | auto].
    + destruct (k cur) eqn:E; [injection H as ->; auto | auto].
Qed.

(** A match hands to what follows a cursor further on in the text. *)
Lemma run_sound {R : Type} (ic : bool) (r : regex) :
  forall (cur : cursor) (k : cursor -> option R) (x : R),
    run ic r cur k = Some x ->
    exists cur', (exists pre, ahead cur = pre ++ ahead cur') /\ k cur' = Some x.
Proof.
  induction r as [| c | p | r1 IH1 r2 IH2 | r1 IH1 r2 IH2 | greedy r1 IH1 | r1 IH1 | p |];
    intros cur k x H; cbn [run] in H.
  - exists cur. split; [now exists "" | assumption].
  - destruct (ahead cur) as [|d s'] eqn:E; [discriminate|].
    destruct (same_char ic c d); [| discriminate].
    eexists. split; [| exact H]. exists (String d ""). reflexivity.
  - destruct (ahead cur) as [|d s'] eqn:E; [discriminate|].
    destruct (p d); [| discriminate].
    eexists. split; [| exact H]. exists (String d ""). reflexivity.
  - apply IH1 in H. destruct H as (cur1 & [pre1 E1] & H).
    apply IH2 in H. destruct H as (cur2 & [pre2 E2] & H).
    exists cur2. split; [| assumption].
    exists (pre1 ++ pre2). now rewrite E1, E2, append_assoc.
  - destruct (run ic r1 cur k) eqn:E.
    + injection H as ->. now apply IH1 in E.
    + now apply IH2 in H.
  - eapply iterate_sound; [| exact H]. intros cur0 k' y Hb. now apply IH1 in Hb.
  - apply IH1 in H. destruct H as (cur1 & [pre1 E1] & H).
    eexists. split; [| exact H]. exists pre1. exact E1.
  - destruct (before cur) as [c|]; [| discriminate].
    destruct (p c); [| discriminate].
    exists cur. split; [now exists "" | assumption].
  - destruct (before cur); [discriminate|].
    exists cur. split; [now exists "" | assumption].
Qed.

(** A pattern that is not nullable consumes something. *)
Lemma run_progress {R : Type} (ic : bool) (r : regex) :
  nullable r = false ->
  forall (cur : cursor) (k : cursor -> option R) (x : R),
    run ic r cur k = Some x ->
    exists cur', String.length (ahead cur') < String.length (ahead cur)
                 /\ k cur' = Some x.
Proof.
  assert (Hle : forall (r0 : regex) (cur : cursor) (k : cursor -> option R) (x : R),
             run ic r0 cur k = Some x ->
             exists cur', String.length (ahead cur') <= String.length (ahead cur)
                          /\ k cur' = Some x).
  { intros r0 cur k x H. apply run_sound in H. destruct H as (cur' & [pre E] & H).
    exists cur'. split; [| assumption]. rewrite E, length_append. lia. }
  induction r as [| c | p | r1 IH1 r2 IH2 | r1 IH1 r2 IH2 | greedy r1 IH1 | r1 IH1 | p |];
    cbn [nullable]; intros Hn cur k x H; try discriminate; cbn [run] in H.
  - destruct (ahead cur) as [|d s'] eqn:E; [discriminate|].
    destruct (same_char ic c d); [| discriminate].
    eexists. split; [| exact H]. simpl. lia.
  - destruct (ahead cur) as [|d s'] eqn:E; [discriminate|].
    destruct (p d); [| discriminate].
    eexists. split; [| exact H]. simpl. lia.
  - apply andb_false_iff in Hn. destruct Hn as [Hn | Hn].
    + apply (IH1 Hn) in H. destruct H as (cur1 & L1 & H).
      apply Hle in H. destruct H as (cur2 & L2 & H). exists cur2. split; [lia | assumption].
    + apply Hle in H. destruct H as (cur1 & L1 & H).
      apply (IH2 Hn) in H. destruct H as (cur2 & L2 & H). exists cur2. split; [lia | assumption].
  - apply orb_false_iff in Hn. destruct Hn as [Hn1 Hn2].
    destruct (run ic r1 cur k) eqn:E.
    + injection H as ->. now apply (IH1 Hn1) in E.
    + now apply (IH2 Hn2) in H.
  - apply (IH1 Hn) in H. destruct H as (cur1 & L1 & H).
    eexists. split; [| exact H]. exact L1.
Qed.

(** No match of such a pattern is empty. *)
Lemma match_not_empty (ic : bool) (r : regex) (p : option ascii) (s : string) (f : found) :
  nullable r = false -> match_at ic r p s = Some f -> whole f <> "".
Proof.
  unfold match_at. intros Hn H. apply (run_progress ic r Hn) in H.
  destruct H as (cur' & L & H). injection H as <-. cbn in *.
  unfold consumed. intros E.
  destruct s as [|c s]; [simpl in L; lia|].
  destruct (String.length (String c s) - String.length (ahead cur')) eqn:D; [lia|].
  discriminate E.
Qed.

Lemma program_patterns_not_nullable :
  nullable json_pattern = false
  /\ nullable issue_pattern = false
  /\ nullable sentence_split = false.
Proof. repeat split. Qed.

(** A match at the cursor skips nothing, and the text is the match and
    what is left after it. *)
Lemma match_at_sound (ic : bool) (r : regex) (p : option ascii) (s : string) (f : found) :
  match_at ic r p s = Some f ->
  skipped f = "" /\ s = whole f ++ ahead (after f).
Proof.
  unfold match_at. intros H. apply run_sound in H.
  destruct H as (cur' & [pre E] & H). injection H as <-. cbn in *.
  split; [reflexivity|]. subst s. now rewrite consumed_prefix.
Qed.

(** [re.search] returns the leftmost match: the text is what is skipped,
    the match and the rest, and the pattern matches at no place in what is
    skipped. *)
Lemma search_from_leftmost (ic : bool) (r : regex) (s : string) :
  forall (prev : option ascii) (f : found),
    search_from ic r prev s = Some f ->
    s = skipped f ++ whole f ++ ahead (after f)
    /\ match_at ic r (char_before prev (skipped f)) (whole f ++ ahead (after f))
       = Some (Found "" (whole f) (group f) (after f))
    /\ forall a b, skipped f = a ++ b -> b <> "" ->
                   match_at ic r (char_before prev a) (b ++ whole f ++ ahead (after f))
                   = None.
Proof.
  induction s as [|c s IH]; intros prev f H; cbn [search_from] in H.
  - destruct (match_at ic r prev "") as [f0|] eqn:E; [| discriminate].
    injection H as ->. destruct (match_at_sound _ _ _ _ _ E) as [Hs Ht].
    destruct f as [sk wh gr af]. cbn in *. subst sk. rewrite <- Ht.
    repeat split; [assumption|].
    intros a b Hab Hb. destruct a; [simpl in Hab; congruence | discriminate].
  - destruct (match_at ic r prev (String c s)) as [f0|] eqn:E.
    + injection H as ->. destruct (match_at_sound _ _ _ _ _ E) as [Hs Ht].
      destruct f as [sk wh gr af]. cbn in *. subst sk. rewrite <- Ht.
      repeat split; [assumption|].
      intros a b Hab Hb. destruct a; [simpl in Hab; congruence | discriminate].
    + destruct (search_from ic r (Some c) s) as [f1|] eqn:E1; [| discriminate].
      injection H as <-. destruct (IH _ _ E1) as (Hs & Hm & Hl).
      destruct f1 as [sk wh gr af]. cbn in *.
      split; [now rewrite <- Hs|]. split; [assumption|].
      intros a b Hab Hb. destruct a as [|a0 a].
      * simpl in Hab. subst b. cbn. rewrite <- Hs. exact E.
      * injection Hab as <- Hab. cbn. now apply Hl.
Qed.

(** The scan for the successive matches never runs out of fuel: any
    fuel above the length of the text gives the same matches. *)
Lemma finditer_fuel_enough (ic : bool) (r : regex) (n : nat) :
  forall (m : nat) (s : string) (prev : option ascii),
    String.length s < n -> String.length s < m ->
    finditer_fuel m ic r prev s = finditer_fuel n ic r prev s.
Proof.
  induction n as [|n IH]; intros m s prev Hn Hm; [lia|].
  destruct m as [|m]; [lia|]. cbn [finditer_fuel].
  destruct (search_from ic r prev s) as [f|] eqn:E; [| reflexivity].
  apply search_from_leftmost in E. destruct E as (Hs & _).
  assert (L : String.length s
              = String.length (skipped f) + String.length (whole f)
                + String.length (ahead (after f))).
  { rewrite Hs at 1. rewrite !length_append. lia. }
  destruct (whole f) as [|w0 w] eqn:Ew; destruct (ahead (after f)) as [|d s'] eqn:Ea;
    simpl in L; try reflexivity.
  - rewrite (IH m s' (Some d)) by lia. reflexivity.
  - rewrite (IH m "" (before (after f))) by (simpl; lia). reflexivity.
  - rewrite (IH m (String d s') (before (after f))) by (simpl; lia). reflexivity.
Qed.

(** The lazy run of any characters up to a closing brace stops at the
    first closing brace. *)
Lemma lazy_to_close (K : cursor -> option found) :
  (forall c, K c <> None) ->
  forall s n p g,
    String.length s <= n ->
    iterate (run false (Cls any_char)) false (fun cur' => run false (Chr "}") cur' K)
            n (Cursor p s g)
    = match close_split s with
      | Some (_, rest) => K (Cursor (Some "}"%char) rest g)
      | None => None
      end.
Proof.
  intros HK. induction s as [|c s IH]; intros n p g Hn.
  - destruct n; reflexivity.
  - destruct n as [|n]; [simpl in Hn; lia|].
    cbn [iterate run ahead group1 close_split]. unfold same_char.
    rewrite (Ascii.eqb_sym "}" c).
    destruct (Ascii.eqb c "}") eqn:E.
    + apply Ascii.eqb_eq in E. subst c.
      destruct (K (Cursor (Some "}"%char) s g)) eqn:EK; [reflexivity|].
      now apply HK in EK.
    + unfold any_char.
      assert (L : (String.length s <? String.length (String c s))%nat = true).
      { apply Nat.ltb_lt. simpl. lia. }
      rewrite L. rewrite IH by (simpl in Hn; lia).
      destruct (close_split s) as [[i r]|]; reflexivity.
Qed.

(** A match of the block pattern at the cursor. *)
Lemma match_at_block (p : option ascii) (s : string) :
  match_at false json_pattern p s
  = match s with
    | String c s' =>
        if Ascii.eqb c "{" then
          match close_split s' with
          | Some (inner, rest) =>
              Some (Found "" ("{" ++ inner ++ "}") None (Cursor (Some "}"%char) rest None))
          | None => None
          end
        else None
    | EmptyString => None
    end.
Proof.
  unfold match_at, json_pattern. destruct s as [|c s]; [reflexivity|].
  rewrite run_Cat, run_Chr. unfold same_char. rewrite (Ascii.eqb_sym "{" c).
  destruct (Ascii.eqb c "{") eqn:E; [| reflexivity].
  apply Ascii.eqb_eq in E. subst c.
  rewrite run_Cat, run_Star. cbn [ahead].
  rewrite lazy_to_close; [| discriminate | lia].
  destruct (close_split s) as [[inner rest]|] eqn:Ec; [| reflexivity].
  cbn [ahead before group1].
  apply close_split_spec in Ec. destruct Ec as [-> _].
  replace (String "{" (inner ++ "}" ++ rest)) with (("{" ++ inner ++ "}") ++ rest)
    by (simpl; now rewrite append_assoc).
  now rewrite consumed_prefix.
Qed.

(** The leftmost match of the block pattern is the first block. *)
Lemma search_from_block (s : string) (p : option ascii) :
  option_map (fun f => (whole f, after f)) (search_from false json_pattern p s)
  = option_map (fun br => (fst br, Cursor (Some "}"%char) (snd br) None)) (next_block s).
Proof.
  revert p. induction s as [|c s IH]; intros p.
  - reflexivity.
  - cbn [search_from next_block]. rewrite match_at_block.
    assert (Hskip : option_map (fun f => (whole f, after f))
                      (option_map (skip_one c) (search_from false json_pattern (Some c) s))
                    = option_map (fun br => (fst br, Cursor (Some "}"%char) (snd br) None))
                                 (next_block s)).
    { rewrite <- (IH (Some c)).
      destruct (search_from false json_pattern (Some c) s); reflexivity. }
    destruct (Ascii.eqb c "{"); [| exact Hskip].
    destruct (close_split s) as [[inner rest]|]; [reflexivity | exact Hskip].
Qed.

Lemma next_block_spec (s b rest : string) :
  next_block s = Some (b, rest) ->
  String.length rest < String.length s /\ exists b', b = String "{" b'.
Proof.
  revert b rest. induction s as [|c s IH]; intros b rest; simpl; [discriminate|].
  assert (Hrec : next_block s = Some (b, rest) ->
                 String.length rest < S (String.length s) /\ exists b', b = String "{" b').
  { intros H. destruct (IH _ _ H) as [Hl Hb]. split; [lia | exact Hb]. }
  destruct (Ascii.eqb c "{"); [| exact Hrec].
  destruct (close_split s) as [[inner r]|] eqn:E; [| exact Hrec].
  intros [= <- <-]. apply close_split_spec in E. destruct E as [_ Hl].
  split; [lia | eauto].
Qed.

Lemma next_block_none (s : string) : close_split s = None -> next_block s = None.
Proof.
  induction s as [|c s IH]; simpl; [reflexivity|].
  destruct (Ascii.eqb c "}"); [discriminate|].
  destruct (close_split s) as [[i r]|]; [discriminate|].
  intros _. destruct (Ascii.eqb c "{"); auto.
Qed.

Lemma brace_blocks_open (s block : string) :
  brace_blocks (Some block) s
  = match close_split s with
    | Some (inner, rest) => (block ++ inner ++ "}") :: brace_blocks None rest
    | None => []
    end.
Proof.
  revert block. induction s as [|c s IH]; intros block; simpl; [reflexivity|].
  destruct (Ascii.eqb c "}").
  - reflexivity.
  - rewrite IH. destruct (close_split s) as [[inner rest]|]; [| reflexivity].
    now rewrite append_assoc.
Qed.

Lemma brace_blocks_next (s : string) :
  brace_blocks None s
  = match next_block s with
    | Some (b, rest) => b :: brace_blocks None rest
    | None => []
    end.
Proof.
  induction s as [|c s IH]; simpl; [reflexivity|].
  destruct (Ascii.eqb c "{"); [| exact IH].
  rewrite brace_blocks_open.
  destruct (close_split s) as [[inner rest]|] eqn:E; [reflexivity|].
  now rewrite (next_block_none s E).
Qed.

Lemma finditer_blocks (n : nat) (s : string) (p : option ascii) :
  String.length s < n ->
  map whole (fst (finditer_fuel n false json_pattern p s)) = brace_blocks None s.
Proof.
  revert s p. induction n as [|n IH]; intros s p Hn; [lia|].
  cbn [finditer_fuel]. rewrite brace_blocks_next.
  pose proof (search_from_block s p) as Hs.
  destruct (search_from false json_pattern p s) as [f|];
    destruct (next_block s) as [[b rest]|] eqn:Eb; simpl in Hs; try discriminate.
  - injection Hs as Hw Ha.
    destruct (next_block_spec _ _ _ Eb) as [Hl [b' Hb']].
    rewrite Hw, Hb', Ha. cbn [ahead before].
    destruct (finditer_fuel n false json_pattern (Some "}"%char) rest) as [l tl] eqn:El.
    cbn [fst map]. rewrite Hw, Hb'. f_equal.
    specialize (IH rest (Some "}"%char) ltac:(lia)). now rewrite El in IH.
  - reflexivity.
Qed.

(** The matches of the block pattern are the blocks of one pass over the
    text, each from an opening brace to the first closing brace after it. *)
Lemma findall_json_pattern (s : string) :
  findall false json_pattern s = brace_blocks None s.
Proof. unfold findall, finditer. apply finditer_blocks. lia. Qed.

Lemma close_split_inner (s inner rest : string) :
  close_split s = Some (inner, rest) -> contains "}" inner = false.
Proof.
  revert inner rest. induction s as [|d s IH]; intros inner rest; simpl; [discriminate|].
  destruct (Ascii.eqb d "}") eqn:Ed.
  - intros [= <- <-]. reflexivity.
  - destruct (close_split s) as [[i r]|]; [| discriminate].
    intros [= <- <-]. cbn [contains prefix].
    destruct (ascii_dec "}" d) as [<- | _].
    + rewrite Ascii.eqb_refl in Ed. discriminate.
    + cbn [orb]. now apply (IH i r).
Qed.

Lemma next_block_shape (s b rest : string) :
  next_block s = Some (b, rest) ->
  exists inner, b = "{" ++ inner ++ "}" /\ contains "}" inner = false.
Proof.
  revert b rest. induction s as [|c s IH]; intros b rest; simpl; [discriminate|].
  destruct (Ascii.eqb c "{"); [| apply IH].
  destruct (close_split s) as [[inner r]|] eqn:Ec; [| apply IH].
  intros [= <- <-]. exists inner. split; [reflexivity|].
  now apply (close_split_inner s inner r).
Qed.

(** Every block starts with an opening brace and ends with the only
    closing brace it has. *)
Lemma brace_blocks_shape (s : string) :
  Forall (fun b => exists inner,
              b = "{" ++ inner ++ "}" /\ contains "}" inner = false)
         (brace_blocks None s).
Proof.
  remember (String.length s) as n eqn:En.
  assert (Hn : String.length s <= n) by lia. clear En.
  revert s Hn. induction n as [|n IH]; intros s Hn.
  - destruct s; [constructor | simpl in Hn; lia].
  - rewrite brace_blocks_next.
    destruct (next_block s) as [[b rest]|] eqn:E; [| constructor].
    destruct (next_block_spec _ _ _ E) as [Hl _].
    constructor; [| apply IH; lia].
    now apply (next_block_shape s b rest).
Qed.

(** What [json.loads] returns for a block is a dict. *)
Lemma block_loads_dict (python : Json.interpreter) (text b : string) (v : Json.json) :
  In b (findall false json_pattern text) ->
  Json.loads python b = Returned (Some v) -> exists d, v = Json.JObj d.
Proof.
  rewrite findall_json_pattern. intros Hin.
  pose proof (brace_blocks_shape text) as Hs. rewrite Forall_forall in Hs.
  destruct (Hs b Hin) as (inner & -> & _). apply decode_brace.
Qed.

(** *** The matcher on some texts *)

Example findall_blocks :
  findall false json_pattern "ab {x} c {y {z} } {" = ["{x}"; "{y {z}"].
Proof. vm_compute. reflexivity. Qed.

Example findall_issue_markers :
  findall_group true issue_pattern
    (lines ["issue: no seal"; "PROBLEM:"; ""; "wrong court "; "Missing:  "])
  = ["no seal"; "wrong court "; " "].
Proof. vm_compute. reflexivity. Qed.

Example search_severity_skips_other_values :
  search_group severity_pattern (lines ["Priority: unknown"; "severity: HIGH"]) = Some "HIGH".
Proof. vm_compute. reflexivity. Qed.

Example split_sentences :
  split false sentence_split "One.  Two is here!  Three? four. "
  = ["One."; "Two is here!"; "Three?"; "four."; ""].
Proof. vm_compute. reflexivity. Qed.

(** Whitespace and letter case outside ASCII: a no-break space after the
    colon, the dotless i and the long s in a label. *)
Example findall_issue_markers_outside_ascii :
  findall_group true issue_pattern
    (PyStr.chr 305 ++ "ssue:" ++ PyStr.chr 160 ++ "x y " ++ newline
     ++ "mi" ++ PyStr.chr 383 ++ PyStr.chr 383 ++ "ing: z")
  = ["x y "; "z"].
Proof. vm_compute. reflexivity. Qed.

End Blocks.

(** ** The cascade of the issue extractor *)

Section Extractor.
Import PyStr Re Json DocumentProcessor DocumentAnalyzer Spec.

Lemma dict_set_fresh (k : string) (v : json) (d : dict) :
  dict_mem k d = false -> dict_set k v d = (d ++ [(k, v)])%list.
Proof.
  unfold dict_mem. induction d as [|[k' v'] d IH]; simpl; [reflexivity|].
  destruct (k =? k'); [discriminate|].
  intros H. now rewrite IH.
Qed.

Lemma add_decoded_accepted (issues : list issue) (json_str : string) :
  add_decoded issues (json_value json_str)
  = (issues ++ match accepted json_str with Some i => [i] | None => [] end)%list.
Proof.
  unfold add_decoded, accepted.
  destruct (json_value json_str) as [[| | | | | |d]|]; try (now rewrite app_nil_r).
  destruct (dict_mem "section" d && dict_mem "issue" d); [| now rewrite app_nil_r].
  destruct (dict_mem "severity" d) eqn:E; [reflexivity|].
  now rewrite dict_set_fresh.
Qed.

Lemma fold_add_decoded (blocks : list string) (issues : list issue) :
  fold_left (fun issues json_str => add_decoded issues (json_value json_str)) blocks issues
  = (issues ++ block_issues blocks)%list.
Proof.
  revert issues. induction blocks as [|b blocks IH]; intros issues; simpl.
  - now rewrite app_nil_r.
  - rewrite IH, add_decoded_accepted, <- app_assoc. reflexivity.
Qed.

(** The first strategy keeps the accepted blocks, in order. *)
Lemma json_issues_blocks (rag_response : string) :
  json_issues rag_response = block_issues (brace_blocks None rag_response).
Proof.
  unfold json_issues. now rewrite fold_add_decoded, findall_json_pattern.
Qed.

Lemma block_issues_nonempty (blocks : list string) :
  (exists b, In b blocks /\ accepted b <> None) -> block_issues blocks <> [].
Proof.
  intros (b & Hin & Hacc). unfold block_issues. intros E.
  destruct (accepted b) as [i|] eqn:Eb; [| congruence].
  assert (Hi : In i (flat_map
                       (fun b => match accepted b with Some i => [i] | None => [] end)
                       blocks)).
  { apply in_flat_map. exists b. split; [assumption|]. rewrite Eb. now left. }
  rewrite E in Hi. destruct Hi.
Qed.

(** The loop over the blocks returns when the decoder meets no limit on
    any of them... *)
Lemma json_loop_within (self : analyzer) (blocks : list string) (issues : list issue) :
  forallb (within_limits self) blocks = true ->
  json_loop self issues blocks
  = Returned (fold_left (fun issues json_str => add_decoded issues (json_value json_str))
                        blocks issues).
Proof.
  revert issues. induction blocks as [|b blocks IH]; intros issues; cbn [forallb]; intros H.
  - reflexivity.
  - apply andb_true_iff in H. destruct H as [Hb H].
    cbn [json_loop fold_left]. unfold add_json_issue. unfold within_limits in Hb.
    destruct (loads (python self) b) as [decoded|e] eqn:E; [| discriminate].
    rewrite (loads_value _ _ _ E). now apply IH.
Qed.

(** ... and raises when it meets one. *)
Lemma json_loop_beyond (self : analyzer) (blocks : list string) (issues : list issue) :
  forallb (within_limits self) blocks = false ->
  exists e, json_loop self issues blocks = Raised e.
Proof.
  revert issues. induction blocks as [|b blocks IH]; intros issues; cbn [forallb]; intros H.
  - discriminate.
  - cbn [json_loop]. unfold add_json_issue. unfold within_limits in H.
    destruct (loads (python self) b) as [decoded|e]; [| eauto].
    now apply IH.
Qed.

(** Within the limits, the cascade starts from [json_issues]. *)
Lemma extract_within (self : analyzer) (rag_response doc_type : string)
      (section_names : list string) :
  forallb (within_limits self) (brace_blocks None rag_response) = true ->
  _extract_issues_from_rag self rag_response doc_type section_names
  = Returned (later_strategies (json_issues rag_response) rag_response section_names).
Proof.
  intros H. unfold _extract_issues_from_rag.
  rewrite findall_json_pattern, (json_loop_within self _ [] H), <- findall_json_pattern.
  reflexivity.
Qed.

Lemma extract_beyond (self : analyzer) (rag_response doc_type : string)
      (section_names : list string) :
  forallb (within_limits self) (brace_blocks None rag_response) = false ->
  exists e, _extract_issues_from_rag self rag_response doc_type section_names = Raised e.
Proof.
  intros H. unfold _extract_issues_from_rag. rewrite findall_json_pattern.
  destruct (json_loop_beyond self _ [] H) as [e ->]. eauto.
Qed.

(** What the cascade returns starts from [json_issues]. *)
Lemma extract_returned (self : analyzer) (rag_response doc_type : string)
      (section_names : list string) (issues : list issue) :
  _extract_issues_from_rag self rag_response doc_type section_names = Returned issues ->
  issues = later_strategies (json_issues rag_response) rag_response section_names.
Proof.
  unfold _extract_issues_from_rag.
  destruct (json_loop self [] _) as [l|e] eqn:E; [| discriminate].
  apply json_loop_issues in E. rewrite E. now intros [= <-].
Qed.

(** Whatever the first strategy finds is the result. *)
Lemma later_first (issues : list issue) (rag_response : string)
      (section_names : list string) :
  issues <> [] -> later_strategies issues rag_response section_names = issues.
Proof.
  unfold later_strategies. destruct issues; [congruence | reflexivity].
Qed.


(** C1, as the code has it.  The blocks are those one pass over the text
    finds, each from an opening brace to the first closing brace after it.
    When one of them parses as a record with a section and an issue, and
    the decoder meets no limit of the interpreter on any block, the
    extractor returns the issues of the accepted blocks, in order,
    severity Medium where a block has none, and nothing of the
    labeled-line or sentence strategies, whatever else the text matches.
    When the decoder meets a limit on a block (an integer of more digits
    than may be converted, more nesting than there is room for), the
    extractor raises and returns no issue. *)
Theorem structured_blocks_win (self : analyzer) (rag_response doc_type : string)
        (section_names : list string) :
  ((exists b, In b (brace_blocks None rag_response) /\ accepted b <> None) ->
   forallb (within_limits self) (brace_blocks None rag_response) = true ->
   _extract_issues_from_rag self rag_response doc_type section_names
   = Returned (block_issues (brace_blocks None rag_response)))
  /\ (forallb (within_limits self) (brace_blocks None rag_response) = false ->
      exists e,
        _extract_issues_from_rag self rag_response doc_type section_names = Raised e).
Proof.
  split.
  - intros H Hw. rewrite (extract_within _ _ _ _ Hw), later_first.
    + now rewrite json_issues_blocks.
    + rewrite json_issues_blocks. now apply block_issues_nonempty.
  - apply extract_beyond.
Qed.

Lemma structured_blocks_win_witness :
  _extract_issues_from_rag
    (init (fun _ => Raised "no engine"))
    (lines [ dq "{'section': 'Clause 4', 'issue': 'No governing law'}";
             "Issue: undated";
             dq "{'section': 'Clause 9', 'issue': 'Wrong court', 'severity': 'High'}";
             "The seal is missing." ])
    "Board Resolution" ["Clause 4"]
  = Returned
      [ [ ("section", JStr "Clause 4"); ("issue", JStr "No governing law");
          ("severity", JStr "Medium") ];
        [ ("section", JStr "Clause 9"); ("issue", JStr "Wrong court");
          ("severity", JStr "High") ] ]
  /\ exists e,
       _extract_issues_from_rag
         (init (fun _ => Raised "no engine"))
         (lines [ dq "{'section': 'Clause 4', 'issue': 'No governing law'}";
                  "{" ++ dq "'pages': " ++ String.concat "" (repeat "9" 4301) ++ "}" ])
         "Board Resolution" ["Clause 4"]
       = Raised e.
Proof.
  split.
  - refine (eq_trans (proj1 (structured_blocks_win _ _ _ _) _ _) _).
    + exists (dq "{'section': 'Clause 4', 'issue': 'No governing law'}").
      split; [vm_compute; auto | vm_compute; discriminate].
    + vm_compute. reflexivity.
    + vm_compute. reflexivity.
  - refine (proj2 (structured_blocks_win _ _ _ _) _).
    vm_compute. reflexivity.
Defined.

(** C1, as it is stated, fails: the text below holds a block that parses
    as a record with a section and an issue, and the extractor returns
    the issue of the labeled line instead.  The scan ends the block at
    the closing brace inside the issue text. *)
Lemma structured_block_missed :
  let self := init (fun _ => Raised "no engine") in
  let rag_response :=
    dq "{'section': 'Clause 1', 'issue': 'Placeholder {name} left unfilled'} Issue: undated" in
  has_record_block rag_response
  /\ json_issues rag_response = []
  /\ _extract_issues_from_rag self rag_response "Board Resolution" []
     = Returned
         [ [ ("section", JStr "General"); ("issue", JStr "undated");
             ("severity", JStr "Medium"); ("suggestion", JNull);
             ("regulation", JStr "ADGM Regulations") ] ]
  /\ _extract_issues_from_rag self rag_response "Board Resolution" []
     = Returned (labeled_issues rag_response).
Proof.
  intros self rag_response.
  split; [| split; [| split]; vm_compute; reflexivity].
  exists "", (dq "{'section': 'Clause 1', 'issue': 'Placeholder {name} left unfilled'}"),
         " Issue: undated".
  split; [vm_compute; reflexivity|]. split.
  - exists (dq "'section': 'Clause 1', 'issue': 'Placeholder {name} left unfilled'").
    vm_compute. reflexivity.
  - eexists. split; [vm_compute; reflexivity|]. split; vm_compute; reflexivity.
Qed.



(** The characters of whitespace outside ASCII count as whitespace after
    the colon of a label and at the ends of the text of an issue. *)
Example labeled_lines_wide_spaces :
  _extract_issues_from_rag
    (init (fun _ => Raised "no engine"))
    ("Issue:" ++ chr 160 ++ "undated" ++ chr 160 ++ newline ++ "Severity:" ++ chr 160 ++ "High")
    "Board Resolution" []
  = Returned
      [ [ ("section", JStr "General"); ("issue", JStr "undated"); ("severity", JStr "High");
          ("suggestion", JNull); ("regulation", JStr "ADGM Regulations") ] ].
Proof. vm_compute. reflexivity. Qed.

End Extractor.

(** ** The heuristic classifiers *)

Section Classifiers.
Import PyStr Json DocumentTypes DocumentProcessor Spec.

Lemma find_first {A : Type} (f : A -> bool) (l : list A) (x : A) :
  find f l = Some x <->
  exists earlier later,
    l = (earlier ++ x :: later)%list /\ f x = true
    /\ forall y, In y earlier -> f y = false.
Proof.
  split.
  - induction l as [|a l IH]; simpl; [discriminate|].
    destruct (f a) eqn:E.
    + intros [= ->]. exists [], l. repeat split; auto. intros y [].
    + intros H. destruct (IH H) as (earlier & later & -> & Hx & Hy).
      exists (a :: earlier), later. repeat split; auto.
      intros y [<- | Hin]; auto.
  - intros (earlier & later & -> & Hx & Hy).
    induction earlier as [|a earlier IH]; simpl.
    + now rewrite Hx.
    + rewrite (Hy a) by now left. apply IH. intros y Hin. apply Hy. now right.
Qed.

Lemma find_none {A : Type} (f : A -> bool) (l : list A) :
  (forall y, In y l -> f y = false) -> find f l = None.
Proof.
  intros H. destruct (find f l) as [x|] eqn:E; [| reflexivity].
  apply find_some in E. destruct E as [Hin Hx]. rewrite (H x Hin) in Hx. discriminate.
Qed.

Section DocumentType.
Import DocumentAnalyzer.




Lemma prefix_lower (p t : string) :
  prefix p t = true -> prefix (lower p) (lower t) = true.
Proof.
  revert t. induction p as [|c p IH]; intros t; [intros _; now destruct t|].
  destruct t as [|d t]; [discriminate|]. cbn [prefix lower].
  destruct (ascii_dec c d) as [<- | _]; [| discriminate].
  intros H. destruct (ascii_dec (lower_char c) (lower_char c)); [auto | congruence].
Qed.

(** A text that contains a phrase as it is written mentions it. *)
Lemma contains_mentions (phrase text : string) :
  contains phrase text = true -> mentions phrase text.
Proof.
  unfold mentions. induction text as [|d t IH]; cbn [contains lower].
  - intros H. now apply (prefix_lower phrase "").
  - intros H. apply orb_true_iff in H. apply orb_true_iff. destruct H as [H | H].
    + left. now apply (prefix_lower phrase (String d t)).
    + right. now apply IH.
Qed.




(** The order of the table decides between two phrases: the content
    below contains the phrase on the resolution of the board of directors
    and the phrase of the memorandum, which stands earlier in the table
    and gives the type. *)
Example table_order_decides :
  let doc :=
    DocInfo "minutes.docx"
      "Extract of the resolution of the board of directors adopting the memorandum of association" [] in
  contains "resolution of the board of directors" (doc_content doc) = true
  /\ identify_document_type (init (fun _ => Returned RAGEngine.not_initialized)) doc
     = DocTypeInfo "Memorandum of Association" 0.9 (Some "memorandum of association") None
  /\ type (identify_document_type (init (fun _ => Returned RAGEngine.not_initialized)) doc)
     <> "Board Resolution".
Proof.
  intros doc. split; [| split]; by_computing.
Qed.

End DocumentType.

Section Process.
Import ChecklistVerifier.

Lemma indicator_hit_existsb (indicators : list string) (doc_type : string) :
  indicator_hit indicators doc_type
  = existsb (fun indicator => contains (lower indicator) (lower doc_type)) indicators.
Proof.
  induction indicators as [|i l IH]; simpl; [reflexivity|].
  destruct (contains (lower i) (lower doc_type)); simpl; auto.
Qed.

Lemma fold_count {A : Type} (p : A -> bool) (l : list A) (n : nat) :
  fold_left (fun score x => if p x then S score else score) l n
  = (n + List.length (filter p l))%nat.
Proof.
  revert n. induction l as [|a l IH]; intros n; simpl; [lia|].
  rewrite IH. destruct (p a); simpl; lia.
Qed.

(** The loops of the source count what the specification counts. *)
Lemma score_process_keyword_score (indicators document_types : list string) :
  score_process indicators document_types = keyword_score indicators document_types.
Proof.
  unfold score_process, keyword_score. rewrite fold_count. simpl.
  f_equal. apply filter_ext. intros d. apply indicator_hit_existsb.
Qed.

Lemma max_by_score_in (others : list (string * nat)) (first : string * nat) :
  In (max_by_score first others) (first :: others).
Proof.
  unfold max_by_score. revert first.
  induction others as [|x l IH]; intros first; simpl; [now left|].
  destruct (snd first <? snd x)%nat.
  - right. apply IH.
  - destruct (IH first) as [H | H]; [left | right; right]; assumption.
Qed.

Lemma max_by_score_ge (others : list (string * nat)) (first : string * nat) :
  (snd first <= snd (max_by_score first others))%nat
  /\ forall x, In x others -> (snd x <= snd (max_by_score first others))%nat.
Proof.
  unfold max_by_score. revert first.
  induction others as [|x l IH]; intros first; simpl; [split; [lia | intros ? []]|].
  destruct (snd first <? snd x)%nat eqn:E.
  - apply Nat.ltb_lt in E. destruct (IH x) as [H1 H2]. split; [lia|].
    intros y [<- | Hy]; auto.
  - apply Nat.ltb_ge in E. destruct (IH first) as [H1 H2]. split; [lia|].
    intros y [<- | Hy]; [lia | auto].
Qed.

(** C7.  The fallback gives each process the number of submitted
    document types that contain one of its indicator keywords.  When
    every process scores zero the result is Unknown with confidence
    0.0.  Otherwise it is a process of the greatest score, with
    confidence min(0.7, score / number of submitted types) and the
    required documents of that process.  An Employment Contract alone
    gives Employment Setup, confidence 0.7, and the Employment Contract
    as the one required document. *)
Theorem process_fallback (document_types : list string) :
  document_types <> [] ->
  let result := _fallback_process_identification document_types in
  ((forall p indicators,
       In (p, indicators) process_indicators ->
       keyword_score indicators document_types = 0%nat) ->
   result = ProcessInfo "Unknown" 0.0 None None)
  /\ ((exists p indicators,
          In (p, indicators) process_indicators
          /\ keyword_score indicators document_types <> 0%nat) ->
      exists p indicators,
        In (p, indicators) process_indicators
        /\ (forall q indicators',
               In (q, indicators') process_indicators ->
               (keyword_score indicators' document_types
                <= keyword_score indicators document_types)%nat)
        /\ result
           = ProcessInfo p
               (Qmin 0.7 (inject_Z (Z.of_nat (keyword_score indicators document_types))
                          / inject_Z (Z.of_nat (List.length document_types))))
               (Some (lookup_docs p required_docs_table))
               (Some []))
  /\ _fallback_process_identification ["Employment Contract"]
     = ProcessInfo "Employment Setup" 0.7 (Some ["Employment Contract"]) (Some []).
Proof.
  intros _ result. subst result. unfold _fallback_process_identification.
  remember (map (fun pi => (fst pi, score_process (snd pi) document_types))
                process_indicators) as scores eqn:Es.
  assert (Hin : forall x, In x scores ->
            exists indicators, In (fst x, indicators) process_indicators
                               /\ snd x = keyword_score indicators document_types).
  { intros x Hx. rewrite Es in Hx. apply in_map_iff in Hx.
    destruct Hx as ([p inds] & <- & Hp). exists inds. simpl.
    split; [assumption | apply score_process_keyword_score]. }
  assert (Hall : forall q indicators', In (q, indicators') process_indicators ->
            In (q, keyword_score indicators' document_types) scores).
  { intros q inds Hq. rewrite Es. apply in_map_iff. exists (q, inds). simpl.
    now rewrite score_process_keyword_score. }
  destruct scores as [|first others].
  { exfalso. unfold process_indicators in Es. discriminate Es. }
  pose proof (max_by_score_in others first) as Hbest.
  pose proof (max_by_score_ge others first) as [Hge1 Hge2].
  set (best := max_by_score first others) in *.
  assert (Hmax : forall x, In x (first :: others) -> (snd x <= snd best)%nat).
  { intros x [<- | Hx]; auto. }
  destruct (Hin best Hbest) as (inds & Hb & Hs).
  split; [| split].
  - intros Hzero. rewrite Hs, (Hzero _ _ Hb). reflexivity.
  - intros (p & indicators & Hp & Hnz).
    pose proof (Hmax _ (Hall _ _ Hp)) as Hle. simpl in Hle.
    destruct (snd best =? 0)%nat eqn:E.
    { apply Nat.eqb_eq in E. lia. }
    exists (fst best), inds. split; [assumption|]. split.
    + intros q inds' Hq. rewrite <- Hs. apply (Hmax _ (Hall _ _ Hq)).
    + unfold ratio. rewrite Hs. reflexivity.
  - vm_compute. reflexivity.
Qed.

Lemma process_fallback_witness :
  let document_types := ["Board Resolution"; "Unknown"; "Annual Accounts"] in
  exists p indicators,
    In (p, indicators) process_indicators
    /\ (forall q indicators',
           In (q, indicators') process_indicators ->
           (keyword_score indicators' document_types
            <= keyword_score indicators document_types)%nat)
    /\ _fallback_process_identification document_types
       = ProcessInfo p
           (Qmin 0.7 (inject_Z (Z.of_nat (keyword_score indicators document_types))
                      / inject_Z (Z.of_nat (List.length document_types))))
           (Some (lookup_docs p required_docs_table))
           (Some []).
Proof.
  intros document_types.
  apply (proj1 (proj2 (process_fallback document_types ltac:(discriminate)))).
  exists "Annual Compliance", ["Annual Accounts"; "annual"].
  split; [vm_compute; auto 10 | by_computing].
Defined.

End Process.

End Classifiers.

(** ** The sections of a document *)

Section Sections.
Import PyStr DocumentProcessor Spec.

Lemma save_app (sections : list section) (current : section) :
  save sections current
  = (sections ++ if has_content current then [current] else [])%list.
Proof.
  unfold save, has_content. destruct (truthy (strip (content current))).
  - reflexivity.
  - now rewrite app_nil_r.
Qed.

(** The loop of the source keeps the runs that have content. *)
Lemma fold_step_runs (ips : list (nat * paragraph)) (sections : list section)
      (current : section) :
  (let '(sections', current') := fold_left step ips (sections, current) in
   save sections' current')
  = (sections ++ filter has_content (runs_from current ips))%list.
Proof.
  revert sections current.
  induction ips as [|[i para] ips IH]; intros sections current.
  - simpl. rewrite save_app. destruct (has_content current); reflexivity.
  - cbn [fold_left runs_from].
    assert (E : step (sections, current) (i, para)
                = if opens_section para
                  then (save sections current, Section_ (strip (text para)) "" [i])
                  else (sections,
                        Section_ (title current)
                                 (content current ++ text para ++ newline)
                                 (paragraphs current ++ [i])%list))
      by reflexivity.
    rewrite E. destruct (opens_section para).
    + rewrite IH, save_app. simpl filter.
      destruct (has_content current); now rewrite <- app_assoc.
    + apply IH.
Qed.

Lemma runs_from_indices (ips : list (nat * paragraph)) (current : section) :
  concat (map paragraphs (runs_from current ips))
  = (paragraphs current ++ map fst ips)%list.
Proof.
  revert current. induction ips as [|[i para] ips IH]; intros current; simpl.
  - reflexivity.
  - destruct (opens_section para); simpl.
    + now rewrite IH.
    + rewrite IH. simpl. now rewrite <- app_assoc.
Qed.

Lemma combine_seq_fst {A : Type} (l : list A) (a : nat) :
  map fst (combine (seq a (List.length l)) l) = seq a (List.length l).
Proof.
  revert a. induction l as [|x l IH]; intros a; simpl; [reflexivity|].
  now rewrite IH.
Qed.

Lemma sorted_app (l1 l2 : list nat) :
  StronglySorted lt (l1 ++ l2)
  <-> StronglySorted lt l1 /\ StronglySorted lt l2
      /\ forall x y, In x l1 -> In y l2 -> (x < y)%nat.
Proof.
  induction l1 as [|a l1 IH]; simpl.
  - split.
    + intros H. repeat split; [constructor | assumption | intros ? ? []].
    + intros (_ & H & _). assumption.
  - split.
    + intros H. apply StronglySorted_inv in H. destruct H as [H Ha].
      apply IH in H. destruct H as (H1 & H2 & H3).
      rewrite Forall_app in Ha. destruct Ha as [Ha1 Ha2].
      repeat split; [constructor; assumption | assumption |].
      intros x y [<- | Hx] Hy; [| now apply H3].
      rewrite Forall_forall in Ha2. now apply Ha2.
    + intros (H1 & H2 & H3). apply StronglySorted_inv in H1. destruct H1 as [H1 Ha].
      constructor.
      * apply IH. repeat split; auto.
      * apply Forall_app. split; [assumption|].
        apply Forall_forall. intros y Hy. apply H3; auto.
Qed.

Lemma sorted_seq (n a : nat) : StronglySorted lt (seq a n).
Proof.
  revert a. induction n as [|n IH]; intros a; simpl; constructor; [apply IH|].
  apply Forall_forall. intros x Hx. apply in_seq in Hx. lia.
Qed.

Lemma in_concat_filter {A B : Type} (f : A -> list B) (p : A -> bool) (l : list A) (x : B) :
  In x (concat (map f (filter p l))) -> In x (concat (map f l)).
Proof.
  induction l as [|a l IH]; simpl; [auto|].
  destruct (p a); simpl; rewrite ?in_app_iff; intuition.
Qed.

Lemma sorted_concat_filter {A : Type} (f : A -> list nat) (p : A -> bool) (l : list A) :
  StronglySorted lt (concat (map f l)) ->
  StronglySorted lt (concat (map f (filter p l))).
Proof.
  induction l as [|a l IH]; simpl; [auto|].
  intros H. apply sorted_app in H. destruct H as (H1 & H2 & H3).
  destruct (p a); simpl; [| auto].
  apply sorted_app. repeat split; auto.
  intros x y Hx Hy. apply H3; [assumption|]. now apply in_concat_filter in Hy.
Qed.

Lemma sorted_heads (ls : list (list nat)) :
  StronglySorted lt (concat ls) ->
  Forall (fun l => l <> []) ls ->
  StronglySorted lt (map (hd 0%nat) ls).
Proof.
  induction ls as [|l ls IH]; simpl; intros Hs Hne; [constructor|].
  apply sorted_app in Hs. destruct Hs as (H1 & H2 & H3).
  apply Forall_cons_iff in Hne. destruct Hne as [Hl Hne].
  constructor; [auto|].
  apply Forall_forall. intros y Hy. apply in_map_iff in Hy.
  destruct Hy as (l' & <- & Hl').
  rewrite Forall_forall in Hne. specialize (Hne l' Hl').
  destruct l as [|a l]; [congruence|]. destruct l' as [|b l']; [congruence|].
  simpl. apply H3; [now left|]. apply in_concat. exists (b :: l'). split; [assumption | now left].
Qed.

(** A run without paragraphs has no content. *)
Lemma runs_from_inhabited (ips : list (nat * paragraph)) (current : section) :
  (paragraphs current = [] -> content current = "") ->
  Forall (fun s => paragraphs s = [] -> content s = "") (runs_from current ips).
Proof.
  revert current. induction ips as [|[i para] ips IH]; intros current Hc; simpl.
  - constructor; [assumption | constructor].
  - destruct (opens_section para).
    + constructor; [assumption|]. apply IH. simpl. discriminate.
    + apply IH. simpl. intros H. apply app_eq_nil in H. destruct H. discriminate.
Qed.

(** The first run holds the paragraphs before the first heading. *)
Lemma runs_from_preamble (doc : list paragraph) (a : nat) (current : section) :
  exists general rest,
    runs_from current (combine (seq a (List.length doc)) doc) = general :: rest
    /\ title general = title current
    /\ paragraphs general = (paragraphs current ++ seq a (preamble doc))%list.
Proof.
  revert a current. induction doc as [|para doc IH]; intros a current; simpl.
  - exists current, []. now rewrite app_nil_r.
  - destruct (opens_section para).
    + eexists current, _. now rewrite app_nil_r.
    + destruct (IH (S a) (Section_ (title current)
                                   (content current ++ text para ++ newline)
                                   (paragraphs current ++ [a])%list))
        as (general & rest & E & Ht & Hp).
      exists general, rest. repeat split; try assumption.
      rewrite Hp. simpl. now rewrite <- app_assoc.
Qed.

Lemma extract_sections_runs (doc : list paragraph) :
  _extract_document_sections doc = filter has_content (all_runs doc).
Proof.
  unfold _extract_document_sections, all_runs.
  apply (fold_step_runs (enumerate doc) [] (Section_ "General" "" [])).
Qed.

(** C5, as the code has it.  The paragraphs fall into runs: those before
    the first heading, under the title General, then each heading with
    the paragraphs up to the next heading; every index 0..N-1 is in
    exactly one run.  The sections are the runs that have text that is
    not blank, in order.  So every index is in at most one section, the
    indices of the sections taken in order increase strictly, no section
    is without paragraphs, the sections are ordered by their first index,
    and the paragraphs before the first heading form the leading section
    when their text is not blank. *)
Theorem section_partition (doc : list paragraph) :
  let result := _extract_document_sections doc in
  result = filter has_content (all_runs doc)
  /\ concat (map paragraphs (all_runs doc)) = seq 0%nat (List.length doc)
  /\ StronglySorted lt (concat (map paragraphs result))
  /\ (forall i, In i (concat (map paragraphs result)) -> (i < List.length doc)%nat)
  /\ Forall (fun s => paragraphs s <> []) result
  /\ StronglySorted lt (map (fun s => hd 0%nat (paragraphs s)) result)
  /\ exists general rest,
       all_runs doc = general :: rest
       /\ title general = "General"
       /\ paragraphs general = seq 0%nat (preamble doc)
       /\ (has_content general = true -> exists rest', result = general :: rest').
Proof.
  intros result. subst result. rewrite extract_sections_runs.
  assert (Hall : concat (map paragraphs (all_runs doc)) = seq 0%nat (List.length doc)).
  { unfold all_runs. rewrite runs_from_indices. simpl. apply combine_seq_fst. }
  assert (Hsorted : StronglySorted lt
                      (concat (map paragraphs (filter has_content (all_runs doc))))).
  { apply sorted_concat_filter. rewrite Hall. apply sorted_seq. }
  assert (Hne : Forall (fun s => paragraphs s <> [])
                       (filter has_content (all_runs doc))).
  { apply Forall_forall. intros s Hs. apply filter_In in Hs. destruct Hs as [Hs Hc].
    pose proof (runs_from_inhabited (enumerate doc) (Section_ "General" "" [])
                  (fun _ => eq_refl)) as Hi.
    rewrite Forall_forall in Hi. specialize (Hi s Hs).
    intros E. unfold has_content in Hc. rewrite (Hi E) in Hc. discriminate. }
  split; [reflexivity|]. split; [exact Hall|]. split; [exact Hsorted|].
  split; [| split; [exact Hne | split]].
  - intros i Hi. apply in_concat_filter in Hi. rewrite Hall in Hi.
    apply in_seq in Hi. lia.
  - rewrite <- (map_map paragraphs (hd 0%nat)). apply sorted_heads.
    + exact Hsorted.
    + apply Forall_map. exact Hne.
  - destruct (runs_from_preamble doc 0%nat (Section_ "General" "" []))
      as (general & rest & E & Ht & Hp).
    exists general, rest. unfold all_runs, enumerate. rewrite E.
    repeat split; try assumption.
    intros Hc. simpl. rewrite Hc. eauto.
Qed.

Lemma section_partition_witness :
  let doc := [ Paragraph "Normal" [] "Acme Ltd";
               Paragraph "Normal" [Run (Some true)] "Resolutions";
               Paragraph "Normal" [] "It is resolved that the seal be changed." ] in
  exists general rest',
    title general = "General"
    /\ paragraphs general = [0%nat]
    /\ _extract_document_sections doc = general :: rest'.
Proof.
  intros doc.
  destruct (section_partition doc) as (_ & _ & _ & _ & _ & _ & general & rest & E & Ht & Hp & Hc).
  assert (Eg : general = Section_ "General" ("Acme Ltd" ++ newline) [0%nat]).
  { vm_compute in E. now injection E as <- _. }
  destruct Hc as [rest' Hr].
  - rewrite Eg. reflexivity.
  - exists general, rest'. rewrite Hp. split; [assumption|]. split; [reflexivity | assumption].
Defined.

(** C5, as it is stated, fails: of the three paragraphs below, two
    headings and a line of text, the first is in no section, since the
    section of the first heading has no content and is not kept. *)
Lemma heading_without_text_dropped :
  let doc := [ Paragraph "Heading 1" [] "Definitions";
               Paragraph "Heading 1" [] "Interpretation";
               Paragraph "Normal" [] "In this resolution the following applies." ] in
  _extract_document_sections doc
  = [ Section_ "Interpretation"
               ("In this resolution the following applies." ++ newline) [1; 2]%nat ]
  /\ ~ exists s, In s (_extract_document_sections doc) /\ In 0%nat (paragraphs s).
Proof.
  intros doc.
  assert (E : _extract_document_sections doc
              = [ Section_ "Interpretation"
                    ("In this resolution the following applies." ++ newline) [1; 2]%nat ]).
  { vm_compute. reflexivity. }
  split; [exact E|]. rewrite E.
  intros (s & [<- | []] & [H | [H | []]]); discriminate H.
Qed.

(** Blankness, length and letter case are those of the characters: a
    paragraph of a no-break space is blank and leaves no section; a bold
    line of sixty letters of two bytes each is short enough for a
    heading; a line in capitals with an accent is a heading, and one with
    a small letter with an accent is not. *)
Example sections_of_other_scripts :
  _extract_document_sections [Paragraph "Normal" [] (chr 160)] = []
  /\ is_heading (Paragraph "Normal" [Run (Some true)]
                          (String.concat "" (repeat (chr 1575) 60))) = true
  /\ is_heading (Paragraph "Normal" [] (chr 201 ++ "TATS")) = true
  /\ is_heading (Paragraph "Normal" [] ("R" ++ chr 233 ++ "SOLUTION")) = false.
Proof. repeat split; vm_compute; reflexivity. Qed.

End Sections.

(** ** Further properties of the analyzer *)

Section Issues.
Import PyStr Re Json RAGEngine DocumentProcessor DocumentAnalyzer Spec Words.

Lemma dict_mem_app (k : string) (d d' : dict) :
  dict_mem k d = true -> dict_mem k (d ++ d')%list = true.
Proof.
  unfold dict_mem. induction d as [|[k' v'] d IH]; simpl; [discriminate|].
  destruct (k =? k'); auto.
Qed.

Lemma dict_mem_last (k : string) (v : json) (d : dict) :
  dict_mem k (d ++ [(k, v)])%list = true.
Proof.
  unfold dict_mem. induction d as [|[k' v'] d IH]; simpl.
  - now rewrite String.eqb_refl.
  - destruct (k =? k'); auto.
Qed.

Lemma accepted_well_formed (b : string) (i : issue) :
  accepted b = Some i -> well_formed_issue i.
Proof.
  unfold accepted, well_formed_issue.
  destruct (json_value b) as [[| | | | | |d]|]; try discriminate.
  destruct (dict_mem "section" d) eqn:Es; [| discriminate].
  destruct (dict_mem "issue" d) eqn:Ei; [| discriminate].
  destruct (dict_mem "severity" d) eqn:Ev; simpl; intros [= <-].
  - auto.
  - split; [| split].
    + now apply dict_mem_app.
    + now apply dict_mem_app.
    + apply dict_mem_last.
Qed.

Lemma mk_issue_well_formed (section issue_text severity : string)
      (suggestion : option string) (regulation : string) :
  well_formed_issue (mk_issue section issue_text severity suggestion regulation).
Proof. split; [| split]; reflexivity. Qed.

(** One turn of the loop over the sentences: the section it leaves and what
    it adds. *)
Lemma sentence_step_state (section_names : list string) (current : option string)
      (issues : list issue) (x : string) :
  exists current' severity,
    (forall s, current' = Some s -> In s section_names \/ current = Some s)
    /\ known_severity severity
    /\ sentence_step section_names (current, issues) x
       = (current',
          (issues
           ++ if any_in ["missing"; "should"; "required"; "must"; "incorrect"; "issue"]
                        (lower x)
              then [mk_issue (match current' with
                              | Some s => if truthy s then s else "General"
                              | None => "General"
                              end)
                             (strip x) severity None "ADGM Regulations"]
              else [])%list).
Proof.
  unfold sentence_step.
  set (current' := match match_ false discourse_marker (lower x) with
                   | Some _ =>
                       match find (fun section => contains (lower section) (lower x))
                                  section_names with
                       | Some section => Some section
                       | None => current
                       end
                   | None => current
                   end).
  set (severity := if any_in ["critical"; "serious"; "major"; "high"] (lower x) then "High"
                   else if any_in ["minor"; "small"; "low"] (lower x) then "Low"
                   else "Medium").
  exists current', severity. split; [| split].
  - subst current'. intros s.
    destruct (match_ false discourse_marker (lower x)); [| auto].
    destruct (find _ section_names) as [s'|] eqn:Ef; [| auto].
    intros [= <-]. apply find_some in Ef. left. apply Ef.
  - subst severity. unfold known_severity.
    destruct (any_in ["critical"; "serious"; "major"; "high"] (lower x)); [auto|].
    destruct (any_in ["minor"; "small"; "low"] (lower x)); auto.
  - destruct (any_in ["missing"; "should"; "required"; "must"; "incorrect"; "issue"]
                     (lower x)).
    + reflexivity.
    + now rewrite app_nil_r.
Qed.

(** The state of the loop over the sentences: the current section is one
    of the names given, and each issue so far comes from a sentence. *)
Lemma sentence_fold (P : issue -> Prop) (section_names : list string)
      (sentences : list string) (st : option string * list issue) :
  (forall section sentence severity,
      In sentence sentences ->
      known_severity severity ->
      section = "General" \/ (In section section_names /\ section <> "") ->
      P (mk_issue section (strip sentence) severity None "ADGM Regulations")) ->
  (forall s, fst st = Some s -> In s section_names) ->
  Forall P (snd st) ->
  Forall P (snd (fold_left (sentence_step section_names) sentences st)).
Proof.
  revert st. induction sentences as [|x l IH]; intros [current issues] HP Hc Hi.
  - exact Hi.
  - cbn [fold_left].
    destruct (sentence_step_state section_names current issues x)
      as (current' & severity & Hs & Hk & E).
    rewrite E. simpl in Hc, Hi.
    assert (Hc' : forall s, current' = Some s -> In s section_names).
    { intros s Hcs. destruct (Hs s Hcs) as [H | H]; auto. }
    apply IH.
    + intros section sentence sev Hin. apply HP. now right.
    + exact Hc'.
    + cbn [snd]. destruct (any_in _ (lower x)); [| now rewrite app_nil_r].
      apply Forall_app. split; [exact Hi|]. constructor; [| constructor].
      apply HP; [now left | exact Hk |].
      destruct current' as [s|]; [| now left].
      destruct s as [|c s]; [now left|]. right. split; [| discriminate].
      now apply Hc'.
Qed.

Lemma sentence_issues_all (P : issue -> Prop) (rag_response : string)
      (section_names : list string) :
  (forall section sentence severity,
      In sentence (Re.split false sentence_split rag_response) ->
      known_severity severity ->
      section = "General" \/ (In section section_names /\ section <> "") ->
      P (mk_issue section (strip sentence) severity None "ADGM Regulations")) ->
  Forall P (sentence_issues rag_response section_names).
Proof.
  intros HP. unfold sentence_issues. apply sentence_fold.
  - exact HP.
  - discriminate.
  - constructor.
Qed.

Lemma extract_issues_well_formed (self : analyzer) (rag_response doc_type : string)
      (section_names : list string) (issues : list issue) (i : issue) :
  _extract_issues_from_rag self rag_response doc_type section_names = Returned issues ->
  In i issues -> well_formed_issue i.
Proof.
  intros E. apply extract_returned in E. subst issues.
  unfold later_strategies. rewrite json_issues_blocks.
  destruct (block_issues (brace_blocks None rag_response)) as [|j js] eqn:Ej.
  - simpl. destruct (labeled_issues rag_response) as [|k ks] eqn:Ek.
    + simpl. intros Hi.
      pose proof (sentence_issues_all well_formed_issue rag_response section_names) as H.
      rewrite Forall_forall in H. apply H; [| exact Hi].
      intros. apply mk_issue_well_formed.
    + simpl is_empty. cbv iota. rewrite <- Ek. unfold labeled_issues.
      intros Hi. apply in_map_iff in Hi. destruct Hi as (x & <- & _).
      apply mk_issue_well_formed.
  - simpl is_empty. cbv iota. rewrite <- Ej. unfold block_issues.
    intros Hi. apply in_flat_map in Hi. destruct Hi as (b & _ & Hb).
    destruct (accepted b) as [i'|] eqn:Eb; [| destruct Hb].
    destruct Hb as [<- | []]. now apply (accepted_well_formed b).
Qed.

(** X1.  Every issue that the analyzer returns for a document has the keys
    section, issue and severity, whatever the engine answers. *)
Theorem issues_well_formed (self : analyzer) (doc : doc_info) (type_info : doc_type_info)
        (i : issue) :
  In i (analyze_document self doc type_info) -> well_formed_issue i.
Proof.
  unfold analyze_document.
  destruct (negb (truthy (doc_content doc)) || (type type_info =? "Unknown")).
  - intros [<- | []]. split; [| split]; reflexivity.
  - unfold _analyze_with_rag.
    destruct (rag_engine self _) as [r|e].
    + destruct (truthy r).
      * destruct (_extract_issues_from_rag self r (type type_info)
                                           (map title (sections doc)))
          as [[|j js]|e] eqn:E.
        -- intros [<- | []]. split; [| split]; reflexivity.
        -- simpl is_empty. cbv iota. now apply (extract_issues_well_formed _ _ _ _ _ i E).
        -- intros [<- | []]. split; [| split]; reflexivity.
      * intros [<- | []]. split; [| split]; reflexivity.
    + intros [<- | []]. split; [| split]; reflexivity.
Qed.

Lemma issues_well_formed_witness :
  well_formed_issue
    [ ("issue", JStr "No governing law"); ("section", JStr "Clause 4");
      ("severity", JStr "Medium") ].
Proof.
  apply (issues_well_formed
           (init (fun _ => Returned (dq "{'issue': 'No governing law', 'section': 'Clause 4'}")))
           (DocInfo "contract.docx" "This employment contract is made in Abu Dhabi." [])
           (DocTypeInfo "Employment Contract" 0.9 (Some "employment contract") None)).
  vm_compute. left. reflexivity.
Defined.

(** X2.  Each issue of the sentence strategy is built from one sentence of
    the answer: its text is that sentence without the white space around
    it, its severity is High, Medium or Low, its section is General or one
    of the section names given, it has no suggestion and its regulation is
    the fixed text.  There are at most as many issues as sentences. *)
Theorem sentence_issues_shape (rag_response : string) (section_names : list string) :
  Forall (fun i =>
            exists section sentence severity,
              i = [ ("section", JStr section); ("issue", JStr (strip sentence));
                    ("severity", JStr severity); ("suggestion", JNull);
                    ("regulation", JStr "ADGM Regulations") ]
              /\ In sentence (Re.split false sentence_split rag_response)
              /\ known_severity severity
              /\ (section = "General" \/ (In section section_names /\ section <> "")))
         (sentence_issues rag_response section_names)
  /\ (List.length (sentence_issues rag_response section_names)
      <= List.length (Re.split false sentence_split rag_response))%nat.
Proof.
  split.
  - apply sentence_issues_all. intros section sentence severity H1 H2 H3.
    exists section, sentence, severity. auto.
  - unfold sentence_issues.
    assert (H : forall l st,
               (List.length (snd (fold_left (sentence_step section_names) l st))
                <= List.length (snd st) + List.length l)%nat).
    { induction l as [|x l IH]; intros [current issues]; [simpl; lia|].
      cbn [fold_left]. etransitivity; [apply IH|].
      destruct (sentence_step_state section_names current issues x)
        as (current' & severity & _ & _ & E).
      rewrite E. cbn [snd]. rewrite length_app.
      destruct (any_in _ (lower x)); simpl; lia. }
    apply (H _ (None, [])).
Qed.

(** X3.  For a document with content and an identified type, when the
    query of the analysis raises or is answered with the empty text, the
    analyzer returns the one issue that recommends a manual review. *)
Theorem analysis_without_answer (self : analyzer) (doc : doc_info)
        (type_info : doc_type_info) :
  doc_content doc <> "" ->
  type type_info <> "Unknown" ->
  (let q := analysis_query (type type_info) (sample 3000 (doc_content doc))
                           (map title (sections doc)) in
   rag_engine self q = Returned "" \/ exists e, rag_engine self q = Raised e) ->
  analyze_document self doc type_info
  = [ [ ("section", JStr "General");
        ("issue",
         JStr "Document analysis completed but no specific issues were identified. Recommend manual review.");
        ("severity", JStr "Low") ] ].
Proof.
  intros Hc Ht Hq. unfold analyze_document.
  destruct (truthy (doc_content doc)) eqn:Ec.
  2:{ apply truthy_false in Ec. contradiction. }
  destruct (type type_info =? "Unknown") eqn:Et.
  { apply String.eqb_eq in Et. contradiction. }
  simpl. unfold _analyze_with_rag.
  destruct Hq as [Hq | [e Hq]]; rewrite Hq; reflexivity.
Qed.

Lemma analysis_without_answer_witness :
  analyze_document (init (fun _ => Raised "connection refused"))
    (DocInfo "contract.docx" "This employment contract is made in Abu Dhabi." [])
    (DocTypeInfo "Employment Contract" 0.9 (Some "employment contract") None)
  = [ [ ("section", JStr "General");
        ("issue",
         JStr "Document analysis completed but no specific issues were identified. Recommend manual review.");
        ("severity", JStr "Low") ] ].
Proof.
  apply analysis_without_answer.
  - discriminate.
  - discriminate.
  - right. exists "connection refused". reflexivity.
Defined.

(** A query to an engine that lacks one of its handles. *)
Lemma degraded_query (self : engine) (question : string) :
  vectorstore self = None \/ qa_chain self = None \/ llm self = None ->
  query self question = Returned not_initialized.
Proof.
  unfold query. intros [H | [H | H]]; rewrite H.
  - reflexivity.
  - destruct (vectorstore self); reflexivity.
  - destruct (vectorstore self), (qa_chain self); reflexivity.
Qed.

Lemma sentinel_no_issue (self : analyzer) (doc_type : string) (section_names : list string) :
  _extract_issues_from_rag self not_initialized doc_type section_names = Returned [].
Proof.
  rewrite extract_within by (vm_compute; reflexivity).
  vm_compute. reflexivity.
Qed.

(** X4.  With an engine that lacks its vector store, its chain or its
    language model, the analysis of any document with content and an
    identified type yields the one issue that recommends a manual review:
    the text of the degraded engine is never read as an issue. *)
Theorem degraded_engine_manual_review (engine : RAGEngine.engine) (doc : doc_info)
        (type_info : doc_type_info) :
  vectorstore engine = None \/ qa_chain engine = None \/ llm engine = None ->
  doc_content doc <> "" ->
  type type_info <> "Unknown" ->
  analyze_document (init (query engine)) doc type_info = [manual_review_issue].
Proof.
  intros Hd Hc Ht. unfold analyze_document.
  destruct (truthy (doc_content doc)) eqn:Ec.
  2:{ apply truthy_false in Ec. contradiction. }
  destruct (type type_info =? "Unknown") eqn:Et.
  { apply String.eqb_eq in Et. contradiction. }
  simpl. unfold _analyze_with_rag. simpl rag_engine.
  rewrite (degraded_query engine _ Hd).
  change (truthy not_initialized) with true. cbv iota.
  rewrite sentinel_no_issue. reflexivity.
Qed.

Lemma degraded_engine_manual_review_witness :
  analyze_document (init (query (Engine (Some tt) None (Some tt))))
    (DocInfo "articles.docx" "Articles of association of Acme Ltd" [])
    (DocTypeInfo "Articles of Association" 0.9 (Some "articles of association of") None)
  = [manual_review_issue].
Proof.
  apply degraded_engine_manual_review.
  - right. left. reflexivity.
  - discriminate.
  - discriminate.
Defined.

(** X5.  The analysis reads the first 3000 characters of the content only,
    a character of several bytes counting as one: two documents of the
    same type and with the same section titles, both longer than 3000
    characters and equal up to there, get the same issues. *)
Theorem analysis_reads_sample (self : analyzer) (doc doc' : doc_info)
        (type_info : doc_type_info) :
  (3000 < len (doc_content doc))%nat ->
  (3000 < len (doc_content doc'))%nat ->
  take 3000 (doc_content doc) = take 3000 (doc_content doc') ->
  map title (sections doc) = map title (sections doc') ->
  analyze_document self doc type_info = analyze_document self doc' type_info.
Proof.
  intros H1 H2 Ht Hs. unfold analyze_document, _analyze_with_rag, sample.
  assert (T : forall content, (3000 < len content)%nat -> truthy content = true).
  { intros [|c s]; [cbn; lia | reflexivity]. }
  rewrite (T _ H1), (T _ H2).
  apply Nat.ltb_lt in H1, H2. rewrite H1, H2, Ht, Hs.
  reflexivity.
Qed.

Lemma analysis_reads_sample_witness :
  let clause := "All notices under this contract must be given in writing – and dated. " in
  let body := String.concat "" (repeat clause 50) in
  analyze_document (init (fun q => Returned q))
    (DocInfo "contract.docx" (body ++ "The employee works in Abu Dhabi.") [])
    (DocTypeInfo "Employment Contract" 0.9 (Some "employment contract") None)
  = analyze_document (init (fun q => Returned q))
      (DocInfo "contract.docx" (body ++ "The employer may end the contract at will.") [])
      (DocTypeInfo "Employment Contract" 0.9 (Some "employment contract") None).
Proof.
  intros clause body. apply analysis_reads_sample.
  - apply Nat.ltb_lt. vm_compute. reflexivity.
  - apply Nat.ltb_lt. vm_compute. reflexivity.
  - vm_compute. reflexivity.
  - reflexivity.
Defined.

(** The sample is cut by characters: of three letters of two bytes
    each, a sample of three is the whole text and a sample of two is two
    letters. *)
Example sample_counts_characters :
  let text := chr 233 ++ chr 233 ++ chr 233 in
  sample 3 text = text /\ sample 2 text = chr 233 ++ chr 233 ++ "...".
Proof. split; vm_compute; reflexivity. Qed.

End Issues.

(** ** Further properties of the identification of the document type *)

Section Types.
Import PyStr Re Json DocumentTypes RAGEngine DocumentProcessor DocumentAnalyzer Spec Words.





Lemma sentinel_no_type : _extract_doc_type_from_rag not_initialized = None.
Proof. vm_compute. reflexivity. Qed.

(** X7.  With an engine that lacks its vector store, its chain or its
    language model, the type is identified as with an engine that raises:
    by the signature table or by the keyword checks, never with the mark of
    the engine. *)
Theorem degraded_engine_document_type (engine : RAGEngine.engine) (doc : doc_info) :
  vectorstore engine = None \/ qa_chain engine = None \/ llm engine = None ->
  identify_document_type (init (query engine)) doc
  = identify_document_type (init (fun _ => Raised "unavailable")) doc
  /\ rag_identification (identify_document_type (init (query engine)) doc) = None.
Proof.
  intros Hd.
  assert (E : forall content, rag_type (init (query engine)) content = None).
  { intros content. unfold rag_type. cbn [rag_engine init].
    rewrite (degraded_query engine _ Hd). apply sentinel_no_type. }
  unfold identify_document_type. cbn [document_signatures init].
  destruct (negb (truthy (doc_content doc))); [split; reflexivity|].
  destruct (find _ DOCUMENT_SIGNATURES) as [[signature doc_type]|]; [split; reflexivity|].
  rewrite E. unfold rag_type. cbn [rag_engine init].
  destruct (keyword_type _ _); split; reflexivity.
Qed.

Lemma degraded_engine_document_type_witness :
  rag_identification
    (identify_document_type (init (query (Engine None None None)))
       (DocInfo "notes.docx" "Minutes of the annual general meeting" []))
  = None.
Proof.
  apply (degraded_engine_document_type (Engine None None None)).
  left. reflexivity.
Defined.

End Types.

(** ** Further properties of the checklist verifier *)

Section Process.
Import PyStr PyFloat Re Json RAGEngine ChecklistVerifier Checklist Spec Words.

Lemma prefix_refl (s : string) : prefix s s = true.
Proof.
  induction s as [|c s IH]; [reflexivity|]. cbn [prefix].
  destruct (ascii_dec c c); [exact IH | congruence].
Qed.

Lemma contains_refl (s : string) : contains s s = true.
Proof.
  destruct s as [|c s]; [reflexivity|]. cbn [contains].
  now rewrite prefix_refl.
Qed.

Lemma found_among_existsb (document_types : list string) (req_doc : string) :
  found_among document_types req_doc = existsb (names_match req_doc) document_types.
Proof.
  induction document_types as [|t l IH]; [reflexivity|]. cbn [found_among existsb].
  unfold names_match at 1.
  destruct (contains (lower req_doc) (lower t) || contains (lower t) (lower req_doc));
    [reflexivity | exact IH].
Qed.

Lemma fold_keep {A : Type} (p : A -> bool) (l acc : list A) :
  fold_left (fun kept x => if p x then (kept ++ [x])%list else kept) l acc
  = (acc ++ filter p l)%list.
Proof.
  revert acc. induction l as [|a l IH]; intros acc; simpl.
  - now rewrite app_nil_r.
  - rewrite IH. destruct (p a); [| reflexivity]. now rewrite <- app_assoc.
Qed.

Lemma check_missing_filter (document_types : list string) (process_info : identified) :
  check_missing_documents document_types (Some process_info)
  = if process (info process_info) =? "Unknown" then []
    else filter (fun req => negb (existsb (names_match req) document_types))
                (required_of process_info).
Proof.
  unfold check_missing_documents, required_of.
  destruct (process (info process_info) =? "Unknown"); [reflexivity|].
  rewrite (fold_keep (fun req => negb (found_among document_types req))). simpl.
  apply filter_ext. intros req. now rewrite found_among_existsb.
Qed.



Lemma filter_length_weaker {A : Type} (p q : A -> bool) (l : list A) :
  (forall x, p x = true -> q x = true) ->
  (List.length (filter p l) <= List.length (filter q l))%nat.
Proof.
  intros H. induction l as [|a l IH]; simpl; [lia|].
  destruct (p a) eqn:Ep.
  - rewrite (H a Ep). simpl. lia.
  - destruct (q a); simpl; lia.
Qed.

(** X9.  Submitting more document types never adds a missing document: what
    is missing for the larger submission is missing for the smaller one,
    and is not longer. *)
Theorem missing_documents_monotone (document_types document_types' : list string)
        (process_info : option identified) :
  incl document_types document_types' ->
  incl (check_missing_documents document_types' process_info)
       (check_missing_documents document_types process_info)
  /\ (List.length (check_missing_documents document_types' process_info)
      <= List.length (check_missing_documents document_types process_info))%nat.
Proof.
  intros Hincl. destruct process_info as [pi|]; [| split; [intros ? [] | reflexivity]].
  rewrite !check_missing_filter.
  destruct (process (info pi) =? "Unknown"); [split; [intros ? [] | reflexivity]|].
  assert (H : forall req,
             negb (existsb (names_match req) document_types') = true ->
             negb (existsb (names_match req) document_types) = true).
  { intros req H. apply negb_true_iff in H. apply negb_true_iff.
    destruct (existsb (names_match req) document_types) eqn:E; [| reflexivity].
    apply existsb_exists in E. destruct E as (t & Ht & Hm).
    rewrite <- H. symmetry. apply existsb_exists. exists t. split; [now apply Hincl | exact Hm]. }
  split.
  - intros d Hd. apply filter_In in Hd. apply filter_In. destruct Hd as [Hin Hd]. auto.
  - now apply filter_length_weaker.
Qed.

Lemma missing_documents_monotone_witness :
  let process_info :=
    Some (Identified (ProcessInfo "Annual Compliance" 0.5
                        (Some ["Annual Accounts"; "Board Resolution"]) (Some [])) None) in
  (List.length (check_missing_documents ["Annual Accounts"; "Board Resolution"] process_info)
   <= List.length (check_missing_documents ["Board Resolution"] process_info))%nat.
Proof.
  intros process_info.
  apply (missing_documents_monotone ["Board Resolution"]
                                    ["Annual Accounts"; "Board Resolution"] process_info).
  intros t [<- | []]. right. left. reflexivity.
Defined.

(** X10.  When every required document is among the submitted document
    types under its own name, nothing is missing. *)
Theorem nothing_missing_when_all_submitted (document_types : list string)
        (process_info : identified) :
  incl (required_of process_info) document_types ->
  check_missing_documents document_types (Some process_info) = [].
Proof.
  intros Hincl. rewrite check_missing_filter.
  destruct (process (info process_info) =? "Unknown"); [reflexivity|].
  induction (required_of process_info) as [|req l IH]; [reflexivity|]. simpl.
  assert (E : existsb (names_match req) document_types = true).
  { apply existsb_exists. exists req. split; [apply Hincl; now left|].
    unfold names_match. now rewrite contains_refl. }
  rewrite E. simpl. apply IH. intros d Hd. apply Hincl. now right.
Qed.

Lemma nothing_missing_when_all_submitted_witness :
  check_missing_documents ["Board Resolution"; "Annual Accounts"; "Checklist"]
    (Some (Identified (ProcessInfo "Annual Compliance" 0.7
                         (Some ["Annual Accounts"; "Board Resolution"]) (Some [])) None))
  = [].
Proof.
  apply nothing_missing_when_all_submitted.
  intros d [<- | [<- | []]]; simpl; tauto.
Defined.

(** *** The confidence *)

Lemma ratio_nonneg (a b : nat) : (0 <= ratio a b)%Q.
Proof.
  unfold ratio, Qdiv. apply Qmult_le_0_compat.
  - unfold Qle. simpl. lia.
  - apply Qinv_le_0_compat. unfold Qle. simpl. lia.
Qed.

Lemma ratio_pos (a b : nat) : (0 < a)%nat -> (0 < b)%nat -> (0 < ratio a b)%Q.
Proof.
  intros Ha Hb. unfold ratio, Qdiv. apply Qmult_lt_0_compat.
  - unfold Qlt. simpl. lia.
  - apply Qinv_lt_0_compat. unfold Qlt. simpl. lia.
Qed.

(** The integer nearest to a quotient of at least one is positive. *)
Lemma nearest_pos (num den : Z) : (0 < den <= num)%Z -> (0 < nearest num den)%Z.
Proof.
  intros [Hd Hn]. unfold nearest.
  assert (Hq : (1 <= num / den)%Z) by (apply Z.div_le_lower_bound; lia).
  destruct (2 * (num mod den) <? den)%Z; [lia|].
  destruct (den <? 2 * (num mod den))%Z; [lia|].
  destruct (Z.even (num / den)); lia.
Qed.

(** The float nearest to a positive rational is positive. *)
Lemma double_pos_positive (a b : Z) : (0 < a)%Z -> (0 < b)%Z -> (0 < double_pos a b)%Q.
Proof.
  intros Ha Hb. unfold double_pos.
  destruct (Z.log2_spec a Ha) as [La Ua]. destruct (Z.log2_spec b Hb) as [Lb Ub].
  pose proof (Z.log2_nonneg a) as Na. pose proof (Z.log2_nonneg b) as Nb.
  set (e0 := (Z.log2 a - Z.log2 b - 52)%Z) in *.
  assert (Hnd : (0 < snd (if (0 <=? e0)%Z then (a, (b * 2 ^ e0)%Z)
                          else ((a * 2 ^ (- e0))%Z, b))
                 <= fst (if (0 <=? e0)%Z then (a, (b * 2 ^ e0)%Z)
                         else ((a * 2 ^ (- e0))%Z, b)))%Z).
  { destruct (0 <=? e0)%Z eqn:E; cbn [fst snd].
    - apply Z.leb_le in E.
      assert (P : (0 < 2 ^ e0)%Z) by (apply Z.pow_pos_nonneg; lia).
      split; [nia|].
      assert (H1 : (b * 2 ^ e0 <= 2 ^ Z.succ (Z.log2 b) * 2 ^ e0)%Z) by nia.
      rewrite <- Z.pow_add_r in H1 by lia.
      assert (H2 : (2 ^ (Z.succ (Z.log2 b) + e0) <= 2 ^ Z.log2 a)%Z)
        by (apply Z.pow_le_mono_r; lia).
      lia.
    - apply Z.leb_gt in E. split; [lia|].
      assert (P : (0 < 2 ^ (- e0))%Z) by (apply Z.pow_pos_nonneg; lia).
      assert (H1 : (2 ^ Z.log2 a * 2 ^ (- e0) <= a * 2 ^ (- e0))%Z) by nia.
      rewrite <- Z.pow_add_r in H1 by lia.
      assert (H2 : (2 ^ Z.succ (Z.log2 b) <= 2 ^ (Z.log2 a + - e0))%Z)
        by (apply Z.pow_le_mono_r; lia).
      lia. }
  destruct (if (0 <=? e0)%Z then (a, (b * 2 ^ e0)%Z) else ((a * 2 ^ (- e0))%Z, b))
    as [num den]. cbn [fst snd] in Hnd.
  assert (Hm : (0 < nearest (fst (if (num / den <? 2 ^ 52)%Z
                                  then ((2 * num)%Z, (e0 - 1)%Z) else (num, e0))) den)%Z).
  { destruct (num / den <? 2 ^ 52)%Z; cbn [fst]; apply nearest_pos; lia. }
  destruct (if (num / den <? 2 ^ 52)%Z then ((2 * num)%Z, (e0 - 1)%Z) else (num, e0))
    as [num' e]. cbn [fst] in Hm.
  destruct (0 <=? e)%Z eqn:E.
  - apply Z.leb_le in E.
    assert (P : (0 < 2 ^ e)%Z) by (apply Z.pow_pos_nonneg; lia).
    unfold Qlt, inject_Z. cbn [Qnum Qden]. nia.
  - unfold Qlt. cbn [Qnum Qden]. lia.
Qed.

Lemma double_positive (q : Q) : (0 < q)%Q -> (0 < double q)%Q.
Proof.
  destruct q as [n d]. unfold Qlt, double. cbn [Qnum Qden]. intros H.
  destruct n as [|a|a]; try lia.
  apply double_pos_positive; lia.
Qed.

Lemma double_nonneg (q : Q) : (0 <= q)%Q -> (0 <= double q)%Q.
Proof.
  intros H. unfold double. destruct q as [n d]. cbn [Qnum Qden].
  destruct n as [|a|a].
  - apply Qle_refl.
  - apply Qlt_le_weak, double_pos_positive; lia.
  - unfold Qle in H. simpl in H. lia.
Qed.

(** The confidence with its bonus is positive and at most 0.9. *)
Lemma bonus_bounds (c : Q) : (0 <= c)%Q -> (0 < Qmin 0.9 (float_add c 0.3) <= 0.9)%Q.
Proof.
  intros Hc. split.
  - apply Q.min_glb_lt; [reflexivity|].
    unfold float_add. apply double_positive.
    apply (Qlt_le_trans _ (0 + double 0.3)).
    + rewrite Qplus_0_l. now apply double_positive.
    + apply Qplus_le_compat; [exact Hc | apply Qle_refl].
  - apply Q.le_min_l.
Qed.

Lemma processes_known (p : string) : In p processes -> p <> "Unknown".
Proof.
  intros Hin ->. simpl in Hin.
  repeat (destruct Hin as [Hin | Hin]; [discriminate|]). destruct Hin.
Qed.


(** What is read from an answer of the engine. *)
Lemma rag_process_info_cases (response : string) (document_types : list string) :
  (_extract_process_info_from_rag response document_types = None
   <-> response = "" \/ forall p, In p processes -> ~ mentions p response)
  /\ forall r,
       _extract_process_info_from_rag response document_types = Some r ->
       let items :=
         flat_map section_items (findall_group true required_docs_pattern response) in
       (exists earlier later,
           processes = (earlier ++ process (info r) :: later)%list
           /\ mentions (process (info r)) response
           /\ forall q, In q earlier -> ~ mentions q response)
       /\ required_docs (info r)
          = Some (match items with
                  | [] => default_required_docs (process (info r))
                  | _ => items
                  end)
       /\ (0 < confidence (info r) <= 0.9)%Q
       /\ (required_docs (info r) = Some [] -> (confidence (info r) == double 0.8)%Q)
       /\ optional_docs (info r) = Some []
       /\ rag_response r = Some response.
Proof.
  unfold _extract_process_info_from_rag. split.
  - destruct response as [|c s]; [split; auto|]. cbn [truthy negb].
    destruct (find _ processes) as [p|] eqn:Ef.
    + split; [discriminate|]. intros [H | H]; [discriminate|].
      apply find_some in Ef. destruct Ef as [Hin Hm]. now apply H in Hin.
    + split; [| reflexivity]. intros _. right. intros p Hin Hm.
      apply (List.find_none _ _ Ef) in Hin. unfold mentions in Hm. congruence.
  - intros r. destruct (negb (truthy response)); [discriminate|].
    destruct (find _ processes) as [p|] eqn:Ef; [| discriminate].
    intros Hr. cbv zeta.
    set (items := flat_map section_items
                           (findall_group true required_docs_pattern response)) in *.
    set (docs := match items with [] => default_required_docs p | _ :: _ => items end)
      in *.
    injection Hr as <-.
    cbn [info process confidence required_docs optional_docs rag_response].
    split; [| split; [reflexivity | split; [| split; [| split; reflexivity]]]].
    + apply find_first in Ef. destruct Ef as (earlier & later & E & Hm & He).
      exists earlier, later. repeat split; [exact E | exact Hm |].
      intros q Hq Hmq. apply He in Hq. unfold mentions in Hmq. congruence.
    + apply bonus_bounds. destruct docs.
      * unfold Qle. simpl. lia.
      * unfold true_div. apply double_nonneg, ratio_nonneg.
    + intros [= ->]. vm_compute. reflexivity.
Qed.



(** The confidence is computed in floats: three of five required
    documents give 0.6 + 0.3, which is the float below 0.9 and not 0.9;
    one of two gives the float 0.8. *)
Example confidence_in_floats :
  (Qmin 0.9 (float_add (true_div 3 5) 0.3) == 8106479329266892 # 9007199254740992)%Q
  /\ (Qmin 0.9 (float_add (true_div 3 5) 0.3) < 0.9)%Q
  /\ (Qmin 0.9 (float_add (true_div 1 2) 0.3) == double 0.8)%Q
  /\ (Qmin 0.9 (float_add (true_div 2 3) 0.3) == 0.9)%Q.
Proof. repeat split; vm_compute; reflexivity. Qed.

(** *** The identification of the process *)

Lemma score_le (indicators document_types : list string) :
  (score_process indicators document_types <= List.length document_types)%nat.
Proof.
  unfold score_process. rewrite fold_count. simpl. apply filter_length_le.
Qed.

(** The fallback: Unknown, or a process of the table with a positive
    confidence of at most 0.7 and its required documents. *)
Lemma fallback_cases (document_types : list string) :
  _fallback_process_identification document_types = unknown_process
  \/ exists p c,
       _fallback_process_identification document_types
       = ProcessInfo p c (Some (lookup_docs p required_docs_table)) (Some [])
       /\ In p processes /\ (0 < c <= 0.7)%Q.
Proof.
  unfold _fallback_process_identification.
  set (scores := map (fun pi => (fst pi, score_process (snd pi) document_types))
                     process_indicators).
  assert (Hs : forall x, In x scores ->
                 In (fst x) processes /\ (snd x <= List.length document_types)%nat).
  { intros x Hx. subst scores. apply in_map_iff in Hx. destruct Hx as (pi & <- & Hpi).
    split; [| apply score_le]. cbn [fst].
    change processes with (map fst process_indicators). now apply in_map. }
  destruct scores as [|first others] eqn:E; [now left|].
  pose proof (max_by_score_in others first) as Hin.
  destruct (snd (max_by_score first others) =? 0)%nat eqn:E0; [now left|].
  right. eexists _, _. split; [reflexivity|].
  apply Nat.eqb_neq in E0. destruct (Hs _ Hin) as [Hp Hle]. split; [exact Hp|]. split.
  - apply Q.min_glb_lt; [reflexivity|]. apply ratio_pos; lia.
  - apply Q.le_min_l.
Qed.

(** What the identification returns: Unknown, or one of the six processes
    with a positive confidence and a list of required documents. *)
Lemma identify_process_cases (rag_engine : string -> outcome string)
      (document_types : list string) :
  let r := info (identify_process rag_engine document_types) in
  r = unknown_process
  \/ In (process r) processes /\ (0 < confidence r <= 0.9)%Q /\ required_docs r <> None.
Proof.
  assert (Hf : forall types,
             _fallback_process_identification types = unknown_process
             \/ In (process (_fallback_process_identification types)) processes
                /\ (0 < confidence (_fallback_process_identification types) <= 0.9)%Q
                /\ required_docs (_fallback_process_identification types) <> None).
  { intros types. destruct (fallback_cases types) as [E | (p & c & E & Hp & Hc1 & Hc2)];
      [now left | right]. rewrite E. simpl. repeat split; try assumption; try discriminate.
    apply (Qle_trans _ 0.7); [exact Hc2|]. unfold Qle. simpl. lia. }
  cbv zeta. unfold identify_process. destruct document_types as [|t l]; [now left|].
  destruct (rag_engine _) as [response|e]; [| apply Hf].
  destruct (_extract_process_info_from_rag response (t :: l)) as [pi|] eqn:E; [| apply Hf].
  destruct (negb (process (info pi) =? "Unknown")); [| apply Hf].
  right. destruct (proj2 (rag_process_info_cases response (t :: l)) pi E)
    as ((earlier & later & Ep & _) & Ed & [Hc1 Hc2] & _).
  split; [| split; [split |]].
  - rewrite Ep. apply in_or_app. right. now left.
  - exact Hc1.
  - exact Hc2.
  - rewrite Ed. discriminate.
Qed.

(** X12.  Whatever the engine does, the identified process is Unknown or
    one of the six processes, its confidence lies between 0 and 0.9, the
    process is Unknown exactly when the confidence is 0, and exactly then
    there is no list of required documents. *)
Theorem identify_process_invariants (rag_engine : string -> outcome string)
        (document_types : list string) :
  let r := info (identify_process rag_engine document_types) in
  (process r = "Unknown" \/ In (process r) processes)
  /\ (0 <= confidence r <= 0.9)%Q
  /\ (process r = "Unknown" <-> (confidence r == 0)%Q)
  /\ (process r = "Unknown" <-> required_docs r = None).
Proof.
  intros r.
  destruct (identify_process_cases rag_engine document_types) as [H | (Hp & [Hc1 Hc2] & Hd)];
    fold r in H || fold r in Hp, Hc1, Hc2, Hd.
  - rewrite H. simpl. repeat split; auto; try reflexivity.
    + unfold Qle. simpl. lia.
    + unfold Qle. simpl. lia.
  - pose proof (processes_known _ Hp) as Hu. repeat split; auto.
    + now apply Qlt_le_weak.
    + intros E. contradiction.
    + intros E. rewrite E in Hc1. now apply Qlt_irrefl in Hc1.
    + intros E. contradiction.
    + intros E. contradiction.
Qed.

Lemma sentinel_no_process (p : string) : In p processes -> ~ mentions p not_initialized.
Proof.
  intros Hin Hm.
  assert (H : forallb (fun p => negb (contains (lower p) (lower not_initialized))) processes
              = true) by (vm_compute; reflexivity).
  rewrite forallb_forall in H. specialize (H p Hin). unfold mentions in Hm.
  rewrite Hm in H. discriminate.
Qed.

Lemma fallback_of_nothing : _fallback_process_identification [] = unknown_process.
Proof. vm_compute. reflexivity. Qed.

(** X13.  When the query of the engine raises, or its answer is empty or
    mentions none of the six processes, the process is the one of the
    keyword fallback and no answer of the engine is kept. *)
Theorem identify_process_falls_back (rag_engine : string -> outcome string)
        (document_types : list string) :
  (exists e, rag_engine (process_query document_types) = Raised e)
  \/ (exists response,
         rag_engine (process_query document_types) = Returned response
         /\ (response = "" \/ forall p, In p processes -> ~ mentions p response)) ->
  identify_process rag_engine document_types
  = Identified (_fallback_process_identification document_types) None.
Proof.
  intros H. unfold identify_process.
  destruct document_types as [|t l]; [now rewrite fallback_of_nothing|].
  destruct H as [[e H] | (response & H & Hr)]; rewrite H; [reflexivity|].
  rewrite (proj2 (proj1 (rag_process_info_cases response (t :: l))) Hr). reflexivity.
Qed.

Lemma identify_process_falls_back_witness :
  identify_process (fun _ => Returned "I cannot tell which process this is.")
                   ["Board Resolution"; "Annual Accounts"]
  = Identified (_fallback_process_identification ["Board Resolution"; "Annual Accounts"])
               None.
Proof.
  apply identify_process_falls_back. right.
  exists "I cannot tell which process this is.". split; [reflexivity|].
  right. intros p Hin Hm.
  assert (H : forallb (fun p => negb (contains (lower p)
                                        (lower "I cannot tell which process this is.")))
                      processes = true) by (vm_compute; reflexivity).
  rewrite forallb_forall in H. specialize (H p Hin). unfold mentions in Hm.
  rewrite Hm in H. discriminate.
Defined.

End Process.

(** ** The description of the process and the summary *)

Section Summary.
Import PyStr Re Json RAGEngine ChecklistVerifier Checklist Spec Words.

Lemma forall_chars_app (p : ascii -> bool) (s t : string) :
  forall_chars p (s ++ t) = forall_chars p s && forall_chars p t.
Proof.
  induction s as [|c s IH]; simpl; [reflexivity|]. rewrite IH. apply andb_assoc.
Qed.

(** The first part of a text split at the periods has no period. *)
Lemma split_first_part (s cur : string) :
  forall_chars (other_than ".") cur = true ->
  exists x rest,
    split_char_aux "." cur s = x :: rest /\ forall_chars (other_than ".") x = true.
Proof.
  revert cur. induction s as [|c s IH]; intros cur Hcur; simpl.
  - eauto.
  - destruct (Ascii.eqb c ".") eqn:E; [eauto|].
    apply IH. rewrite forall_chars_app, Hcur. simpl. unfold other_than. now rewrite E.
Qed.

(** The characters of a text, put together, are the text. *)
Lemma unchars_chars (s : string) : unchars (chars s) = s.
Proof.
  unfold unchars. induction s as [|c s IH]; [reflexivity|].
  cbn [chars]. destruct s as [|d s']; [reflexivity|].
  destruct (is_continuation d).
  - destruct (chars (String d s')) as [|ch l]; [discriminate IH|].
    cbn [fold_right append] in *. now rewrite IH.
  - cbn [fold_right append]. now rewrite IH.
Qed.

Lemma forall_chars_unchars (p : ascii -> bool) (l : list string) :
  Forall (fun ch => forall_chars p ch = true) l -> forall_chars p (unchars l) = true.
Proof.
  unfold unchars. induction 1 as [|ch l Hch _ IH]; [reflexivity|].
  cbn [fold_right]. rewrite forall_chars_app, Hch. exact IH.
Qed.

Lemma chars_forall (p : ascii -> bool) (s : string) :
  forall_chars p s = true -> Forall (fun ch => forall_chars p ch = true) (chars s).
Proof.
  rewrite <- (unchars_chars s) at 1. generalize (chars s) as l. unfold unchars.
  induction l as [|ch l IH]; [constructor|].
  cbn [fold_right]. rewrite forall_chars_app. intros H.
  apply andb_true_iff in H. destruct H as [H1 H2]. constructor; auto.
Qed.

Lemma drop_spaces_forall (P : string -> Prop) (l : list string) :
  Forall P l -> Forall P (drop_spaces l).
Proof.
  induction 1 as [|ch l Hch Hl IH]; [constructor|].
  cbn [drop_spaces]. destruct (is_space ch); [exact IH | now constructor].
Qed.

(** What holds of every byte of a text holds of every byte of the text
    without the white space around it. *)
Lemma strip_chars (p : ascii -> bool) (s : string) :
  forall_chars p s = true -> forall_chars p (strip s) = true.
Proof.
  intros H. unfold strip. apply forall_chars_unchars.
  apply Forall_rev, drop_spaces_forall, Forall_rev, drop_spaces_forall.
  now apply chars_forall.
Qed.

(** A text of characters other than [x] does not contain [x]. *)
Lemma other_than_contains (x : ascii) (s : string) :
  forall_chars (other_than x) s = true -> contains (String x "") s = false.
Proof.
  induction s as [|c s IH]; [reflexivity|]. cbn [forall_chars contains prefix].
  intros H. apply andb_true_iff in H. destruct H as [Hc Hs].
  rewrite (IH Hs), orb_false_r.
  destruct (ascii_dec x c) as [<- | _]; [| reflexivity].
  unfold other_than in Hc. now rewrite Ascii.eqb_refl in Hc.
Qed.

Lemma description_of_in (process_name : string) (table : list (string * string)) :
  In (description_of process_name table) ("ADGM regulatory process." :: map snd table).
Proof.
  induction table as [|[k v] table IH]; simpl; [now left|].
  destruct (process_name =? k); [right; now left|].
  destruct IH as [IH | IH]; [now left | right; now right].
Qed.

(** X14.  The description of a process is one sentence: a text without a
    period, followed by a period, whether it is the beginning of the answer
    of the engine or a description of the table. *)
Theorem process_description_sentence (rag_engine : string -> outcome string)
        (process_name : string) :
  exists body,
    _get_process_description rag_engine process_name = body ++ "."
    /\ contains "." body = false.
Proof.
  assert (Ht : exists body,
             description_of process_name descriptions = body ++ "."
             /\ contains "." body = false).
  { pose proof (description_of_in process_name descriptions) as Hin.
    assert (H : forallb (fun d => let body := substring 0 (String.length d - 1) d in
                                  String.eqb d (body ++ ".") && negb (contains "." body))
                        ("ADGM regulatory process." :: map snd descriptions) = true)
      by (vm_compute; reflexivity).
    rewrite forallb_forall in H. specialize (H _ Hin). cbv zeta in H.
    apply andb_true_iff in H. destruct H as [H1 H2].
    apply String.eqb_eq in H1. apply negb_true_iff in H2. eauto. }
  unfold _get_process_description.
  destruct (rag_engine _) as [response|e]; [| exact Ht].
  destruct (truthy response); [| exact Ht].
  exists (strip (first_sentence response)). split; [reflexivity|].
  apply (other_than_contains "."). apply strip_chars.
  unfold first_sentence.
  destruct (split_first_part response "" eq_refl) as (x & rest & E & Hx).
  now rewrite E.
Qed.

(** X15.  With an engine that lacks its vector store, its chain or its
    language model, the process is the one of the keyword fallback, and
    the description of every process is the first sentence of the text of
    the degraded engine: the table of descriptions is not used. *)
Theorem degraded_engine_checklist (engine : RAGEngine.engine)
        (document_types : list string) (process_name : string) :
  vectorstore engine = None \/ qa_chain engine = None \/ llm engine = None ->
  identify_process (query engine) document_types
  = Identified (_fallback_process_identification document_types) None
  /\ _get_process_description (query engine) process_name
     = "RAG system not fully initialized.".
Proof.
  intros Hd. split.
  - unfold identify_process.
    destruct document_types as [|t l]; [now rewrite fallback_of_nothing|].
    rewrite (degraded_query engine _ Hd).
    assert (E : _extract_process_info_from_rag not_initialized (t :: l) = None).
    { apply (rag_process_info_cases not_initialized (t :: l)). right.
      apply sentinel_no_process. }
    rewrite E. reflexivity.
  - unfold _get_process_description. rewrite (degraded_query engine _ Hd).
    vm_compute. reflexivity.
Qed.

Lemma degraded_engine_checklist_witness :
  identify_process (query (Engine None (Some (fun _ => Raised "no store")) (Some tt)))
                   ["Employment Contract"]
  = Identified (_fallback_process_identification ["Employment Contract"]) None
  /\ _get_process_description
       (query (Engine None (Some (fun _ => Raised "no store")) (Some tt)))
       "Employment Setup"
     = "RAG system not fully initialized.".
Proof.
  apply degraded_engine_checklist. left. reflexivity.
Defined.

Lemma count_severity_none (severity : string) (issues_found : list dict) :
  count_severity severity issues_found = 0%Z
  <-> forall i, In i issues_found -> has_severity severity i = false.
Proof.
  unfold count_severity. induction issues_found as [|i l IH]; simpl.
  - split; [intros _ ? [] | reflexivity].
  - destruct (has_severity severity i) eqn:E; simpl List.length.
    + split; [lia|]. intros H. specialize (H i (or_introl eq_refl)). congruence.
    + rewrite IH. split.
      * intros H j [<- | Hj]; auto.
      * intros H j Hj. apply H. now right.
Qed.

(** X16.  The score is 100 exactly when no document is missing and no
    issue has the severity High, Medium or Low. *)
Theorem full_compliance (document_types missing_docs : list string)
        (issues_found : list dict) :
  _calculate_compliance_percentage document_types missing_docs issues_found = 100%Z
  <-> missing_docs = []
      /\ forall i, In i issues_found ->
           has_severity "High" i = false
           /\ has_severity "Medium" i = false
           /\ has_severity "Low" i = false.
Proof.
  unfold _calculate_compliance_percentage. rewrite raw_compliance_formula.
  pose proof (count_severity_nonneg "High" issues_found) as Hh.
  pose proof (count_severity_nonneg "Medium" issues_found) as Hm.
  pose proof (count_severity_nonneg "Low" issues_found) as Hl.
  pose proof (count_severity_none "High" issues_found) as Eh.
  pose proof (count_severity_none "Medium" issues_found) as Em.
  pose proof (count_severity_none "Low" issues_found) as El.
  split.
  - intros H.
    assert (H0 : List.length missing_docs = 0%nat
                 /\ count_severity "High" issues_found = 0%Z
                 /\ count_severity "Medium" issues_found = 0%Z
                 /\ count_severity "Low" issues_found = 0%Z) by lia.
    destruct H0 as (H1 & H2 & H3 & H4). split.
    + now destruct missing_docs.
    + intros i Hi. repeat split; [apply Eh | apply Em | apply El]; auto.
  - intros [-> H].
    assert (H2 : count_severity "High" issues_found = 0%Z)
      by (apply Eh; intros i Hi; apply (H i Hi)).
    assert (H3 : count_severity "Medium" issues_found = 0%Z)
      by (apply Em; intros i Hi; apply (H i Hi)).
    assert (H4 : count_severity "Low" issues_found = 0%Z)
      by (apply El; intros i Hi; apply (H i Hi)).
    rewrite H2, H3, H4. reflexivity.
Qed.

(** X17.  The summary is consistent.  The missing documents are absent and
    not an empty list when nothing is missing, and are not more than the
    required ones; the critical issues are not more than the issues; the
    compliance lies between 0 and 100 and is at most 100 less 15 for each
    missing document and 5 for each critical issue, or 0; for the process
    Unknown nothing is required and nothing is missing; an empty
    submission gives the process Unknown. *)
Theorem summary_consistent (rag_engine : string -> outcome string)
        (document_types : list string) (issues_found : list dict) :
  let s := generate_process_summary rag_engine document_types issues_found in
  let missing := match missing_documents s with Some l => l | None => [] end in
  missing_documents s <> Some []
  /\ (List.length missing <= required_documents s)%nat
  /\ (0 <= critical_issues_count s <= Z.of_nat (issues_count s))%Z
  /\ (0 <= compliance_percentage s <= 100)%Z
  /\ (compliance_percentage s
      <= Z.max 0 (100 - 15 * Z.of_nat (List.length missing) - 5 * critical_issues_count s))%Z
  /\ (summary_process s = "Unknown" ->
      missing_documents s = None /\ required_documents s = 0%nat)
  /\ (document_types = [] -> summary_process s = "Unknown").
Proof.
  intros s missing.
  set (pi := identify_process rag_engine document_types).
  set (missing_docs := check_missing_documents document_types (Some pi)).
  assert (Em : missing = missing_docs).
  { subst missing s. unfold generate_process_summary. cbn [missing_documents].
    fold pi. fold missing_docs. now destruct missing_docs. }
  assert (Hlen : (List.length missing_docs <= List.length (required_of pi))%nat).
  { subst missing_docs. rewrite check_missing_filter.
    destruct (process (info pi) =? "Unknown"); [simpl; lia | apply filter_length_le]. }
  rewrite Em. subst s. unfold generate_process_summary.
  cbn [missing_documents required_documents critical_issues_count issues_count
       compliance_percentage summary_process].
  fold pi. fold missing_docs. fold (required_of pi).
  split; [| split; [| split; [| split; [| split; [| split]]]]].
  - destruct missing_docs; discriminate.
  - exact Hlen.
  - unfold count_severity. pose proof (filter_length_le (has_severity "High") issues_found).
    lia.
  - apply clamp_bounds.
  - unfold _calculate_compliance_percentage. rewrite raw_compliance_formula.
    pose proof (count_severity_nonneg "Medium" issues_found).
    pose proof (count_severity_nonneg "Low" issues_found). lia.
  - intros Hu.
    destruct (identify_process_cases rag_engine document_types) as [H | (Hp & _)].
    + fold pi in H. subst missing_docs. rewrite check_missing_filter.
      unfold required_of. rewrite H. split; reflexivity.
    + fold pi in Hp. apply processes_known in Hp. contradiction.
  - intros ->. reflexivity.
Qed.

Lemma summary_consistent_witness :
  summary_process (generate_process_summary (fun _ => Raised "offline") [] []) = "Unknown"
  /\ missing_documents (generate_process_summary (fun _ => Raised "offline") [] []) = None.
Proof.
  pose proof (summary_consistent (fun _ => Raised "offline") [] []) as H. cbv zeta in H.
  destruct H as (_ & _ & _ & _ & _ & H1 & H2).
  split; [apply H2; reflexivity | apply H1, H2; reflexivity].
Defined.

End Summary.

(** ** Further properties of the document processor *)

Section Processing.
Import PyStr PyMore DocumentProcessor Processing Spec Words.

Lemma append_nil_r (s : string) : s ++ "" = s.
Proof. induction s as [|c s IH]; simpl; [reflexivity | now rewrite IH]. Qed.

Lemma endswith_suffix (suffix s : string) :
  endswith suffix s = true <-> exists stem, s = stem ++ suffix.
Proof.
  split.
  - induction s as [|c s IH]; cbn [endswith]; intros H; apply orb_true_iff in H.
    + destruct H as [H | H]; [| discriminate]. apply String.eqb_eq in H. now exists "".
    + destruct H as [H | H].
      * apply String.eqb_eq in H. now exists "".
      * destruct (IH H) as [stem ->]. now exists (String c stem).
  - intros [stem ->]. induction stem as [|c stem IH].
    + simpl append. destruct suffix; cbn [endswith]; now rewrite String.eqb_refl.
    + change (String c stem ++ suffix) with (String c (stem ++ suffix)).
      cbn [endswith]. rewrite IH. apply orb_true_r.
Qed.

Lemma lower_append (a b : string) : lower (a ++ b) = lower a ++ lower b.
Proof. induction a as [|c a IH]; simpl; [reflexivity | now rewrite IH]. Qed.

Lemma lower_split (s a b : string) :
  lower s = a ++ b -> exists x y, s = x ++ y /\ lower x = a /\ lower y = b.
Proof.
  revert s. induction a as [|c a IH]; intros s H.
  - exists "", s. auto.
  - destruct s as [|d s]; [discriminate|]. simpl in H. injection H as Hc Hs.
    destruct (IH s Hs) as (x & y & -> & Hx & Hy).
    exists (String d x), y. simpl. now rewrite Hc, Hx.
Qed.

(** The extension is the one of a Word document, in any letter case. *)
Lemma docx_extension (path : string) :
  endswith ".docx" (lower path) = true
  <-> exists stem ext, path = stem ++ ext /\ lower ext = ".docx".
Proof.
  rewrite endswith_suffix. split.
  - intros [stem H]. apply lower_split in H. destruct H as (x & y & -> & _ & Hy). eauto.
  - intros (stem & ext & -> & H). exists (lower stem). now rewrite lower_append, H.
Qed.

Lemma basename_aux_spec (p cur dir : string) :
  forall_chars (other_than "/") cur = true ->
  dir = "" \/ (exists d, dir = d ++ "/") ->
  exists dir',
    dir ++ cur ++ p = dir' ++ basename_aux cur p
    /\ (dir' = "" \/ exists d, dir' = d ++ "/")
    /\ forall_chars (other_than "/") (basename_aux cur p) = true.
Proof.
  revert cur dir. induction p as [|c p IH]; intros cur dir Hcur Hdir; cbn [basename_aux].
  - exists dir. rewrite append_nil_r. auto.
  - destruct (Ascii.eqb c "/") eqn:E.
    + apply Ascii.eqb_eq in E. subst c.
      destruct (IH "" (dir ++ cur ++ "/") eq_refl) as (dir' & H1 & H2 & H3).
      { right. exists (dir ++ cur). now rewrite append_assoc. }
      exists dir'. split; [| auto]. rewrite <- H1. simpl.
      rewrite !append_assoc. reflexivity.
    + destruct (IH (cur ++ String c "") dir) as (dir' & H1 & H2 & H3).
      { rewrite forall_chars_app, Hcur. simpl. unfold other_than. now rewrite E. }
      { exact Hdir. }
      exists dir'. split; [| auto]. rewrite <- H1. rewrite !append_assoc. reflexivity.
Qed.

Lemma fold_add_text (paras : list paragraph) (content : string) :
  fold_left add_text paras content = content ++ text_of paras.
Proof.
  revert content. induction paras as [|para l IH]; intros content; simpl.
  - now rewrite append_nil_r.
  - rewrite IH. unfold add_text. now rewrite !append_assoc.
Qed.

Lemma text_of_app (a b : list paragraph) : text_of (a ++ b) = text_of a ++ text_of b.
Proof.
  induction a as [|para a IH]; simpl; [reflexivity|]. now rewrite IH, !append_assoc.
Qed.

Lemma add_tables_text (tables : list (list (list (list paragraph)))) (content : string) :
  add_tables content tables = content ++ text_of (table_paragraphs tables).
Proof.
  unfold add_tables, table_paragraphs. revert content.
  induction tables as [|table tables IHt]; intros content; simpl.
  - now rewrite append_nil_r.
  - rewrite IHt. clear IHt. rewrite concat_app, concat_app, text_of_app, <- append_assoc.
    f_equal. revert content.
    induction table as [|row table IHr]; intros content; simpl.
    + now rewrite append_nil_r.
    + rewrite IHr. clear IHr. rewrite concat_app, text_of_app, <- append_assoc.
      f_equal. revert content.
      induction row as [|cell row IHc]; intros content; simpl.
      * now rewrite append_nil_r.
      * rewrite IHc, fold_add_text, text_of_app, append_assoc. reflexivity.
Qed.

(** X18.  A path is processed exactly when the file exists, the path ends
    in the extension of a Word document, in any letter case, and the
    document can be opened.  The result then holds the path, the document,
    its sections, as content the texts of the paragraphs and then of the
    paragraphs of the tables, each followed by a line end, and as file name
    what follows the last slash of the path. *)
Theorem process_document_accepts (fs : filesystem) (path : string) :
  (forall p,
      process_document fs path = Done p
      <-> exists_ fs path = true
          /\ (exists stem ext, path = stem ++ ext /\ lower ext = ".docx")
          /\ exists doc,
               open_docx fs path = Returned doc
               /\ p = Processed
                        (DocInfo (basename path)
                                 (text_of (doc_paragraphs doc ++ table_paragraphs (tables doc)))
                                 (_extract_document_sections (doc_paragraphs doc)))
                        path doc)
  /\ exists dir,
       path = dir ++ basename path
       /\ (dir = "" \/ exists d, dir = d ++ "/")
       /\ contains "/" (basename path) = false.
Proof.
  split.
  - intros p. unfold process_document.
    destruct (exists_ fs path); cbn [negb].
    2:{ split; [discriminate | intros [H _]; discriminate]. }
    rewrite <- docx_extension.
    destruct (endswith ".docx" (lower path)); cbn [negb].
    2:{ split; [discriminate | intros (_ & H & _); discriminate]. }
    destruct (open_docx fs path) as [doc|e].
    + rewrite fold_add_text, add_tables_text. cbn [append]. split.
      * intros [= <-]. repeat split. exists doc. rewrite text_of_app. split; reflexivity.
      * intros (_ & _ & doc' & [= <-] & ->). rewrite text_of_app. reflexivity.
    + split; [discriminate | intros (_ & _ & doc' & H & _); discriminate].
  - destruct (basename_aux_spec path "" "" eq_refl (or_introl eq_refl))
      as (dir & H1 & H2 & H3).
    exists dir. split; [exact H1 | split; [exact H2|]].
    now apply (other_than_contains "/").
Qed.

(** The sections of a document have paragraphs, all of the document. *)
Lemma sections_valid (doc : list paragraph) (s : section) :
  In s (_extract_document_sections doc) ->
  paragraphs s <> []
  /\ Forall (fun i => (i < List.length doc)%nat) (paragraphs s).
Proof.
  rewrite extract_sections_runs. intros Hs. apply filter_In in Hs.
  destruct Hs as [Hs Hc]. split.
  - pose proof (runs_from_inhabited (enumerate doc) (Section_ "General" "" [])
                  (fun _ => eq_refl)) as Hi.
    rewrite Forall_forall in Hi. specialize (Hi s Hs).
    intros E. unfold has_content in Hc. rewrite (Hi E) in Hc. discriminate.
  - assert (Hall : concat (map paragraphs (all_runs doc)) = seq 0%nat (List.length doc)).
    { unfold all_runs. rewrite runs_from_indices. simpl. apply combine_seq_fst. }
    apply Forall_forall. intros i Hi.
    assert (Hin : In i (concat (map paragraphs (all_runs doc)))).
    { apply in_concat. exists (paragraphs s). split; [now apply in_map | exact Hi]. }
    rewrite Hall in Hin. apply in_seq in Hin. lia.
Qed.

(** X19.  For a processed document and any section name, the paragraphs
    found for the section are paragraphs of the document, and there is one
    at least when the document has a paragraph. *)
Theorem find_section_paragraphs_valid (fs : filesystem) (path : string) (doc : processed)
        (section_name : string) :
  process_document fs path = Done doc ->
  Forall (fun i => (i < List.length (doc_paragraphs (doc_obj doc)))%nat)
         (_find_section_paragraphs doc section_name)
  /\ (doc_paragraphs (doc_obj doc) <> [] -> _find_section_paragraphs doc section_name <> []).
Proof.
  intros H.
  assert (Hs : sections (info doc) = _extract_document_sections (doc_paragraphs (doc_obj doc))).
  { unfold process_document in H.
    destruct (negb (exists_ fs path)); [discriminate|].
    destruct (negb (endswith ".docx" (lower path))); [discriminate|].
    destruct (open_docx fs path); [| discriminate].
    injection H as <-. reflexivity. }
  unfold _find_section_paragraphs. rewrite Hs.
  destruct (find (fun s => title s =? section_name) _) as [s|] eqn:E1.
  { apply find_some in E1. destruct E1 as [Hin _].
    destruct (sections_valid _ _ Hin) as [Hne Hv]. split; auto. }
  destruct (find (fuzzy_match section_name) _) as [s|] eqn:E2.
  { apply find_some in E2. destruct E2 as [Hin _].
    destruct (sections_valid _ _ Hin) as [Hne Hv]. split; auto. }
  destruct (doc_paragraphs (doc_obj doc)) as [|para l]; simpl.
  - split; [constructor | congruence].
  - split; [constructor; [lia | constructor] | discriminate].
Qed.

Lemma find_section_paragraphs_valid_witness :
  match process_document
          (Filesystem (fun _ => true)
             (fun _ => Returned (Document [ Paragraph "Heading 1" [] "Governing law";
                                            Paragraph "Normal" [] "The courts of ADGM." ] [])))
          "/tmp/contract.docx" with
  | Done doc => _find_section_paragraphs doc "Termination" <> []
  | Failed _ => False
  end.
Proof.
  destruct (process_document _ "/tmp/contract.docx") as [e|doc] eqn:H.
  - vm_compute in H. discriminate.
  - apply (find_section_paragraphs_valid _ "/tmp/contract.docx" doc "Termination" H).
    vm_compute in H. injection H as <-. discriminate.
Defined.

Lemma combine_seq_snd {A : Type} (l : list A) (a : nat) :
  map snd (combine (seq a (List.length l)) l) = l.
Proof.
  revert a. induction l as [|x l IH]; intros a; simpl; [reflexivity|].
  now rewrite IH.
Qed.

Lemma runs_from_plain (ips : list (nat * paragraph)) (current : section) :
  (forall ip, In ip ips -> opens_section (snd ip) = false) ->
  runs_from current ips
  = [ Section_ (title current) (content current ++ text_of (map snd ips))
               (paragraphs current ++ map fst ips)%list ].
Proof.
  revert current. induction ips as [|[i para] ips IH]; intros current H; simpl.
  - rewrite append_nil_r, app_nil_r. now destruct current.
  - pose proof (H (i, para) (or_introl eq_refl)) as Hp. cbn [snd] in Hp. rewrite Hp.
    rewrite IH by (intros ip Hip; apply H; now right). simpl.
    now rewrite !append_assoc, <- app_assoc.
Qed.

(** X20.  A document in which no paragraph opens a section has one section,
    General, with the texts of all its paragraphs and all their indices in
    order, or no section at all when all its text is blank. *)
Theorem plain_document_one_section (doc : list paragraph) :
  (forall para, In para doc -> opens_section para = false) ->
  _extract_document_sections doc
  = if truthy (strip (text_of doc))
    then [Section_ "General" (text_of doc) (seq 0%nat (List.length doc))]
    else [].
Proof.
  intros H. rewrite extract_sections_runs. unfold all_runs, enumerate.
  rewrite runs_from_plain.
  - rewrite combine_seq_snd, combine_seq_fst. simpl. unfold has_content. simpl.
    reflexivity.
  - intros [i para] Hip. apply in_combine_r in Hip. now apply H.
Qed.

Lemma plain_document_one_section_witness :
  _extract_document_sections [ Paragraph "Normal" [] "This contract is made in Abu Dhabi.";
                               Paragraph "Normal" [] "" ]
  = [ Section_ "General" ("This contract is made in Abu Dhabi." ++ newline ++ newline)
               [0; 1]%nat ].
Proof.
  refine (eq_trans (plain_document_one_section _ _) _).
  - intros para [<- | [<- | []]]; vm_compute; reflexivity.
  - vm_compute. reflexivity.
Defined.

End Processing.

(** ** Further properties of the query engine *)

Section Sources.
Import PyStr RAGEngine Regulations Words.

Lemma fold_add_source (docs : list source_document) (seen : list string) (text : string) :
  snd (fold_left add_source docs (seen, text))
  = text ++ listing (first_occurrences seen (map citation docs)).
Proof.
  revert seen text. induction docs as [|doc docs IH]; intros seen text.
  - simpl. now rewrite append_nil_r.
  - cbn [fold_left map first_occurrences].
    assert (E : add_source (seen, text) doc
                = if existsb (String.eqb (citation doc)) seen then (seen, text)
                  else (citation doc :: seen, text ++ "- " ++ citation doc ++ newline))
      by reflexivity.
    rewrite E. destruct (existsb (String.eqb (citation doc)) seen); rewrite IH; [reflexivity|].
    cbn [listing]. now rewrite !append_assoc.
Qed.

Lemma existsb_eqb_in (x : string) (l : list string) :
  existsb (String.eqb x) l = true <-> In x l.
Proof.
  rewrite existsb_exists. split.
  - intros (y & Hy & E). apply String.eqb_eq in E. now subst.
  - intros H. exists x. split; [exact H | apply String.eqb_refl].
Qed.

Lemma first_occurrences_in (l seen : list string) (x : string) :
  In x (first_occurrences seen l) <-> In x l /\ ~ In x seen.
Proof.
  revert seen. induction l as [|a l IH]; intros seen; simpl; [tauto|].
  destruct (existsb (String.eqb a) seen) eqn:E.
  - apply existsb_eqb_in in E. rewrite IH. split.
    + intros [H1 H2]. auto.
    + intros [[-> | H1] H2]; [contradiction | auto].
  - assert (Ha : ~ In a seen).
    { intros H. apply existsb_eqb_in in H. congruence. }
    simpl. rewrite IH. simpl. split.
    + intros [<- | [H1 H2]]; auto.
    + intros [[<- | H1] H2]; [now left|].
      destruct (string_dec a x) as [<- | Hn]; [now left | right]. split; [exact H1|].
      intros [H | H]; auto.
Qed.

Lemma first_occurrences_nodup (l seen : list string) : NoDup (first_occurrences seen l).
Proof.
  revert seen. induction l as [|a l IH]; intros seen; simpl; [constructor|].
  destruct (existsb (String.eqb a) seen); [apply IH|].
  constructor; [| apply IH]. rewrite first_occurrences_in. simpl. tauto.
Qed.

(** X21.  When the engine has its handles and the chain answers, the
    query returns the answer of the chain, followed, when documents were
    retrieved, by the heading of the sources and one line for each distinct
    citation, in the order in which the citations first occur. *)
Theorem query_lists_sources (self : engine) (question : string)
        (chain : string -> outcome qa_result) (res : qa_result) :
  vectorstore self <> None ->
  llm self <> None ->
  qa_chain self = Some chain ->
  chain (enhanced_query question) = Returned res ->
  let citations := first_occurrences [] (map citation (source_documents res)) in
  query self question
  = Returned (result res
              ++ match source_documents res with
                 | [] => ""
                 | _ => newline ++ newline ++ "Sources:" ++ newline ++ listing citations
                 end)
  /\ NoDup citations
  /\ forall c, In c citations <-> In c (map citation (source_documents res)).
Proof.
  intros Hv Hl Hq Hc citations. split; [| split].
  - unfold query. rewrite Hq.
    destruct (vectorstore self); [| congruence]. destruct (llm self); [| congruence].
    rewrite Hc. subst citations. destruct (source_documents res) as [|doc docs].
    + now rewrite append_nil_r.
    + rewrite (fold_add_source (doc :: docs)). now rewrite !append_assoc.
  - apply first_occurrences_nodup.
  - intros c. subst citations. rewrite first_occurrences_in. simpl. tauto.
Qed.

Lemma query_lists_sources_witness :
  query (Engine (Some tt)
                (Some (fun _ => Returned
                         (QaResult "A company needs articles."
                            [ SourceDocument (Some "companies.pdf") (Some "Regulation");
                              SourceDocument None (Some "Template");
                              SourceDocument (Some "companies.pdf") (Some "Regulation") ])))
                (Some tt))
        "What does a company need?"
  = Returned ("A company needs articles." ++ newline ++ newline ++ "Sources:" ++ newline
              ++ "- Regulation (companies.pdf)" ++ newline
              ++ "- Template (Unknown)" ++ newline).
Proof.
  refine (eq_trans
            (proj1 (query_lists_sources
                      (Engine (Some tt)
                         (Some (fun _ => Returned
                                  (QaResult "A company needs articles."
                                     [ SourceDocument (Some "companies.pdf") (Some "Regulation");
                                       SourceDocument None (Some "Template");
                                       SourceDocument (Some "companies.pdf")
                                                      (Some "Regulation") ])))
                         (Some tt))
                      "What does a company need?" _ _ _ _ eq_refl eq_refl)) _).
  - discriminate.
  - discriminate.
  - vm_compute. reflexivity.
Defined.

(** X22.  The set-up of the retriever and the guards of the queries
    agree.  Without the vector store or without the language model, the
    set-up builds no chain on them: afterwards a query returns the text of
    the degraded engine, and a query for regulations returns its own text,
    which names the document type.  With both, the queries are answered by
    the chain that was built, whatever chain was there before, and a query
    for regulations is the query of its question; it returns and does not
    raise. *)
Theorem setup_retriever_guard
        (from_chain_type : unit -> unit -> string -> outcome qa_result)
        (self : engine) (question doc_type : string) (topic : option string) :
  (vectorstore self = None \/ llm self = None ->
   query (_setup_retriever from_chain_type self) question = Returned not_initialized
   /\ query_regulations (_setup_retriever from_chain_type self) doc_type topic
      = Returned ("RAG system not initialized. Cannot retrieve regulations for "
                  ++ doc_type ++ "."))
  /\ (vectorstore self <> None -> llm self <> None ->
      query (_setup_retriever from_chain_type self) question
      = query (Engine (Some tt) (Some (from_chain_type tt tt)) (Some tt)) question
      /\ query_regulations (_setup_retriever from_chain_type self) doc_type topic
         = query (_setup_retriever from_chain_type self) (regulations_query doc_type topic)
      /\ exists answer,
           query_regulations (_setup_retriever from_chain_type self) doc_type topic
           = Returned answer).
Proof.
  split.
  - intros H.
    assert (E : _setup_retriever from_chain_type self = self).
    { unfold _setup_retriever. destruct H as [H | H]; rewrite H; [reflexivity|].
      destruct (vectorstore self); reflexivity. }
    rewrite E. split.
    + apply degraded_query. tauto.
    + unfold query_regulations. destruct H as [H | H]; rewrite H; [reflexivity|].
      destruct (vectorstore self), (qa_chain self); reflexivity.
  - destruct self as [[[]|] chain [[]|]]; cbn [vectorstore llm]; try congruence.
    intros _ _. unfold _setup_retriever, query_regulations.
    cbn [vectorstore qa_chain llm].
    split; [reflexivity|].
    destruct (query_returns (Engine (Some tt) (Some (from_chain_type tt tt)) (Some tt))
                (regulations_query doc_type topic)) as [answer E].
    rewrite E. eauto.
Qed.

Lemma setup_retriever_guard_witness :
  query (_setup_retriever (fun _ _ _ => Returned (QaResult "An answer." []))
                          (Engine None None (Some tt)))
        "What is a board resolution?"
  = Returned not_initialized
  /\ query_regulations
       (_setup_retriever (fun _ _ _ => Returned (QaResult "An answer." []))
                         (Engine None None (Some tt)))
       "Board Resolution" None
     = Returned ("RAG system not initialized. Cannot retrieve regulations for "
                 ++ "Board Resolution" ++ ".").
Proof.
  apply (proj1 (setup_retriever_guard
                  (fun _ _ _ => Returned (QaResult "An answer." []))
                  (Engine None None (Some tt)) "What is a board resolution?"
                  "Board Resolution" None)).
  left. reflexivity.
Defined.

End Sources.

(** ** The comments added to a document *)

Section Comments.
Import PyStr PyMore DocumentProcessor Processing Review Spec Words.

Lemma choose_target_in (para_indices commented : list nat) (target : nat) :
  choose_target para_indices commented = Some target -> In target para_indices.
Proof.
  unfold choose_target.
  destruct (find _ para_indices) as [idx|] eqn:E.
  - intros [= <-]. apply find_some in E. apply E.
  - destruct para_indices as [|idx l]; [discriminate|]. intros [= <-]. now left.
Qed.

Lemma choose_target_some (para_indices commented : list nat) :
  para_indices <> [] -> exists target, choose_target para_indices commented = Some target.
Proof.
  unfold choose_target. intros H.
  destruct (find _ para_indices) as [idx|]; [eauto|].
  destruct para_indices as [|idx l]; [congruence | eauto].
Qed.

(** The paragraphs found in a processed document to which paragraphs have
    been appended: there is one at least, and each is a paragraph of the
    document as it was, or the first of those appended when it had
    none. *)
Lemma find_in_current (env : environment) (fs : filesystem) (path : string)
      (doc : processed) (m : marking) (section_name : string) :
  process_document fs path = Done doc ->
  added m <> [] ->
  let found := _find_section_paragraphs (current env doc m) section_name in
  found <> []
  /\ Forall (fun i => (i < List.length (doc_paragraphs (doc_obj doc)))%nat
                      \/ (doc_paragraphs (doc_obj doc) = [] /\ i = 0%nat)) found.
Proof.
  intros H Ha.
  assert (Hs : sections (info doc) = _extract_document_sections (doc_paragraphs (doc_obj doc))).
  { unfold process_document in H.
    destruct (negb (exists_ fs path)); [discriminate|].
    destruct (negb (endswith ".docx" (lower path))); [discriminate|].
    destruct (open_docx fs path); [| discriminate].
    injection H as <-. reflexivity. }
  cbv zeta. unfold _find_section_paragraphs, current. cbn [info doc_obj doc_paragraphs sections].
  rewrite Hs.
  destruct (find (fun s => title s =? section_name) _) as [s|] eqn:E1.
  { apply find_some in E1. destruct E1 as [Hin _].
    destruct (sections_valid _ _ Hin) as [Hne Hv]. split; [exact Hne|].
    revert Hv. apply Forall_impl. intros i Hi. now left. }
  destruct (find (fuzzy_match section_name) _) as [s|] eqn:E2.
  { apply find_some in E2. destruct E2 as [Hin _].
    destruct (sections_valid _ _ Hin) as [Hne Hv]. split; [exact Hne|].
    revert Hv. apply Forall_impl. intros i Hi. now left. }
  rewrite length_app, length_map.
  destruct (added m) as [|a l]; [congruence|].
  replace (0 <? _ + _)%nat with true by (symmetry; apply Nat.ltb_lt; simpl; lia).
  split; [discriminate|]. constructor; [| constructor].
  destruct (doc_paragraphs (doc_obj doc)); [right; auto | left; simpl; lia].
Qed.

(** One turn of the loop for an issue whose section is a text, or is
    [None] in a document without sections: one comment paragraph and one
    highlight, unless a run of the comment cannot be added. *)
Lemma comment_cases (env : environment) (fs : filesystem) (path : string)
      (doc : processed) (m : marking) (commented : list nat) (issue : issue_values) :
  process_document fs path = Done doc ->
  added m <> [] ->
  (section_value issue = PyNone -> sections (info doc) = []) ->
  exists target commented',
    comment env doc (m, commented) issue
    = (if runs_compatible (comment_runs issue) then
         Returned (Marking (added m ++ [Runs (comment_runs issue)])%list
                           (highlighted m
                            ++ [(target, highlight_for (severity_value issue))])%list,
                   commented')
       else Raised "All strings must be XML compatible")
    /\ ((target < List.length (doc_paragraphs (doc_obj doc)))%nat
        \/ (doc_paragraphs (doc_obj doc) = [] /\ target = 0%nat)).
Proof.
  intros H Ha Hs.
  assert (Hf : exists para_indices,
             find_paragraphs (current env doc m) (section_value issue)
             = Returned para_indices
             /\ para_indices <> []
             /\ Forall (fun i => (i < List.length (doc_paragraphs (doc_obj doc)))%nat
                                 \/ (doc_paragraphs (doc_obj doc) = [] /\ i = 0%nat))
                       para_indices).
  { destruct (section_value issue) as [|s]; cbn [find_paragraphs].
    - unfold current. cbn [info sections doc_obj doc_paragraphs]. rewrite (Hs eq_refl).
      rewrite length_app, length_map.
      destruct (added m) as [|a l]; [congruence|].
      replace (0 <? _ + _)%nat with true by (symmetry; apply Nat.ltb_lt; simpl; lia).
      eexists. split; [reflexivity|]. split; [discriminate|].
      constructor; [| constructor].
      destruct (doc_paragraphs (doc_obj doc)); [right; auto | left; simpl; lia].
    - eexists. split; [reflexivity|]. exact (find_in_current env fs path doc m s H Ha). }
  destruct Hf as (para_indices & Ef & Hne & Hv).
  unfold comment. rewrite Ef.
  destruct (choose_target_some para_indices commented Hne) as [target Et]. rewrite Et.
  pose proof (choose_target_in _ _ _ Et) as Hin.
  rewrite Forall_forall in Hv. specialize (Hv target Hin).
  assert (Hlt : (target <? List.length (doc_paragraphs (doc_obj (current env doc m))))%nat
                = true).
  { apply Nat.ltb_lt. cbn [current doc_obj doc_paragraphs].
    rewrite length_app, length_map.
    destruct Hv as [Hv | [_ ->]]; [lia|].
    destruct (added m); [congruence | simpl; lia]. }
  rewrite Hlt. eauto.
Qed.

Lemma comment_returns (env : environment) (fs : filesystem) (path : string)
      (doc : processed) (m : marking) (commented : list nat) (issue : issue_values) :
  process_document fs path = Done doc ->
  added m <> [] ->
  (section_value issue = PyNone -> sections (info doc) = []) ->
  runs_compatible (comment_runs issue) = true ->
  exists target commented',
    comment env doc (m, commented) issue
    = Returned (Marking (added m ++ [Runs (comment_runs issue)])%list
                        (highlighted m
                         ++ [(target, highlight_for (severity_value issue))])%list,
                commented')
    /\ ((target < List.length (doc_paragraphs (doc_obj doc)))%nat
        \/ (doc_paragraphs (doc_obj doc) = [] /\ target = 0%nat)).
Proof.
  intros H Ha Hs Hx.
  destruct (comment_cases env fs path doc m commented issue H Ha Hs)
    as (target & commented' & E & Hv).
  rewrite Hx in E. eauto.
Qed.

(** The loop over the issues when none of them stops it. *)
Lemma comment_all_returns (env : environment) (fs : filesystem) (path : string)
      (doc : processed) (issues : list issue_values) (m : marking) (commented : list nat) :
  process_document fs path = Done doc ->
  added m <> [] ->
  Forall (fun issue => section_value issue = PyNone -> sections (info doc) = []) issues ->
  Forall (fun issue => runs_compatible (comment_runs issue) = true) issues ->
  exists marks commented',
    comment_all env doc (m, commented) issues
    = Returned (Marking (added m ++ map (fun issue => Runs (comment_runs issue)) issues)%list
                        (highlighted m ++ marks)%list,
                commented')
    /\ map snd marks = map (fun issue => highlight_for (severity_value issue)) issues
    /\ Forall (fun i => (i < List.length (doc_paragraphs (doc_obj doc)))%nat
                        \/ (doc_paragraphs (doc_obj doc) = [] /\ i = 0%nat))
              (map fst marks).
Proof.
  intros H. revert m commented.
  induction issues as [|issue issues IH]; intros m commented Ha Hs Hx.
  - exists [], commented. simpl. rewrite !app_nil_r. destruct m. auto.
  - apply Forall_cons_iff in Hs. destruct Hs as [Hs1 Hs2].
    apply Forall_cons_iff in Hx. destruct Hx as [Hx1 Hx2].
    destruct (comment_returns env fs path doc m commented issue H Ha Hs1 Hx1)
      as (target & commented' & E & Hv).
    cbn [comment_all]. rewrite E.
    destruct (IH (Marking (added m ++ [Runs (comment_runs issue)])%list
                          (highlighted m
                           ++ [(target, highlight_for (severity_value issue))])%list)
                 commented')
      as (marks & commented'' & E' & Hm & Hf).
    { cbn [added]. destruct (added m); discriminate. }
    { exact Hs2. }
    { exact Hx2. }
    exists ((target, highlight_for (severity_value issue)) :: marks), commented''.
    rewrite E'. cbn [added highlighted map fst snd]. rewrite <- !app_assoc. cbn [app].
    split; [reflexivity|]. split; [now rewrite Hm|]. now constructor.
Qed.

(** The loop is left at an issue with a run that cannot be added. *)
Lemma comment_all_incompatible (env : environment) (fs : filesystem) (path : string)
      (doc : processed) (issues : list issue_values) (m : marking) (commented : list nat) :
  process_document fs path = Done doc ->
  added m <> [] ->
  Forall (fun issue => section_value issue = PyNone -> sections (info doc) = []) issues ->
  forallb (fun issue => runs_compatible (comment_runs issue)) issues = false ->
  exists e, comment_all env doc (m, commented) issues = Raised e.
Proof.
  intros H. revert m commented.
  induction issues as [|issue issues IH]; intros m commented Ha Hs Hx; [discriminate|].
  apply Forall_cons_iff in Hs. destruct Hs as [Hs1 Hs2].
  destruct (comment_cases env fs path doc m commented issue H Ha Hs1)
    as (target & commented' & E & Hv).
  cbn [comment_all]. rewrite E. cbn [forallb] in Hx.
  destruct (runs_compatible (comment_runs issue)); [| eauto].
  apply IH; [| exact Hs2 | exact Hx].
  cbn [added]. destruct (added m); discriminate.
Qed.

Lemma forallb_Forall {A : Type} (f : A -> bool) (l : list A) :
  forallb f l = true <-> Forall (fun x => f x = true) l.
Proof.
  rewrite forallb_forall, Forall_forall. tauto.
Qed.

(** The loop is left at an issue whose section is [None] when the
    document has sections. *)
Lemma comment_all_raises (env : environment) (doc : processed)
      (issues : list issue_values) (st : marking * list nat) :
  sections (info doc) <> [] ->
  Exists (fun issue => section_value issue = PyNone) issues ->
  exists e, comment_all env doc st issues = Raised e.
Proof.
  intros Hs. revert st. induction issues as [|issue issues IH]; intros st He.
  - inversion He.
  - cbn [comment_all]. apply Exists_cons in He.
    destruct (comment env doc st issue) as [st'|e] eqn:E; [| eauto].
    destruct He as [He | He]; [| now apply IH].
    exfalso. destruct st as [m commented]. unfold comment in E. rewrite He in E.
    unfold current in E. cbn [find_paragraphs info sections] in E.
    destruct (sections (info doc)); [congruence | discriminate].
Qed.

Lemma unblocked_or_blocked (doc : processed) (issues : list issue_values) :
  Forall (fun issue => section_value issue = PyNone -> sections (info doc) = []) issues
  \/ (sections (info doc) <> [] /\ Exists (fun issue => section_value issue = PyNone) issues).
Proof.
  destruct (sections (info doc)) as [|s l].
  - left. apply Forall_forall. auto.
  - induction issues as [|issue issues IH]; [left; constructor|].
    destruct IH as [IH | [_ IH]].
    + destruct (section_value issue) eqn:E.
      * right. split; [discriminate|]. now constructor.
      * left. constructor; [| exact IH]. rewrite E. discriminate.
    + right. split; [discriminate|]. now apply Exists_cons_tl.
Qed.

(** When [add_comments] returns a path. *)
Lemma add_comments_cases (env : environment) (fs : filesystem) (path : string)
      (doc : processed) (issues : list issue_values) :
  process_document fs path = Done doc ->
  (exists result, add_comments env (Done doc) issues = Some result)
  <-> issues <> []
      /\ (sections (info doc) = []
          \/ Forall (fun issue => section_value issue <> PyNone) issues)
      /\ runs_compatible (summary_runs issues) = true
      /\ Forall (fun issue => runs_compatible (comment_runs issue) = true) issues
      /\ exists temp_dir,
           mkdtemp env = Returned temp_dir
           /\ save env (path_join temp_dir ("REVIEWED_" ++ filename (info doc)))
              = Returned tt.
Proof.
  intros H. unfold add_comments.
  destruct issues as [|issue issues].
  { split; [intros [r Hr]; discriminate | intros [Hn _]; congruence]. }
  destruct (mkdtemp env) as [temp_dir|e].
  2:{ split; [intros [r Hr]; discriminate
             | intros (_ & _ & _ & _ & t & Ht & _); discriminate]. }
  destruct (runs_compatible (summary_runs (issue :: issues))).
  2:{ split; [intros [r Hr]; discriminate | intros (_ & _ & Hx & _); discriminate]. }
  destruct (unblocked_or_blocked doc (issue :: issues)) as [Hu | [Hs Hb]].
  - destruct (forallb (fun issue => runs_compatible (comment_runs issue)) (issue :: issues))
      eqn:Ex.
    + apply forallb_Forall in Ex.
      destruct (comment_all_returns env fs path doc (issue :: issues)
                  (Marking [Runs (summary_runs (issue :: issues)); PageBreak] []) []
                  H ltac:(discriminate) Hu Ex) as (marks & commented & E & _).
      rewrite E.
      destruct (save env (path_join temp_dir ("REVIEWED_" ++ filename (info doc))))
        as [[]|e] eqn:Es.
      * split; [| eauto]. intros _. split; [discriminate|].
        split; [| split; [reflexivity | split; [exact Ex | eauto]]].
        destruct (sections (info doc)) as [|s l] eqn:E0; [now left | right].
        revert Hu. apply Forall_impl. intros i Hi Hn. specialize (Hi Hn). discriminate.
      * split; [intros [r Hr]; discriminate|].
        intros (_ & _ & _ & _ & t & [= <-] & Ht). congruence.
    + destruct (comment_all_incompatible env fs path doc (issue :: issues)
                  (Marking [Runs (summary_runs (issue :: issues)); PageBreak] []) []
                  H ltac:(discriminate) Hu Ex) as [e E].
      rewrite E. split; [intros [r Hr]; discriminate|].
      intros (_ & _ & _ & Hx & _). apply forallb_Forall in Hx. congruence.
  - destruct (comment_all_raises env doc (issue :: issues)
                (Marking [Runs (summary_runs (issue :: issues)); PageBreak] [], [])
                Hs Hb) as [e E].
    rewrite E. split; [intros [r Hr]; discriminate|].
    intros (_ & [Hn | Hn] & _); [contradiction|].
    exfalso. apply Exists_exists in Hb. destruct Hb as (i & Hi & Hp).
    rewrite Forall_forall in Hn. now apply (Hn i Hi).
Qed.

(** X23.  For a processed document, [add_comments] returns the path of a
    reviewed file exactly when there is an issue, the temporary directory
    can be made, the document can be saved, no issue has the section
    [None] while the document has sections, and every run of the summary
    and of the comments has a text that XML can hold: no control
    character other than the tab, the line feed and the carriage return,
    no surrogate, neither U+FFFE nor U+FFFF.  In particular no index of a
    paragraph is out of range. *)
Theorem add_comments_returns (env : environment) (fs : filesystem) (path : string)
        (doc : processed) (issues : list issue_values) :
  process_document fs path = Done doc ->
  (exists result, add_comments env (Done doc) issues = Some result)
  <-> issues <> []
      /\ (sections (info doc) = []
          \/ Forall (fun issue => section_value issue <> PyNone) issues)
      /\ runs_compatible (summary_runs issues) = true
      /\ Forall (fun issue => runs_compatible (comment_runs issue) = true) issues
      /\ exists temp_dir,
           mkdtemp env = Returned temp_dir
           /\ save env (path_join temp_dir ("REVIEWED_" ++ filename (info doc)))
              = Returned tt.
Proof.
  apply add_comments_cases.
Qed.

Lemma add_comments_returns_witness :
  exists result,
    add_comments
      (Environment (Returned "/tmp/review") (fun _ => Returned tt)
                   (fun _ => Paragraph "Normal" [] ""))
      (Done (Processed (DocInfo "contract.docx" ("The courts of ADGM." ++ newline)
                          [Section_ "General" ("The courts of ADGM." ++ newline) [0%nat]])
                       "/uploads/contract.docx"
                       (Document [Paragraph "Normal" [] "The courts of ADGM."] [])))
      [IssueValues (Text "Termination") (Text "High") (Text "No notice period") PyNone
                   (Text "ADGM Regulations")]
    = Some result.
Proof.
  apply (add_comments_returns _
           (Filesystem (fun _ => true)
                       (fun _ => Returned (Document [Paragraph "Normal" [] "The courts of ADGM."]
                                                    [])))
           "/uploads/contract.docx").
  - vm_compute. reflexivity.
  - split; [discriminate|]. split; [| split; [| split]].
    + right. constructor; [discriminate | constructor].
    + vm_compute. reflexivity.
    + constructor; [vm_compute; reflexivity | constructor].
    + exists "/tmp/review". split; reflexivity.
Defined.

(** A form feed in the text of an issue: the run cannot be added and
    there is no reviewed file. *)
Example add_comments_control_character :
  add_comments
    (Environment (Returned "/tmp/review") (fun _ => Returned tt)
                 (fun _ => Paragraph "Normal" [] ""))
    (Done (Processed (DocInfo "contract.docx" ("The courts of ADGM." ++ newline)
                        [Section_ "General" ("The courts of ADGM." ++ newline) [0%nat]])
                     "/uploads/contract.docx"
                     (Document [Paragraph "Normal" [] "The courts of ADGM."] [])))
    [IssueValues (Text "General") (Text "High") (Text ("No notice" ++ chr 12 ++ "period"))
                 PyNone (Text "ADGM Regulations")]
  = None.
Proof. vm_compute. reflexivity. Qed.

(** X24.  No issue is left without a comment.  When [add_comments]
    returns a path for a processed document, the path is the file name
    with the prefix REVIEWED_ in the temporary directory; the paragraphs
    appended to the document are the summary, the page break and then one
    comment paragraph for each issue, in the order of the issues; there is
    one highlight for each issue, in its color, and each highlighted
    paragraph is a paragraph of the document as it was, or, when it had
    none, the summary paragraph. *)
Theorem every_issue_commented (env : environment) (fs : filesystem) (path : string)
        (doc : processed) (issues : list issue_values) (reviewed : string) (m : marking) :
  process_document fs path = Done doc ->
  add_comments env (Done doc) issues = Some (reviewed, m) ->
  (exists temp_dir,
      mkdtemp env = Returned temp_dir
      /\ reviewed = path_join temp_dir ("REVIEWED_" ++ filename (info doc)))
  /\ added m
     = Runs (summary_runs issues) :: PageBreak
       :: map (fun issue => Runs (comment_runs issue)) issues
  /\ map snd (highlighted m)
     = map (fun issue => highlight_for (severity_value issue)) issues
  /\ Forall (fun i => (i < List.length (doc_paragraphs (doc_obj doc)))%nat
                      \/ (doc_paragraphs (doc_obj doc) = [] /\ i = 0%nat))
            (map fst (highlighted m)).
Proof.
  intros H. unfold add_comments.
  destruct issues as [|issue issues]; [discriminate|].
  destruct (mkdtemp env) as [temp_dir|e]; [| discriminate].
  destruct (runs_compatible (summary_runs (issue :: issues))); [| discriminate].
  destruct (unblocked_or_blocked doc (issue :: issues)) as [Hu | [Hs Hb]].
  - destruct (forallb (fun issue => runs_compatible (comment_runs issue)) (issue :: issues))
      eqn:Ex.
    2:{ destruct (comment_all_incompatible env fs path doc (issue :: issues)
                    (Marking [Runs (summary_runs (issue :: issues)); PageBreak] []) []
                    H ltac:(discriminate) Hu Ex) as [e E].
        rewrite E. discriminate. }
    apply forallb_Forall in Ex.
    destruct (comment_all_returns env fs path doc (issue :: issues)
                (Marking [Runs (summary_runs (issue :: issues)); PageBreak] []) []
                H ltac:(discriminate) Hu Ex) as (marks & commented & E & Hm & Hv).
    rewrite E.
    destruct (save env (path_join temp_dir ("REVIEWED_" ++ filename (info doc))))
      as [[]|e]; [| discriminate].
    intros [= <- <-]. cbn [added highlighted app].
    split; [eauto|]. split; [reflexivity|]. split; assumption.
  - destruct (comment_all_raises env doc (issue :: issues)
                (Marking [Runs (summary_runs (issue :: issues)); PageBreak] [], [])
                Hs Hb) as [e E].
    rewrite E. discriminate.
Qed.

Lemma every_issue_commented_witness :
  match add_comments
          (Environment (Returned "/tmp/review") (fun _ => Returned tt)
                       (fun _ => Paragraph "Normal" [] ""))
          (process_document
             (Filesystem (fun _ => true)
                (fun _ => Returned (Document [Paragraph "Normal" [] "The courts of ADGM."] [])))
             "/uploads/contract.docx")
          [IssueValues (Text "Termination") (Text "High") (Text "No notice period") PyNone
                       (Text "ADGM Regulations")] with
  | Some (reviewed, m) =>
      reviewed = "/tmp/review/REVIEWED_contract.docx"
      /\ List.length (added m) = 3%nat
      /\ highlighted m = [(0%nat, RED)]
  | None => False
  end.
Proof.
  destruct (process_document _ "/uploads/contract.docx") as [e|doc] eqn:H.
  { vm_compute in H. discriminate. }
  destruct (add_comments _ _ _) as [[reviewed m]|] eqn:E.
  - destruct (every_issue_commented _ _ _ doc _ reviewed m H E)
      as ((temp_dir & Ht & Hr) & Ha & Hh & Hv).
    vm_compute in H. injection H as <-.
    injection Ht as <-. split; [exact Hr|]. split; [now rewrite Ha|].
    destruct (highlighted m) as [|[i c] [|h l]]; try discriminate.
    injection Hh as ->. apply Forall_inv in Hv. simpl in Hv.
    destruct Hv as [Hv | [Hv _]]; [| discriminate].
    replace i with 0%nat by lia. reflexivity.
  - vm_compute in H. injection H as <-. vm_compute in E. discriminate.
Defined.

(** *** The paragraphs of a section take turns *)

Lemma nodup_concat_in {A : Type} (ls : list (list A)) (l : list A) :
  NoDup (concat ls) -> In l ls -> NoDup l.
Proof.
  induction ls as [|a ls IH]; simpl; [intros _ []|].
  intros Hn [<- | Hin].
  - now apply NoDup_app_remove_r in Hn.
  - apply IH; [| exact Hin]. now apply NoDup_app_remove_l in Hn.
Qed.

(** No paragraph is twice in a section. *)
Lemma section_paragraphs_nodup (doc : list paragraph) (s : section) :
  In s (_extract_document_sections doc) -> NoDup (paragraphs s).
Proof.
  rewrite extract_sections_runs. intros Hs. apply filter_In in Hs. destruct Hs as [Hs _].
  apply (nodup_concat_in (map paragraphs (all_runs doc))); [| now apply in_map].
  unfold all_runs. rewrite runs_from_indices. simpl. unfold enumerate.
  rewrite combine_seq_fst. apply seq_NoDup.
Qed.

Lemma split_at {A : Type} (l : list A) (k : nat) (d : A) :
  (k < List.length l)%nat -> l = (firstn k l ++ nth k l d :: skipn (S k) l)%list.
Proof.
  revert k. induction l as [|a l IH]; intros k Hk; [simpl in Hk; lia|].
  destruct k as [|k]; [reflexivity|]. simpl in Hk. simpl. f_equal. apply IH. lia.
Qed.

Lemma firstn_next {A : Type} (l : list A) (k : nat) (d : A) :
  (k < List.length l)%nat -> firstn (S k) l = (firstn k l ++ [nth k l d])%list.
Proof.
  revert k. induction l as [|a l IH]; intros k Hk; [simpl in Hk; lia|].
  destruct k as [|k]; [reflexivity|]. simpl in Hk.
  change (a :: firstn (S k) l = a :: (firstn k l ++ [nth k l d])%list).
  f_equal. apply IH. lia.
Qed.

Lemma existsb_nat_in (x : nat) (l : list nat) : existsb (Nat.eqb x) l = true <-> In x l.
Proof.
  rewrite existsb_exists. split.
  - intros (y & Hy & E). apply Nat.eqb_eq in E. now subst.
  - intros H. exists x. split; [exact H | apply Nat.eqb_refl].
Qed.

(** The choice of the paragraph when the first [k] paragraphs of the
    section have a comment: the next one, or the first one when there is
    no next one. *)
Lemma choose_target_turn (ps commented : list nat) (k : nat) :
  NoDup ps ->
  ps <> [] ->
  (forall i, In i commented <-> In i (firstn k ps)) ->
  let target := nth k ps (hd 0%nat ps) in
  choose_target ps commented = Some target
  /\ forall i,
       In i (if existsb (Nat.eqb target) commented then commented else target :: commented)
       <-> In i (firstn (S k) ps).
Proof.
  intros Hn Hne Hc target. unfold choose_target.
  destruct (Nat.lt_ge_cases k (List.length ps)) as [Hk | Hk].
  - pose proof (split_at ps k (hd 0%nat ps) Hk) as E. fold target in E.
    assert (Hnot : ~ In target commented).
    { rewrite Hc. rewrite E in Hn. apply NoDup_remove_2 in Hn.
      intros H. apply Hn. apply in_or_app. now left. }
    assert (Ef : find (fun idx => negb (existsb (Nat.eqb idx) commented)) ps = Some target).
    { apply find_first. exists (firstn k ps), (skipn (S k) ps). split; [exact E|]. split.
      - apply negb_true_iff. destruct (existsb (Nat.eqb target) commented) eqn:Ee;
          [| reflexivity]. apply existsb_nat_in in Ee. contradiction.
      - intros y Hy. apply negb_false_iff. apply existsb_nat_in. now apply Hc. }
    rewrite Ef. split; [reflexivity|].
    destruct (existsb (Nat.eqb target) commented) eqn:Ee.
    { apply existsb_nat_in in Ee. contradiction. }
    intros i. rewrite (firstn_next ps k (hd 0%nat ps) Hk). fold target.
    rewrite in_app_iff. simpl. rewrite Hc. tauto.
  - assert (Ea : firstn k ps = ps) by (apply firstn_all2; lia).
    assert (Ea' : firstn (S k) ps = ps) by (apply firstn_all2; lia).
    assert (Et : target = hd 0%nat ps) by (subst target; apply nth_overflow; lia).
    rewrite Ea in Hc. rewrite Ea'.
    rewrite find_none.
    2:{ intros y Hy. apply negb_false_iff. apply existsb_nat_in. now apply Hc. }
    destruct ps as [|idx l]; [congruence|]. simpl in Et. rewrite Et.
    split; [reflexivity|].
    assert (Ee : existsb (Nat.eqb idx) commented = true).
    { apply existsb_nat_in. apply Hc. now left. }
    rewrite Ee. exact Hc.
Qed.

Lemma find_exact_current (env : environment) (doc : processed) (m : marking)
      (name : string) (sec : section) :
  find (fun s => title s =? name) (sections (info doc)) = Some sec ->
  _find_section_paragraphs (current env doc m) name = paragraphs sec.
Proof.
  intros H. unfold _find_section_paragraphs, current. cbn [info sections]. now rewrite H.
Qed.

Lemma comment_all_turns (env : environment) (fs : filesystem) (path : string)
      (doc : processed) (name : string) (sec : section) (issues : list issue_values)
      (m : marking) (commented : list nat) (k : nat) :
  process_document fs path = Done doc ->
  find (fun s => title s =? name) (sections (info doc)) = Some sec ->
  Forall (fun issue => section_value issue = Text name) issues ->
  Forall (fun issue => runs_compatible (comment_runs issue) = true) issues ->
  (forall i, In i commented <-> In i (firstn k (paragraphs sec))) ->
  exists marks commented',
    comment_all env doc (m, commented) issues
    = Returned (Marking (added m ++ map (fun issue => Runs (comment_runs issue)) issues)%list
                        (highlighted m ++ marks)%list,
                commented')
    /\ map fst marks
       = map (fun j => nth j (paragraphs sec) (hd 0%nat (paragraphs sec)))
             (seq k (List.length issues)).
Proof.
  intros H Hf.
  assert (Hs : sections (info doc) = _extract_document_sections (doc_paragraphs (doc_obj doc))).
  { unfold process_document in H.
    destruct (negb (exists_ fs path)); [discriminate|].
    destruct (negb (endswith ".docx" (lower path))); [discriminate|].
    destruct (open_docx fs path); [| discriminate].
    injection H as <-. reflexivity. }
  pose proof (find_some _ _ Hf) as [Hin _]. rewrite Hs in Hin.
  pose proof (section_paragraphs_nodup _ _ Hin) as Hn.
  destruct (sections_valid _ _ Hin) as [Hne Hv].
  revert m commented k.
  induction issues as [|issue issues IH]; intros m commented k Hi Hx Hc.
  - exists [], commented. simpl. rewrite !app_nil_r. destruct m. auto.
  - apply Forall_cons_iff in Hi. destruct Hi as [Hi1 Hi2].
    apply Forall_cons_iff in Hx. destruct Hx as [Hx1 Hx2].
    destruct (choose_target_turn (paragraphs sec) commented k Hn Hne Hc) as [Et Hc'].
    set (target := nth k (paragraphs sec) (hd 0%nat (paragraphs sec))) in *.
    assert (Hlt : (target < List.length (doc_paragraphs (doc_obj doc)))%nat).
    { rewrite Forall_forall in Hv. apply Hv. now apply (choose_target_in _ commented). }
    assert (E : comment env doc (m, commented) issue
                = Returned (Marking (added m ++ [Runs (comment_runs issue)])%list
                                    (highlighted m
                                     ++ [(target, highlight_for (severity_value issue))])%list,
                            if existsb (Nat.eqb target) commented then commented
                            else target :: commented)).
    { unfold comment. rewrite Hi1. cbn [find_paragraphs].
      rewrite (find_exact_current env doc m name sec Hf), Et, Hx1.
      replace (target <? _)%nat with true; [reflexivity|].
      symmetry. apply Nat.ltb_lt. unfold current. cbn [doc_obj doc_paragraphs].
      rewrite length_app. lia. }
    cbn [comment_all]. rewrite E.
    destruct (IH (Marking (added m ++ [Runs (comment_runs issue)])%list
                          (highlighted m
                           ++ [(target, highlight_for (severity_value issue))])%list)
                 (if existsb (Nat.eqb target) commented then commented
                  else target :: commented) (S k) Hi2 Hx2 Hc')
      as (marks & commented'' & E' & Hm).
    exists ((target, highlight_for (severity_value issue)) :: marks), commented''.
    rewrite E'. cbn [added highlighted map fst List.length seq]. rewrite <- !app_assoc.
    cbn [app]. split; [reflexivity|]. now rewrite Hm.
Qed.

(** X25.  The issues of one section take its paragraphs in turn.  When
    all issues name the title of a section of the processed document, the
    first issue highlights the first paragraph of the section, the second
    issue the second one, and so on; when the section has no paragraph
    left, each further issue highlights its first paragraph again. *)
Theorem section_paragraphs_in_turn (env : environment) (fs : filesystem) (path : string)
        (doc : processed) (name : string) (sec : section) (issues : list issue_values)
        (reviewed : string) (m : marking) :
  process_document fs path = Done doc ->
  find (fun s => title s =? name) (sections (info doc)) = Some sec ->
  Forall (fun issue => section_value issue = Text name) issues ->
  add_comments env (Done doc) issues = Some (reviewed, m) ->
  map fst (highlighted m)
  = map (fun j => nth j (paragraphs sec) (hd 0%nat (paragraphs sec)))
        (seq 0 (List.length issues)).
Proof.
  intros H Hf Hi. unfold add_comments.
  destruct issues as [|issue issues]; [discriminate|].
  destruct (mkdtemp env) as [temp_dir|e]; [| discriminate].
  destruct (runs_compatible (summary_runs (issue :: issues))); [| discriminate].
  destruct (forallb (fun issue => runs_compatible (comment_runs issue)) (issue :: issues))
    eqn:Ex.
  2:{ destruct (comment_all_incompatible env fs path doc (issue :: issues)
                  (Marking [Runs (summary_runs (issue :: issues)); PageBreak] []) []
                  H ltac:(discriminate)) as [e E]; [| exact Ex | rewrite E; discriminate].
      revert Hi. apply Forall_impl. intros i Hn Hp. rewrite Hn in Hp. discriminate. }
  apply forallb_Forall in Ex.
  destruct (comment_all_turns env fs path doc name sec (issue :: issues)
              (Marking [Runs (summary_runs (issue :: issues)); PageBreak] []) [] 0
              H Hf Hi Ex) as (marks & commented & E & Hm).
  { intros i. rewrite firstn_O. tauto. }
  rewrite E.
  destruct (save env _) as [[]|e]; [| discriminate].
  intros [= <- <-]. cbn [highlighted app]. exact Hm.
Qed.

Lemma section_paragraphs_in_turn_witness :
  match add_comments
          (Environment (Returned "/tmp/review") (fun _ => Returned tt)
                       (fun _ => Paragraph "Normal" [] ""))
          (process_document
             (Filesystem (fun _ => true)
                (fun _ => Returned (Document [ Paragraph "Heading 1" [] "Governing law";
                                               Paragraph "Normal" [] "The courts of ADGM." ]
                                             [])))
             "/uploads/contract.docx")
          [ IssueValues (Text "Governing law") (Text "High") (Text "Wrong courts") PyNone
                        (Text "ADGM Regulations");
            IssueValues (Text "Governing law") (Text "Low") (Text "No seat") PyNone
                        (Text "ADGM Regulations");
            IssueValues (Text "Governing law") (Text "Medium") (Text "No language") PyNone
                        (Text "ADGM Regulations") ] with
  | Some (reviewed, m) => map fst (highlighted m) = [0; 1; 0]%nat
  | None => False
  end.
Proof.
  destruct (process_document _ "/uploads/contract.docx") as [e|doc] eqn:H.
  { vm_compute in H. discriminate. }
  destruct (add_comments _ _ _) as [[reviewed m]|] eqn:E.
  - refine (eq_trans
              (section_paragraphs_in_turn _ _ _ doc "Governing law"
                 (Section_ "Governing law" ("The courts of ADGM." ++ newline) [0; 1]%nat)
                 _ reviewed m H _ _ E) _).
    + vm_compute in H. injection H as <-. vm_compute. reflexivity.
    + repeat constructor.
    + reflexivity.
  - vm_compute in H. injection H as <-. vm_compute in E. discriminate.
Defined.

End Comments.

(** ** From the analysis to the comments *)

Section Pipeline.
Import PyStr PyMore Json DocumentProcessor DocumentAnalyzer Processing Review Words.






(** The text of an issue is taken from the answer as it is: a form feed
    on the line of the issue comes into its text, and the document gets
    no reviewed file. *)
Example control_character_from_the_answer :
  let env := Environment (Returned "/tmp/review") (fun _ => Returned tt)
                         (fun _ => Paragraph "Normal" [] "") in
  let doc := Processed (DocInfo "contract.docx" ("The courts of ADGM." ++ newline)
                          [Section_ "General" ("The courts of ADGM." ++ newline) [0%nat]])
                       "/uploads/contract.docx"
                       (Document [Paragraph "Normal" [] "The courts of ADGM."] []) in
  let self := init (fun _ => Returned ("Issue: no notice" ++ chr 12 ++ "period")) in
  let type_info := DocTypeInfo "Employment Contract" 0.9 (Some "employment contract") None in
  exists issues,
    map read (analyze_document self (info doc) type_info) = map Some issues
    /\ add_comments env (Done doc) issues = None.
Proof.
  exists [IssueValues (Text "General") (Text "Medium")
                      (Text ("no notice" ++ chr 12 ++ "period")) PyNone
                      (Text "ADGM Regulations")].
  split; vm_compute; reflexivity.
Qed.

End Pipeline.
